(** * CrisisIntel: the booking allocation engine

    A shallow embedding of the two booking endpoints of
    [Backend/crisisintel/api/views.py] ([book_service], [book_appointment])
    and of the lifecycle handlers next to them
    ([request_cancel_service_booking], [confirm_service_booking],
    [hide_service_booking], [request_cancel_appointment],
    [approve_cancel_appointment]), with the properties of the design
    document stated and settled against them.

    Conventions of the embedding.
    - A Python [datetime] is a [Z]: microseconds since 1970-01-01 00:00:00
      UTC.  [DATE(x)] is the day number [x / usec_per_day], [strftime] with
      [%H:%M] renders the minute of the day.
    - An [HH:MM] text is a [string], as in the source; [hhmm_to_min] and
      [min_to_hhmm] are the two local helpers of [book_service].
    - A handler is a function from the store (the tables it reads and
      writes, the advisory locks the session holds, an event log) to a
      response and a new store.  The clock, the engine, the answer of
      [GET_LOCK] and the success of the data-modifying statement come from
      an environment; [utcnow()] is one instant per request.
    - Each handler runs atomically: interleavings of two requests are not
      part of this model.
    - Requests arrive decoded: ids are integers.  A text the handler parses
      itself (a time, a window bound, a name) is a [string], one [ascii] for
      each character, the characters being the code points below 256.  A
      text the handler only measures and cuts (notes, a reason) is a
      [Py.str], the list of its code points.
    - [scheduled_at] of [book_service] is any JSON value.  The handler never
      parses it as a whole: the database reads a date from it ([DATE(%s)]),
      and the handler cuts characters 0 to 10 and 11 to 16 out of it, has the
      database read the first and builds a [datetime] from it.  The request
      holds what each of these readers finds, one independent of the other;
      a well-formed timestamp is the case where they all find the same day.
      The timestamps of [book_appointment], which [fromisoformat] parses,
      are well formed or absent.
    - Left out: the messaging tables (the direct message an ambulance
      booking sends), [incident_events], and the notification payloads
      beyond the id of their subject. *)

From Stdlib Require Import ZArith List String Ascii Bool Lia PrimFloat.
Import ListNotations.
Open Scope string_scope.
Open Scope Z_scope.

(** ** Python primitives used by the handlers *)

Module Py.

(** A [str] that is only measured and cut: the list of its code points. *)
Definition str := list N.

Definition str_of (s : string) : str := map N_of_ascii (list_ascii_of_string s).

(** [int(s)] on text, in base ten: blanks around, an optional sign, and
    decimal digits, with single underscores allowed between digits; [None]
    where Python raises.  The blanks are the white space of the code points
    below 256 that [int] skips: tab to carriage return, space, U+0085 and
    U+00A0. *)
Definition is_digit (c : ascii) : bool :=
  let n := nat_of_ascii c in (48 <=? n)%nat && (n <=? 57)%nat.

Definition digit_val (c : ascii) : Z := Z.of_nat (nat_of_ascii c - 48).

Definition is_space (c : ascii) : bool :=
  let n := nat_of_ascii c in
  ((9 <=? n)%nat && (n <=? 13)%nat) || (n =? 32)%nat || (n =? 133)%nat || (n =? 160)%nat.

Fixpoint lstrip (s : string) : string :=
  match s with
  | String c r => if is_space c then lstrip r else s
  | EmptyString => s
  end.

Fixpoint all_space (s : string) : bool :=
  match s with
  | String c r => is_space c && all_space r
  | EmptyString => true
  end.

(** What follows a digit: more digits, an underscore and a digit, or blanks
    to the end. *)
Fixpoint digits_val (acc : Z) (s : string) : option Z :=
  match s with
  | EmptyString => Some acc
  | String c r =>
      if is_digit c then digits_val (acc * 10 + digit_val c) r
      else if Ascii.eqb c "_"%char then
        match r with
        | String c' r' =>
            if is_digit c' then digits_val (acc * 10 + digit_val c') r' else None
        | EmptyString => None
        end
      else if all_space s then Some acc else None
  end.

Definition nonempty_digits (s : string) : option Z :=
  match s with
  | String c r => if is_digit c then digits_val (digit_val c) r else None
  | EmptyString => None
  end.

Definition int (s : string) : option Z :=
  match lstrip s with
  | String "-"%char r => option_map Z.opp (nonempty_digits r)
  | String "+"%char r => nonempty_digits r
  | s => nonempty_digits s
  end.

(** [s.split(sep)] for a one-character separator. *)
Fixpoint split (sep : ascii) (s : string) : list string :=
  match s with
  | EmptyString => [EmptyString]
  | String c r =>
      if Ascii.eqb c sep then EmptyString :: split sep r
      else match split sep r with
           | h :: t => String c h :: t
           | [] => [String c EmptyString]
           end
  end.

(** [s[:n]] *)
Definition prefix (n : nat) (s : string) : string := substring 0 n s.

(** [f"{n:02d}"] for [0 <= n]. *)
Definition digit_char (n : Z) : ascii := ascii_of_nat (48 + Z.to_nat n).

Fixpoint dec_digits (fuel : nat) (n : Z) (acc : string) : string :=
  match fuel with
  | O => acc
  | S f =>
      let acc' := String (digit_char (n mod 10)) acc in
      if n / 10 =? 0 then acc' else dec_digits f (n / 10) acc'
  end.

Definition fmt_02d (n : Z) : string :=
  if n <? 10 then String "0"%char (String (digit_char n) EmptyString)
  else dec_digits (S (Z.to_nat (Z.log2 n))) n EmptyString.

(** [s.lower()] and [sub in s]; the capitals below 256 are A to Z and
    U+00C0 to U+00DE without the multiplication sign. *)
Definition lower_char (c : ascii) : ascii :=
  let n := nat_of_ascii c in
  if ((65 <=? n)%nat && (n <=? 90)%nat)
     || ((192 <=? n)%nat && (n <=? 222)%nat && negb (n =? 215)%nat)
  then ascii_of_nat (n + 32) else c.

Fixpoint lower (s : string) : string :=
  match s with
  | EmptyString => EmptyString
  | String c r => String (lower_char c) (lower r)
  end.

Definition contains (sub s : string) : bool :=
  match index 0 sub s with Some _ => true | None => false end.

(** Truthiness of a text and of an integer. *)
Definition truthy_str (s : string) : bool := negb (String.eqb s EmptyString).
Definition truthy_int (n : Z) : bool := negb (n =? 0).

(** [range(lo, hi)] *)
Definition range (lo hi : Z) : list Z :=
  map (fun k => lo + Z.of_nat k) (seq 0 (Z.to_nat (hi - lo))).

(** [x in s] for a set of texts. *)
Definition mem (x : string) (s : list string) : bool :=
  existsb (String.eqb x) s.

End Py.

(** ** The slot allocator (local helpers and search loop of [book_service]) *)

(** [hhmm_to_min] (and its twin [_hhmm_to_min]): [None] where the source
    catches the exception. *)
Definition hhmm_to_min (hhmm : string) : option Z :=
  match Py.split ":"%char hhmm with
  | [h; m] =>
      match Py.int h, Py.int m with
      | Some h, Some m => Some (h * 60 + m)
      | _, _ => None
      end
  | _ => None
  end.

Definition min_to_hhmm (minutes : Z) : string :=
  let minutes := minutes mod (24 * 60) in
  let h := minutes / 60 in
  let m := minutes mod 60 in
  (Py.fmt_02d h ++ ":" ++ Py.fmt_02d m)%string.

(** The two conditional assignments that bring the desired minute into the
    window. *)
Definition clamp_desired (desired_min wstart_min wend_min : Z) : Z :=
  let desired_min := if desired_min <? wstart_min then wstart_min else desired_min in
  if desired_min >? wend_min then wend_min else desired_min.

Section NearestSlot.

Variables (desired_min wstart_min wend_min step : Z) (taken : list string).

Definition max_iters : Z :=
  Z.max 1 ((wend_min - wstart_min) / Z.max 1 step).

Definition signs_of (i : Z) : list Z := if i =? 0 then [0] else [1; -1].

(** The inner [for sign in ...] loop: [continue] outside the window,
    [break] on the first free candidate. *)
Fixpoint probe_signs (i : Z) (signs : list Z) : option string :=
  match signs with
  | [] => None
  | sign :: rest =>
      let cm := desired_min + sign * i * step in
      if (cm <? wstart_min) || (cm >? wend_min) then probe_signs i rest
      else
        let hhmm := min_to_hhmm cm in
        if negb (Py.mem hhmm taken) then Some hhmm
        else probe_signs i rest
  end.

(** The outer [for i in range(0, max_iters+1)] loop, left as soon as
    [found] is set. *)
Fixpoint probe_rounds (rounds : list Z) : option string :=
  match rounds with
  | [] => None
  | i :: rest =>
      match probe_signs i (signs_of i) with
      | Some found => Some found
      | None => probe_rounds rest
      end
  end.

Definition nearest_slot : option string :=
  probe_rounds (Py.range 0 (max_iters + 1)).

End NearestSlot.

(** The candidates d, d+step, d-step, d+2*step, d-2*step, ... up to
    distance n*step, in that order, and what makes one of them admissible:
    it lies in the window and its HH:MM text is not taken. *)
Definition probe_order (d step : Z) (n : nat) : list Z :=
  d :: flat_map (fun k => [d + Z.of_nat k * step; d - Z.of_nat k * step]) (seq 1 n).

Definition spec_admissible (ws we : Z) (taken : list string) (cm : Z) : bool :=
  (ws <=? cm) && (cm <=? we) && negb (Py.mem (min_to_hhmm cm) taken).




(** ** Time *)

Definition datetime := Z.

Definition usec_per_sec : Z := 1000000.
Definition usec_per_min : Z := 60 * usec_per_sec.
Definition usec_per_day : Z := 86400 * usec_per_sec.

(** SQL [DATE(x)], as a day number; Python [x.strftime('%Y-%m-%d')]. *)
Definition DATE (t : datetime) : Z := t / usec_per_day.

(** What SQL [DATE(%s)] makes of a parameter: a day, or NULL where the text
    (or number) reads as no date.  [a = b] in a WHERE clause does not hold
    where one side is NULL.  A day number stands for its own date. *)
Inductive sql_date :=
  | NULL
  | Day (d : Z).
Coercion Day : Z >-> sql_date.

Definition same_date (d : Z) (on : sql_date) : bool :=
  match on with
  | Day d' => d =? d'
  | NULL => false
  end.

Definition minute_of_day (t : datetime) : Z := (t / usec_per_min) mod (24 * 60).

(** [x.strftime('%H:%M')], and the first five characters of SQL [TIME(x)]. *)
Definition strftime_HM (t : datetime) : string := min_to_hhmm (minute_of_day t).

(** [x.strftime('%Y-%m-%d %H:%M:%S')] read back as a DATETIME: the
    microseconds are dropped. *)
Definition strftime_seconds (t : datetime) : datetime :=
  (t / usec_per_sec) * usec_per_sec.

(** [datetime(y, m, d, hh, mm, 0)] from a day number and a minute of the day. *)
Definition datetime_at (day minutes : Z) : datetime :=
  day * usec_per_day + minutes * usec_per_min.

Definition timedelta_minutes (n : Z) : Z := n * usec_per_min.

(** ** Tables *)

Inductive status : Set :=
  | booked | confirmed | declined | cancelled | done | cancel_requested.

Definition status_eqb (a b : status) : bool :=
  match a, b with
  | booked, booked | confirmed, confirmed | declined, declined
  | cancelled, cancelled | done, done | cancel_requested, cancel_requested => true
  | _, _ => false
  end.

Record hospital_service := {
  hs_id : Z;
  hs_hospital_user_id : Z;
  hs_name : option string;
  hs_available : Z;
  hs_max_per_day : option Z;
  hs_window_start_time : option string;
  hs_window_end_time : option string;
  hs_duration_minutes : option Z
}.

Record service_booking := {
  sb_id : Z;
  sb_user_id : Z;
  sb_hospital_user_id : Z;
  sb_service_id : Z;
  sb_scheduled_at : datetime;
  sb_status : status;
  sb_serial : Z;
  sb_approx_time : option string;
  sb_notes : option Py.str;
  sb_lat : option float;
  sb_lng : option float;
  sb_crisis_id : option Z;
  sb_hidden_by_user : Z
}.

Record doctor_schedule := {
  ds_doctor_user_id : Z;
  ds_hospital_user_id : Z;
  ds_weekday : Z;
  ds_start_time : string;
  ds_end_time : string;
  ds_max_per_day : option Z
}.

Record appointment := {
  ap_id : Z;
  ap_patient_user_id : Z;
  ap_doctor_user_id : Z;
  ap_hospital_user_id : Z;
  ap_starts_at : datetime;
  ap_ends_at : datetime;
  ap_status : status;
  ap_serial : Z;
  ap_approx_time : option string;
  ap_hidden_by_patient : Z
}.

Record crisis := { cr_id : Z; cr_incident_id : option Z }.
Record incident := { inc_id : Z; inc_status : string }.
Record incident_hospital_resource := {
  ihr_id : Z;
  ihr_incident_id : Z;
  ihr_hospital_user_id : Z;
  ihr_available_beds : option Z
}.

(** The advisory lock names: [f"svc:{service_id}:{date_part}"] and
    [f"appointments:{doctor_id}:{hospital_id}:{starts_at[:10]}"].  A
    [date_part] that is the text of a date is named by its day; one that is
    not, or [None], by itself. *)
Inductive lock_key :=
  | SvcKey (service_id day : Z)
  | SvcTextKey (service_id : Z) (date_part : option string)
  | ApptKey (doctor_id hospital_id day : Z).

Definition lock_key_eqb (a b : lock_key) : bool :=
  match a, b with
  | SvcKey s d, SvcKey s' d' => (s =? s') && (d =? d')
  | SvcTextKey s None, SvcTextKey s' None => s =? s'
  | SvcTextKey s (Some t), SvcTextKey s' (Some t') => (s =? s') && String.eqb t t'
  | ApptKey x y d, ApptKey x' y' d' => (x =? x') && (y =? y') && (d =? d')
  | _, _ => false
  end.

(** What a handler does besides answering, in order.  An insert records the
    locks the session holds at that moment. *)
Inductive event :=
  | EvGetLock (key : lock_key) (granted : bool)
  | EvReleaseLock (key : lock_key)
  | EvInsertServiceBooking (id : Z) (held : list lock_key)
  | EvInsertAppointment (id : Z) (held : list lock_key)
  | EvNotify (user_id : Z) (ntype : string) (subject_id : Z).

Record store := {
  hospital_services : list hospital_service;
  service_bookings : list service_booking;
  sb_auto_increment : Z;
  doctor_schedules : list doctor_schedule;
  hospital_doctors : list (Z * Z);
  appointments : list appointment;
  ap_auto_increment : Z;
  crises : list crisis;
  incidents : list incident;
  incident_hospital_resources : list incident_hospital_resource;
  locks_held : list lock_key;
  log : list event
}.

Definition with_service_bookings (s : store) (t : list service_booking) (next : Z) : store :=
  {| hospital_services := hospital_services s; service_bookings := t;
     sb_auto_increment := next; doctor_schedules := doctor_schedules s;
     hospital_doctors := hospital_doctors s; appointments := appointments s;
     ap_auto_increment := ap_auto_increment s; crises := crises s;
     incidents := incidents s;
     incident_hospital_resources := incident_hospital_resources s;
     locks_held := locks_held s; log := log s |}.

Definition with_appointments (s : store) (t : list appointment) (next : Z) : store :=
  {| hospital_services := hospital_services s; service_bookings := service_bookings s;
     sb_auto_increment := sb_auto_increment s; doctor_schedules := doctor_schedules s;
     hospital_doctors := hospital_doctors s; appointments := t;
     ap_auto_increment := next; crises := crises s;
     incidents := incidents s;
     incident_hospital_resources := incident_hospital_resources s;
     locks_held := locks_held s; log := log s |}.

Definition with_session (s : store) (held : list lock_key) (l : list event) : store :=
  {| hospital_services := hospital_services s; service_bookings := service_bookings s;
     sb_auto_increment := sb_auto_increment s; doctor_schedules := doctor_schedules s;
     hospital_doctors := hospital_doctors s; appointments := appointments s;
     ap_auto_increment := ap_auto_increment s; crises := crises s;
     incidents := incidents s;
     incident_hospital_resources := incident_hospital_resources s;
     locks_held := held; log := l |}.

Definition emit (ev : event) (s : store) : store :=
  with_session s (locks_held s) (log s ++ [ev]).

(** What the handler cannot decide by itself. *)
Record env := {
  now : datetime;          (* datetime.utcnow() *)
  engine_mysql : bool;     (* the backing store knows GET_LOCK / RELEASE_LOCK *)
  lock_granted : bool;     (* GET_LOCK(key, 10) answers 1 within the 10 seconds *)
  write_ok : bool          (* the data-modifying statement does not raise *)
}.

(** [query(sql, params)] with [many=False]: the row when exactly one row
    matches (ids are primary keys), nothing to use otherwise. *)
Definition select_one {A : Type} (p : A -> bool) (t : list A) : option A :=
  match filter p t with
  | [r] => Some r
  | _ => None
  end.

Definition count_rows {A : Type} (p : A -> bool) (t : list A) : Z :=
  Z.of_nat (List.length (filter p t)).

(** [SELECT GET_LOCK(key, 10)]: raises (caught by the caller) where the
    engine has no such function. *)
Definition GET_LOCK (e : env) (key : lock_key) (s : store) : bool * store :=
  let granted := engine_mysql e && lock_granted e in
  (granted,
   with_session s (if granted then key :: locks_held s else locks_held s)
                  (log s ++ [EvGetLock key granted])).

Definition RELEASE_LOCK (key : lock_key) (s : store) : store :=
  with_session s (filter (fun k => negb (lock_key_eqb k key)) (locks_held s))
                 (log s ++ [EvReleaseLock key]).

(** [_notify]: best effort, never raises. *)
Definition _notify (user_id : Z) (ntype : string) (subject_id : Z) (s : store) : store :=
  emit (EvNotify user_id ntype subject_id) s.

(** ** Responses *)

Inductive response :=
  | JsonError (code : string) (detail : list (string * string)) (http : Z)
  | JsonServiceBooked (id serial : Z) (approx_time : option string) (scheduled_at : datetime)
  | JsonAppointmentBooked (id serial : Z) (approx_time : option string)
  | JsonOk (new_status : option status)
  | ServerError.   (* an exception left the view: HTTP 500 *)

Definition err (code : string) (http : Z) : response := JsonError code [] http.

(** ** [book_service] *)

(** [scheduled_at[:10]], for a text of ten characters or more: the text
    of a date ('2025-01-06'), or any other ten characters, with the date
    [DATE(%s)] reads from them and the day of
    [datetime(int(y), int(m), int(d), ...)] over their split at '-', [None]
    where that raises. *)
Inductive date_part :=
  | IsoDate (day : Z)
  | OtherText (text : string) (date : sql_date) (day : option Z).

Definition dp_date (p : date_part) : sql_date :=
  match p with
  | IsoDate d => Day d
  | OtherText _ date _ => date
  end.

Definition dp_day (p : date_part) : option Z :=
  match p with
  | IsoDate d => Some d
  | OtherText _ _ day => day
  end.

(** A truthy [scheduled_at] as its readers see it: the date [DATE(%s)]
    reads from the whole value, its first ten characters when it is a text
    that has them, and characters 11 to 16 when it has sixteen or more. *)
Record scheduled_at := {
  sa_date : sql_date;
  sa_date_part : option date_part;
  sa_time_part : option string
}.

(** A well-formed timestamp, 'YYYY-MM-DD' alone or followed by a time: its
    day and, when it has sixteen characters or more, characters 11 to 16.
    Every reader finds the day. *)
Record sched_text := { st_day : Z; st_time : option string }.

Definition well_formed (t : sched_text) : scheduled_at :=
  {| sa_date := Day (st_day t); sa_date_part := Some (IsoDate (st_day t));
     sa_time_part := st_time t |}.

(** [notes] is absent (or null) or a text; any other JSON value is stored
    as the empty text, which is what [Some []] gives here. *)
Record book_service_request := {
  rq_service_id : Z;
  rq_hospital_user_id : Z;
  rq_scheduled_at : option scheduled_at;   (* [None]: absent, null or falsy *)
  rq_notes : option Py.str;
  rq_lat : option float;
  rq_lng : option float;
  rq_crisis_id : option Z
}.

(** utils.py; [len] and the slice count code points. *)
Definition _limit_str (val : Py.str) (max_len : nat) : Py.str :=
  if (max_len <? List.length val)%nat then firstn max_len val else val.

Definition _incident_status_for_crisis (crisis_id : Z) (s : store) : option string :=
  match select_one (fun c => cr_id c =? crisis_id) (crises s) with
  | Some c =>
      match cr_incident_id c with
      | Some i => option_map inc_status (select_one (fun x => inc_id x =? i) (incidents s))
      | None => None
      end
  | None => None
  end.

Definition _require_crisis_open (crisis_id : Z) (s : store) : option response :=
  match _incident_status_for_crisis crisis_id s with
  | Some st =>
      if String.eqb st "closed" || String.eqb st "cancelled"
      then Some (JsonError "crisis_closed" [("status", st)] 400)
      else None
  | None => None
  end.

Definition crisis_gate (crisis_id : option Z) (s : store) : option response :=
  match crisis_id with
  | Some c => if Py.truthy_int c then _require_crisis_open c s else None
  | None => None
  end.

Definition is_ambulance (svc : hospital_service) : bool :=
  Py.contains "ambulance"
    (Py.lower (match hs_name svc with Some n => n | None => "" end)).

(** The bed pre-check of a crisis-linked booking. *)
Definition beds_gate (crisis_id : option Z) (svc : hospital_service)
    (hospital_user_id : Z) (s : store) : option response :=
  match crisis_id with
  | Some c =>
      if Py.truthy_int c then
        match select_one (fun r => cr_id r =? c) (crises s) with
        | Some cr =>
            match cr_incident_id cr with
            | Some inc =>
                if Py.truthy_int inc && negb (is_ambulance svc) then
                  match select_one
                          (fun r => (ihr_incident_id r =? inc)
                                    && (ihr_hospital_user_id r =? hospital_user_id))
                          (incident_hospital_resources s) with
                  | Some r =>
                      match ihr_available_beds r with
                      | Some beds => if beds <=? 0 then Some (err "no_beds" 400) else None
                      | None => None
                      end
                  | None => None
                  end
                else None
            | None => None
            end
        | None => None
        end
      else None
  | None => None
  end.

(** [... WHERE service_id=%s AND DATE(scheduled_at)=DATE(%s) AND status='booked'] *)
Definition booked_on (service_id : Z) (day : sql_date) (b : service_booking) : bool :=
  (sb_service_id b =? service_id) && same_date (DATE (sb_scheduled_at b)) day
  && status_eqb (sb_status b) booked.

(** [... WHERE user_id=%s AND service_id=%s AND DATE(scheduled_at)=DATE(%s)
    AND status='booked'] *)
Definition user_booked_on (user_id service_id : Z) (day : sql_date) (b : service_booking)
    : bool :=
  (sb_user_id b =? user_id) && booked_on service_id day b.

(** [str(ws)[:5] if ws else None] *)
Definition window_text (w : option string) : option string :=
  match w with
  | Some t => if Py.truthy_str t then Some (Py.prefix 5 t) else None
  | None => None
  end.

Definition truthy_text (t : option string) : option string :=
  match t with
  | Some x => if Py.truthy_str x then Some x else None
  | None => None
  end.

(** The strict window check of a non-ambulance booking. *)
Definition window_gate (ambulance : bool) (wstart wend time_part : option string)
    : option response :=
  if ambulance then None
  else
    match wstart, wend, truthy_text time_part with
    | Some ws, Some we, Some tp =>
        match hhmm_to_min tp, hhmm_to_min ws, hhmm_to_min we with
        | Some tmin, Some wmin, Some emin =>
            if (tmin <? wmin) || (tmin >? emin)
            then Some (JsonError "outside_window"
                         [("window_start", ws); ("window_end", we)] 400)
            else None
        | _, _, _ => None
        end
    | _, _, _ => None
    end.

(** How control leaves a block of statements. *)
Inductive outcome (A : Type) :=
  | Done (a : A)               (* falls through *)
  | Return (r : response)      (* a [return] statement *)
  | Raise.                     (* an exception nobody catches *)
Arguments Done {A} a.
Arguments Return {A} r.
Arguments Raise {A}.

Record allocation := {
  al_serial : Z;
  al_approx_time : option string;
  al_scheduled_to_save : datetime
}.

(** [if desired_min is not None: ...]; comparing with [None] raises. *)
Definition clamp_step (desired_min wstart_min wend_min : option Z)
    : outcome (option Z) :=
  match desired_min with
  | None => Done None
  | Some d =>
      match wstart_min, wend_min with
      | Some ws, Some we => Done (Some (clamp_desired d ws we))
      | _, _ => Raise
      end
  end.

(** The values the [try] block derives from the service row and the
    request before it searches: the taken HH:MM texts of the day, the step,
    the desired text and the window bounds in minutes. *)
Definition taken_on (service_id : Z) (day : sql_date) (s : store) : list string :=
  map (fun b => strftime_HM (sb_scheduled_at b))
      (filter (booked_on service_id day) (service_bookings s)).

Definition slot_step (svc : hospital_service) : Z :=
  match hs_duration_minutes svc with
  | Some d => if Py.truthy_int d then d else 30
  | None => 30
  end.

Definition desired_text (svc : hospital_service) (time_part : option string) : string :=
  match truthy_text time_part with
  | Some t => t
  | None =>
      match window_text (hs_window_start_time svc) with
      | Some w => w
      | None => "09:00"
      end
  end.

Definition wstart_min_of (svc : hospital_service) : option Z :=
  match window_text (hs_window_start_time svc) with
  | Some w => hhmm_to_min w
  | None => Some 0
  end.

Definition wend_min_of (svc : hospital_service) : option Z :=
  match window_text (hs_window_end_time svc) with
  | Some w => hhmm_to_min w
  | None => Some (23 * 60 + 59)
  end.

(** The booking date as the [try] block uses it: [DATE(date_part or
    scheduled_at)] for the serial and the taken times, and the day of
    [datetime(...)] over [(date_part or '1970-01-01').split('-')], [None]
    where that raises.  A day number stands for the date both agree on. *)
Record booking_date := { bd_date : sql_date; bd_day : option Z }.

Definition on_day (d : Z) : booking_date := {| bd_date := Day d; bd_day := Some d |}.
Coercion on_day : Z >-> booking_date.

(** The statements of the [try] block that follow the lock request. *)
Definition allocate (e : env) (svc : hospital_service) (service_id : Z)
    (date_part : booking_date) (time_part : option string) (s : store)
    : outcome allocation :=
  let serial :=
    count_rows (booked_on service_id (bd_date date_part)) (service_bookings s) + 1 in
  let taken := taken_on service_id (bd_date date_part) s in
  let step := slot_step svc in
  let desired_min := hhmm_to_min (desired_text svc time_part) in
  let wstart_min := wstart_min_of svc in
  let wend_min := wend_min_of svc in
  match clamp_step desired_min wstart_min wend_min with
  | Raise => Raise
  | Return r => Return r
  | Done desired_min =>
      if is_ambulance svc then
        let eta := now e + timedelta_minutes 15 in
        Done {| al_serial := serial;
                al_approx_time := Some (strftime_HM eta);
                al_scheduled_to_save := strftime_seconds eta |}
      else
        match desired_min, wstart_min, wend_min with
        | Some d, Some ws, Some we =>
            match nearest_slot d ws we step taken with
            | None => Return (err "full" 400)
            | Some found =>
                let base :=
                  match bd_day date_part, hhmm_to_min found with
                  | Some day, Some m => datetime_at day m
                  | _, _ => now e
                  end in
                Done {| al_serial := serial;
                        al_approx_time := Some (strftime_HM base);
                        al_scheduled_to_save := strftime_seconds base |}
            end
        | _, _, _ => Raise
        end
  end.

(** The date of the per-day checks: [DATE(effective_when)], where
    [effective_when] is now for an ambulance and [scheduled_at or now]
    otherwise. *)
Definition effective_date (e : env) (svc : hospital_service)
    (scheduled_at : option scheduled_at) : sql_date :=
  if is_ambulance svc then Day (DATE (now e))
  else match scheduled_at with Some t => sa_date t | None => Day (DATE (now e)) end.

(** [date_part] and [time_part] as the [try] block derives them: of now for
    an ambulance; today and no time without [scheduled_at]; else the
    characters cut out of [scheduled_at], where it has them. *)
Definition date_part_of (e : env) (svc : hospital_service)
    (scheduled_at : option scheduled_at) : option date_part :=
  if is_ambulance svc then Some (IsoDate (DATE (now e)))
  else match scheduled_at with
       | Some t => sa_date_part t
       | None => Some (IsoDate (DATE (now e)))
       end.

Definition time_part_of (e : env) (svc : hospital_service)
    (scheduled_at : option scheduled_at) : option string :=
  if is_ambulance svc then Some (strftime_HM (now e))
  else match scheduled_at with Some t => sa_time_part t | None => None end.

(** [DATE(date_part or scheduled_at)] and the day of
    [(date_part or '1970-01-01')]; without a [date_part] there is a
    [scheduled_at], and day 0 is 1970-01-01. *)
Definition booking_date_of (e : env) (svc : hospital_service)
    (scheduled_at : option scheduled_at) : booking_date :=
  match date_part_of e svc scheduled_at with
  | Some p => {| bd_date := dp_date p; bd_day := dp_day p |}
  | None =>
      {| bd_date := match scheduled_at with Some t => sa_date t | None => NULL end;
         bd_day := Some 0 |}
  end.

Definition svc_lock_key (service_id : Z) (date_part : option date_part) : lock_key :=
  match date_part with
  | Some (IsoDate day) => SvcKey service_id day
  | Some (OtherText text _ _) => SvcTextKey service_id (Some text)
  | None => SvcTextKey service_id None
  end.

Definition book_service (e : env) (user_id : Z) (rq : book_service_request)
    (s : store) : response * store :=
  let service_id := rq_service_id rq in
  let hospital_user_id := rq_hospital_user_id rq in
  let scheduled_at := rq_scheduled_at rq in
  let notes := option_map (fun n => _limit_str n 1000) (rq_notes rq) in
  let crisis_id := rq_crisis_id rq in
  match crisis_gate crisis_id s with
  | Some r => (r, s)
  | None =>
  if negb (Py.truthy_int service_id && Py.truthy_int hospital_user_id)
  then (err "missing_fields" 400, s) else
  match select_one (fun v => hs_id v =? service_id) (hospital_services s) with
  | None => (err "service_not_found" 404, s)
  | Some svc =>
  if negb (hs_hospital_user_id svc =? hospital_user_id)
  then (err "service_not_found" 404, s) else
  if negb (hs_available svc =? 1) then (err "service_unavailable" 400, s) else
  match beds_gate crisis_id svc hospital_user_id s with
  | Some r => (r, s)
  | None =>
  (* effective date for the per-day checks (ambulance uses today) *)
  let effective_day := effective_date e svc scheduled_at in
  (* one per day per user for the same service (booked status) *)
  if 0 <? count_rows (user_booked_on user_id service_id effective_day) (service_bookings s)
  then (err "one_per_day" 400, s) else
  (* max_per_day capacity if set (>0) *)
  let mpd := match hs_max_per_day svc with Some n => n | None => 0 end in
  if (0 <? mpd)
     && (mpd <=? count_rows (booked_on service_id effective_day) (service_bookings s))
  then (err "full" 400, s) else
  (* try: *)
  let date_part := date_part_of e svc scheduled_at in
  let time_part := time_part_of e svc scheduled_at in
  match window_gate (is_ambulance svc)
          (window_text (hs_window_start_time svc))
          (window_text (hs_window_end_time svc)) time_part with
  | Some r => (r, s)           (* [lock_key] is not bound yet: nothing to release *)
  | None =>
  let lock_key := svc_lock_key service_id date_part in
  let '(_, s) := GET_LOCK e lock_key s in
  let result :=
    allocate e svc service_id (booking_date_of e svc scheduled_at) time_part s in
  (* finally: *)
  let s := RELEASE_LOCK lock_key s in
  match result with
  | Return r => (r, s)
  | Raise => (ServerError, s)
  | Done a =>
      (* after the try statement *)
      if write_ok e then
        let bid := sb_auto_increment s in
        let row :=
          {| sb_id := bid; sb_user_id := user_id;
             sb_hospital_user_id := hospital_user_id; sb_service_id := service_id;
             sb_scheduled_at := al_scheduled_to_save a; sb_status := booked;
             sb_serial := al_serial a; sb_approx_time := al_approx_time a;
             sb_notes := notes; sb_lat := rq_lat rq; sb_lng := rq_lng rq;
             sb_crisis_id := crisis_id; sb_hidden_by_user := 0 |} in
        let s := emit (EvInsertServiceBooking bid (locks_held s))
                   (with_service_bookings s (service_bookings s ++ [row]) (bid + 1)) in
        let s := _notify hospital_user_id "service_booked" bid s in
        let s := _notify user_id "service_booking_confirmed" bid s in
        (JsonServiceBooked bid (al_serial a) (al_approx_time a) (al_scheduled_to_save a), s)
      else (ServerError, s)
  end
  end
  end
  end
  end.

(** ** [book_appointment] *)

Record book_appointment_request := {
  ra_doctor_user_id : Z;
  ra_hospital_user_id : Z;
  ra_starts_at : option datetime;
  ra_ends_at : option datetime
}.

(** Python's [weekday()] (Monday = 0) of a day number; day 0 is a Thursday. *)
Definition py_weekday (day : Z) : Z := (day + 3) mod 7.

Fixpoint insert_by_start (x : doctor_schedule) (l : list doctor_schedule)
    : list doctor_schedule :=
  match l with
  | [] => [x]
  | y :: r =>
      if String.leb (ds_start_time x) (ds_start_time y) then x :: l
      else y :: insert_by_start x r
  end.

(** [ORDER BY start_time ASC] *)
Definition order_by_start_time (l : list doctor_schedule) : list doctor_schedule :=
  fold_right insert_by_start [] l.

(** The local [_hhmm]: characters 11 to 16 of the ISO text, if they look
    like HH:MM. *)
Definition _hhmm (iso : datetime) : option string :=
  let t := strftime_HM iso in
  if ((String.length t =? 5)%nat
      && match get 2 t with Some c => Ascii.eqb c ":"%char | None => false end)%bool
  then Some t else None.

(** [starts_at BETWEEN day_start AND day_end] with
    [day_start = starts_at[:10] + ' 00:00:00'] and
    [day_end = starts_at[:10] + ' 23:59:59']. *)
Definition between_day (day : Z) (t : datetime) : bool :=
  (day * usec_per_day <=? t) && (t <=? day * usec_per_day + 86399 * usec_per_sec).

Definition same_doctor_day (doctor_id hospital_id day : Z) (a : appointment) : bool :=
  (ap_doctor_user_id a =? doctor_id) && (ap_hospital_user_id a =? hospital_id)
  && between_day day (ap_starts_at a).

Definition same_patient_doctor_day (patient_id doctor_id hospital_id day : Z)
    (a : appointment) : bool :=
  (ap_patient_user_id a =? patient_id) && same_doctor_day doctor_id hospital_id day a.

(** [sum(int(x.get('max_per_day') or 0) for x in schedules)] *)
Definition sum_max_per_day (schedules : list doctor_schedule) : Z :=
  fold_right (fun x acc => match ds_max_per_day x with Some n => n | None => 0 end + acc)
             0 schedules.

(** The approximate start: first block of the day plus [(serial-1)] visits
    of the requested length; [None] where the source swallows an exception. *)
Definition approx_time_of (schedules : list doctor_schedule) (st en : datetime)
    (serial : Z) : option string :=
  let mins := Z.max 1 ((en - st) / usec_per_min) in
  match schedules with
  | first :: _ =>
      match Py.split ":"%char (ds_start_time first) with
      | h :: m :: _ =>
          match Py.int h, Py.int m with
          | Some h, Some m =>
              if (0 <=? h) && (h <=? 23) && (0 <=? m) && (m <=? 59)
              then Some (strftime_HM (datetime_at (DATE st) (h * 60 + m)
                                      + timedelta_minutes ((serial - 1) * mins)))
              else None
          | _, _ => None
          end
      | _ => None
      end
  | [] => Some (strftime_HM st)
  end.

(** The schedule blocks of the weekday of [starts_at] for the doctor at the
    hospital, [ORDER BY start_time ASC].  Python's Monday=0..Sunday=6 becomes
    the API's 0=Sunday. *)
Definition day_schedules (doctor_id hospital_id : Z) (starts_at : datetime) (s : store)
    : list doctor_schedule :=
  let weekday := (py_weekday (DATE starts_at) + 1) mod 7 in
  order_by_start_time
    (filter (fun d => (ds_doctor_user_id d =? doctor_id)
                      && (ds_hospital_user_id d =? hospital_id)
                      && (ds_weekday d =? weekday))
            (doctor_schedules s)).

Definition book_appointment (e : env) (user_id : Z) (rq : book_appointment_request)
    (s : store) : response * store :=
  let doctor_id := ra_doctor_user_id rq in
  let hospital_id := ra_hospital_user_id rq in
  match ra_starts_at rq, ra_ends_at rq with
  | Some starts_at, Some ends_at =>
  if negb (Py.truthy_int doctor_id && Py.truthy_int hospital_id)
  then (err "missing_fields" 400, s) else
  (* membership *)
  if negb (existsb (fun hd => (fst hd =? hospital_id) && (snd hd =? doctor_id))
                   (hospital_doctors s))
  then (err "not_member" 400, s) else
  let schedules := day_schedules doctor_id hospital_id starts_at s in
  match schedules with
  | [] => (err "no_schedule" 400, s)
  | _ =>
  match _hhmm starts_at, _hhmm ends_at with
  | Some st_hm, Some en_hm =>
  if String.leb en_hm st_hm then (err "invalid_range" 400, s) else
  (* the selected times fall entirely within one published block *)
  if negb (existsb (fun d => String.leb (Py.prefix 5 (ds_start_time d)) st_hm
                             && String.leb en_hm (Py.prefix 5 (ds_end_time d)))
                   schedules)
  then (err "outside_schedule" 400, s) else
  let max_per_day := sum_max_per_day schedules in
  let day := DATE starts_at in
  (* single appointment per patient with same doctor per day *)
  if existsb (same_patient_doctor_day user_id doctor_id hospital_id day) (appointments s)
  then (err "already_booked_same_day" 400, s) else
  let lock_key := ApptKey doctor_id hospital_id day in
  (* try: *)
  let '(got_lock, s) :=
    if engine_mysql e then GET_LOCK e lock_key s else (false, s) in
  let finally (s : store) : store :=
    if got_lock && engine_mysql e then RELEASE_LOCK lock_key s else s in
  (* capacity/serial within lock (or best-effort without it) *)
  let day_count := count_rows (same_doctor_day doctor_id hospital_id day) (appointments s) in
  if Py.truthy_int max_per_day && (max_per_day <=? day_count)
  then (err "capacity_full" 400, finally s) else
  let serial := day_count + 1 in
  let approx_time := approx_time_of schedules starts_at ends_at serial in
  if write_ok e then
    let appt_id := ap_auto_increment s in
    let row :=
      {| ap_id := appt_id; ap_patient_user_id := user_id;
         ap_doctor_user_id := doctor_id; ap_hospital_user_id := hospital_id;
         ap_starts_at := starts_at; ap_ends_at := ends_at; ap_status := booked;
         ap_serial := serial; ap_approx_time := approx_time;
         ap_hidden_by_patient := 0 |} in
    let s := emit (EvInsertAppointment appt_id (locks_held s))
               (with_appointments s (appointments s ++ [row]) (appt_id + 1)) in
    let s := finally s in
    let s := _notify doctor_id "appointment_booked" appt_id s in
    (JsonAppointmentBooked appt_id serial approx_time, s)
  else (ServerError, finally s)
  | _, _ => (err "invalid_time" 400, s)
  end
  end
  | _, _ => (err "missing_fields" 400, s)
  end.

(** ** Lifecycle handlers *)

Record user := { u_id : Z; u_role : string }.

Definition _require_admin (u : user) : bool := String.eqb (u_role u) "admin".
Definition _require_hospital (u : user) : bool := String.eqb (u_role u) "hospital".

Definition set_sb_status (st : status) (b : service_booking) : service_booking :=
  {| sb_id := sb_id b; sb_user_id := sb_user_id b;
     sb_hospital_user_id := sb_hospital_user_id b; sb_service_id := sb_service_id b;
     sb_scheduled_at := sb_scheduled_at b; sb_status := st;
     sb_serial := sb_serial b; sb_approx_time := sb_approx_time b;
     sb_notes := sb_notes b; sb_lat := sb_lat b; sb_lng := sb_lng b;
     sb_crisis_id := sb_crisis_id b; sb_hidden_by_user := sb_hidden_by_user b |}.

Definition set_sb_hidden_by_user (h : Z) (b : service_booking) : service_booking :=
  {| sb_id := sb_id b; sb_user_id := sb_user_id b;
     sb_hospital_user_id := sb_hospital_user_id b; sb_service_id := sb_service_id b;
     sb_scheduled_at := sb_scheduled_at b; sb_status := sb_status b;
     sb_serial := sb_serial b; sb_approx_time := sb_approx_time b;
     sb_notes := sb_notes b; sb_lat := sb_lat b; sb_lng := sb_lng b;
     sb_crisis_id := sb_crisis_id b; sb_hidden_by_user := h |}.

Definition set_ap_status (st : status) (a : appointment) : appointment :=
  {| ap_id := ap_id a; ap_patient_user_id := ap_patient_user_id a;
     ap_doctor_user_id := ap_doctor_user_id a;
     ap_hospital_user_id := ap_hospital_user_id a;
     ap_starts_at := ap_starts_at a; ap_ends_at := ap_ends_at a; ap_status := st;
     ap_serial := ap_serial a; ap_approx_time := ap_approx_time a;
     ap_hidden_by_patient := ap_hidden_by_patient a |}.

(** [UPDATE t SET ... WHERE cond] *)
Definition update_where {A : Type} (cond : A -> bool) (f : A -> A) (t : list A) : list A :=
  map (fun r => if cond r then f r else r) t.

Definition update_service_bookings (cond : service_booking -> bool)
    (f : service_booking -> service_booking) (s : store) : store :=
  with_service_bookings s (update_where cond f (service_bookings s)) (sb_auto_increment s).

Definition update_appointments (cond : appointment -> bool)
    (f : appointment -> appointment) (s : store) : store :=
  with_appointments s (update_where cond f (appointments s)) (ap_auto_increment s).

(** Patient cancels a booked service (no approval), at least 2 hours prior. *)
Definition request_cancel_service_booking (e : env) (user_id booking_id : Z)
    (s : store) : response * store :=
  match select_one (fun b => sb_id b =? booking_id) (service_bookings s) with
  | None => (err "not_found" 404, s)
  | Some sb =>
      if negb (sb_user_id sb =? user_id) then (err "forbidden" 403, s) else
      if negb (status_eqb (sb_status sb) booked) then (err "invalid_status" 400, s) else
      if sb_scheduled_at sb - now e <? 2 * 3600 * usec_per_sec
      then (err "too_late_to_cancel" 400, s) else
      if write_ok e then
        let s := update_service_bookings
                   (fun b => (sb_id b =? booking_id) && (sb_user_id b =? user_id)
                             && status_eqb (sb_status b) booked)
                   (set_sb_status cancelled) s in
        let s := _notify (sb_hospital_user_id sb) "service_booking_cancelled" booking_id s in
        let s := _notify user_id "service_booking_cancelled" booking_id s in
        (JsonOk (Some cancelled), s)
      else (ServerError, s)
  end.

(** Patient requests to cancel an appointment at least 2 hours prior to
    start: booked -> cancel_requested. *)
Definition request_cancel_appointment (e : env) (user_id appointment_id : Z)
    (s : store) : response * store :=
  match select_one (fun a => ap_id a =? appointment_id) (appointments s) with
  | None => (err "not_found" 404, s)
  | Some ap =>
      if negb (ap_patient_user_id ap =? user_id) then (err "forbidden" 403, s) else
      if negb (status_eqb (ap_status ap) booked) then (err "invalid_status" 400, s) else
      if ap_starts_at ap - now e <? 2 * 3600 * usec_per_sec
      then (err "too_late_to_cancel" 400, s) else
      if write_ok e then
        let s := update_appointments
                   (fun a => (ap_id a =? appointment_id) && (ap_patient_user_id a =? user_id)
                             && status_eqb (ap_status a) booked)
                   (set_ap_status cancel_requested) s in
        let s := _notify (ap_doctor_user_id ap) "appointment_cancel_requested" appointment_id s in
        (JsonOk (Some cancel_requested), s)
      else (ServerError, s)
  end.

(** Patient hides a service booking from their view (soft delete). *)
Definition hide_service_booking (e : env) (user_id booking_id : Z) (s : store)
    : response * store :=
  match select_one (fun b => sb_id b =? booking_id) (service_bookings s) with
  | None => (err "not_found" 404, s)
  | Some sb =>
      if negb (sb_user_id sb =? user_id) then (err "forbidden" 403, s) else
      if write_ok e then
        (JsonOk None,
         update_service_bookings
           (fun b => (sb_id b =? booking_id) && (sb_user_id b =? user_id))
           (set_sb_hidden_by_user 1) s)
      else (err "hide_failed" 400, s)
  end.

(** Doctor approves a pending cancel request: cancel_requested -> cancelled. *)
Definition approve_cancel_appointment (e : env) (doctor_id appointment_id : Z) (s : store)
    : response * store :=
  match select_one (fun a => ap_id a =? appointment_id) (appointments s) with
  | None => (err "not_found" 404, s)
  | Some ap =>
      if negb (ap_doctor_user_id ap =? doctor_id) then (err "forbidden" 403, s) else
      if negb (status_eqb (ap_status ap) cancel_requested)
      then (err "invalid_status" 400, s) else
      if write_ok e then
        let s := update_appointments
                   (fun a => (ap_id a =? appointment_id) && (ap_doctor_user_id a =? doctor_id)
                             && status_eqb (ap_status a) cancel_requested)
                   (set_ap_status cancelled) s in
        let s := _notify (ap_patient_user_id ap) "appointment_cancel_approved" appointment_id s in
        (JsonOk (Some cancelled), s)
      else (ServerError, s)
  end.

Definition with_incident_hospital_resources (s : store)
    (t : list incident_hospital_resource) : store :=
  {| hospital_services := hospital_services s; service_bookings := service_bookings s;
     sb_auto_increment := sb_auto_increment s; doctor_schedules := doctor_schedules s;
     hospital_doctors := hospital_doctors s; appointments := appointments s;
     ap_auto_increment := ap_auto_increment s; crises := crises s;
     incidents := incidents s; incident_hospital_resources := t;
     locks_held := locks_held s; log := log s |}.

(** [CASE WHEN COALESCE(available_beds,0)-1 < 0 THEN 0 ELSE
    COALESCE(available_beds,0)-1 END] *)
Definition take_one_bed (r : incident_hospital_resource) : incident_hospital_resource :=
  let beds := match ihr_available_beds r with Some b => b | None => 0 end in
  {| ihr_id := ihr_id r; ihr_incident_id := ihr_incident_id r;
     ihr_hospital_user_id := ihr_hospital_user_id r;
     ihr_available_beds := Some (if beds - 1 <? 0 then 0 else beds - 1) |}.

(** The crisis part of [confirm_service_booking]: a response to return, or
    the store after the bed was taken. *)
Definition confirm_crisis_part (sb : service_booking) (s : store) : response + store :=
  match sb_crisis_id sb with
  | Some c =>
      if Py.truthy_int c then
        match _require_crisis_open c s with
        | Some r => inl r
        | None =>
            let ambulance :=
              match select_one (fun v => hs_id v =? sb_service_id sb) (hospital_services s) with
              | Some v => is_ambulance v
              | None => false
              end in
            match select_one (fun r => cr_id r =? c) (crises s) with
            | Some cr =>
                match cr_incident_id cr with
                | Some inc =>
                    if Py.truthy_int inc && negb ambulance then
                      match select_one
                              (fun r => (ihr_incident_id r =? inc)
                                        && (ihr_hospital_user_id r =? sb_hospital_user_id sb))
                              (incident_hospital_resources s) with
                      | Some r =>
                          if match ihr_available_beds r with
                             | Some beds => beds <=? 0
                             | None => false
                             end
                          then inl (err "no_beds" 400)
                          else inr (with_incident_hospital_resources s
                                      (update_where (fun x => ihr_id x =? ihr_id r) take_one_bed
                                         (incident_hospital_resources s)))
                      | None => inr s
                      end
                    else inr s
                | None => inr s
                end
            | None => inr s
            end
        end
      else inr s
  | None => inr s
  end.

(** Hospital owner confirms a patient's service booking (booked -> confirmed). *)
Definition confirm_service_booking (e : env) (u : user) (booking_id : Z) (s : store)
    : response * store :=
  match select_one (fun b => sb_id b =? booking_id) (service_bookings s) with
  | None => (err "not_found" 404, s)
  | Some sb =>
      let is_owner := sb_hospital_user_id sb =? u_id u in
      if negb (_require_admin u || (_require_hospital u && is_owner))
      then (err "forbidden" 403, s) else
      if negb (status_eqb (sb_status sb) booked) then (err "invalid_status" 400, s) else
      match confirm_crisis_part sb s with
      | inl r => (r, s)
      | inr s =>
          if write_ok e then
            let s := update_service_bookings
                       (fun b => (sb_id b =? booking_id) && status_eqb (sb_status b) booked)
                       (set_sb_status confirmed) s in
            let s := _notify (sb_user_id sb) "service_booking_confirmed_by_hospital" booking_id s in
            (JsonOk (Some confirmed), s)
          else (err "update_failed" 400, s)
      end
  end.

(** ** The vocabulary of the design document *)




(** The day [book_service] runs its per-day checks for, and the day it
    counts the serial and the taken times on. *)
Definition service_day (e : env) (svc : hospital_service) (rq : book_service_request)
    : sql_date :=
  effective_date e svc (rq_scheduled_at rq).

Definition booking_day (e : env) (svc : hospital_service) (rq : book_service_request)
    : sql_date :=
  bd_date (booking_date_of e svc (rq_scheduled_at rq)).

(** The request gets past the checks [book_service] makes before the
    one-per-day rule. *)
Definition service_found (rq : book_service_request) (s : store) (svc : hospital_service)
    : bool :=
  match crisis_gate (rq_crisis_id rq) s, beds_gate (rq_crisis_id rq) svc (rq_hospital_user_id rq) s with
  | None, None =>
      Py.truthy_int (rq_service_id rq) && Py.truthy_int (rq_hospital_user_id rq)
      && (hs_hospital_user_id svc =? rq_hospital_user_id rq)
      && (hs_available svc =? 1)
  | _, _ => false
  end.

(** The request gets past every check [book_service] makes before the
    capacity check. *)
Definition service_prechecks (e : env) (user_id : Z) (rq : book_service_request)
    (s : store) (svc : hospital_service) : bool :=
  match crisis_gate (rq_crisis_id rq) s, beds_gate (rq_crisis_id rq) svc (rq_hospital_user_id rq) s with
  | None, None =>
      Py.truthy_int (rq_service_id rq) && Py.truthy_int (rq_hospital_user_id rq)
      && (hs_hospital_user_id svc =? rq_hospital_user_id rq)
      && (hs_available svc =? 1)
      && (count_rows (user_booked_on user_id (rq_service_id rq) (service_day e svc rq))
                     (service_bookings s) =? 0)
  | _, _ => false
  end.

(** The capacity check of [book_service] lets the request through. *)
Definition service_has_room (e : env) (rq : book_service_request) (s : store)
    (svc : hospital_service) : bool :=
  match hs_max_per_day svc with
  | Some N =>
      (N <=? 0)
      || (count_rows (booked_on (rq_service_id rq) (service_day e svc rq))
                     (service_bookings s) <? N)
  | None => true
  end.

(** A window bound that is absent, or whose first five characters read as
    HH:MM. *)
Definition window_parses (w : option string) : bool :=
  match window_text w with
  | Some t => match hhmm_to_min t with Some _ => true | None => false end
  | None => true
  end.


Definition is_error (r : response) : bool :=
  match r with
  | JsonError _ _ _ => true
  | _ => false
  end.



(** Two rows that agree on every column but [hidden_by_user]. *)
Definition same_but_hidden (b b' : service_booking) : Prop :=
  sb_id b' = sb_id b /\ sb_user_id b' = sb_user_id b
  /\ sb_hospital_user_id b' = sb_hospital_user_id b
  /\ sb_service_id b' = sb_service_id b
  /\ sb_scheduled_at b' = sb_scheduled_at b /\ sb_status b' = sb_status b
  /\ sb_serial b' = sb_serial b /\ sb_approx_time b' = sb_approx_time b
  /\ sb_notes b' = sb_notes b /\ sb_lat b' = sb_lat b /\ sb_lng b' = sb_lng b
  /\ sb_crisis_id b' = sb_crisis_id b.

(** The error answers of the two booking handlers, with their HTTP status. *)
Definition service_errors : list (string * Z) :=
  [ ("crisis_closed", 400); ("missing_fields", 400); ("service_not_found", 404);
    ("service_unavailable", 400); ("no_beds", 400); ("one_per_day", 400);
    ("full", 400); ("outside_window", 400) ].

Definition appointment_errors : list (string * Z) :=
  [ ("missing_fields", 400); ("not_member", 400); ("no_schedule", 400);
    ("invalid_time", 400); ("invalid_range", 400); ("outside_schedule", 400);
    ("already_booked_same_day", 400); ("capacity_full", 400) ].

(** The same environment with another answer of [GET_LOCK]. *)
Definition with_lock_granted (b : bool) (e : env) : env :=
  {| now := now e; engine_mysql := engine_mysql e; lock_granted := b;
     write_ok := write_ok e |}.

Definition two_hours : Z := 2 * 3600 * usec_per_sec.

(** ** Worked inputs *)

(** Monday 2025-01-06, as a day number. *)
Definition monday : Z := 20094.

Definition at_hm (day h m : Z) : datetime := datetime_at day (h * 60 + m).

(** A service with a window, 30-minute slots and no daily limit. *)
Definition xray : hospital_service :=
  {| hs_id := 1; hs_hospital_user_id := 10; hs_name := Some "X-Ray";
     hs_available := 1; hs_max_per_day := None;
     hs_window_start_time := Some "09:00:00"; hs_window_end_time := Some "12:00:00";
     hs_duration_minutes := Some 30 |}.

(** A service capped at one booking a day. *)
Definition scan : hospital_service :=
  {| hs_id := 2; hs_hospital_user_id := 10; hs_name := Some "CT Scan";
     hs_available := 1; hs_max_per_day := Some 1;
     hs_window_start_time := Some "09:00:00"; hs_window_end_time := Some "12:00:00";
     hs_duration_minutes := Some 30 |}.

(** The default ambulance service of a hospital, as [_ensure_ambulance_service]
    creates it. *)
Definition ambulance : hospital_service :=
  {| hs_id := 3; hs_hospital_user_id := 10; hs_name := Some "Ambulance";
     hs_available := 1; hs_max_per_day := None;
     hs_window_start_time := None; hs_window_end_time := None;
     hs_duration_minutes := Some 0 |}.

(** A second ambulance service, capped at one run a day through
    [update_hospital_service]. *)
Definition night_ambulance : hospital_service :=
  {| hs_id := 4; hs_hospital_user_id := 10; hs_name := Some "Night ambulance";
     hs_available := 1; hs_max_per_day := Some 1;
     hs_window_start_time := None; hs_window_end_time := None;
     hs_duration_minutes := Some 0 |}.

(** Doctor 20 sees patients at hospital 10 on Mondays (weekday 1 of the
    API), 09:00 to 12:00, two a day. *)
Definition monday_block : doctor_schedule :=
  {| ds_doctor_user_id := 20; ds_hospital_user_id := 10; ds_weekday := 1;
     ds_start_time := "09:00:00"; ds_end_time := "12:00:00";
     ds_max_per_day := Some 2 |}.

(** A row of [service_bookings] at hospital 10. *)
Definition booking (id user_id service_id : Z) (t : datetime) (st : status) (serial : Z)
    : service_booking :=
  {| sb_id := id; sb_user_id := user_id; sb_hospital_user_id := 10;
     sb_service_id := service_id; sb_scheduled_at := t; sb_status := st;
     sb_serial := serial; sb_approx_time := Some (strftime_HM t); sb_notes := None;
     sb_lat := None; sb_lng := None; sb_crisis_id := None; sb_hidden_by_user := 0 |}.

Definition service_request (service_id : Z) (t : option sched_text) : book_service_request :=
  {| rq_service_id := service_id; rq_hospital_user_id := 10;
     rq_scheduled_at := option_map well_formed t;
     rq_notes := None; rq_lat := None; rq_lng := None; rq_crisis_id := None |}.

Definition ambulance_call (service_id : Z) : book_service_request :=
  service_request service_id None.

Definition monday_at (hhmm : string) : option sched_text :=
  Some {| st_day := monday; st_time := Some hhmm |}.

Definition visit (h m h' m' : Z) : book_appointment_request :=
  {| ra_doctor_user_id := 20; ra_hospital_user_id := 10;
     ra_starts_at := Some (at_hm monday h m); ra_ends_at := Some (at_hm monday h' m') |}.

Definition hospital_owner : user := {| u_id := 10; u_role := "hospital" |}.

(** Sunday evening, on a MySQL store whose locks are free. *)
Definition calm : env :=
  {| now := at_hm (monday - 1) 20 0; engine_mysql := true; lock_granted := true;
     write_ok := true |}.

(** Sunday evening again, with both locks held elsewhere for more than the
    ten seconds. *)
Definition busy : env := with_lock_granted false calm.

(** Monday at [h]:[m]:[sec], on the same MySQL store. *)
Definition monday_clock (h m sec : Z) : env :=
  {| now := at_hm monday h m + sec * usec_per_sec; engine_mysql := true;
     lock_granted := true; write_ok := true |}.


(** The hospital of user 10 before anybody booked anything. *)
Definition clinic : store :=
  {| hospital_services := [xray; scan; ambulance; night_ambulance]; service_bookings := [];
     sb_auto_increment := 1; doctor_schedules := [monday_block];
     hospital_doctors := [(10, 20)]; appointments := []; ap_auto_increment := 1;
     crises := []; incidents := []; incident_hospital_resources := [];
     locks_held := []; log := [] |}.


(** The X-Ray with 09:00, 09:30 and 10:00 of Monday taken. *)
Definition xray_morning_taken : store :=
  with_service_bookings clinic
    [ booking 1 101 1 (at_hm monday 9 0) booked 1;
      booking 2 102 1 (at_hm monday 9 30) booked 2;
      booking 3 103 1 (at_hm monday 10 0) booked 3 ] 4.

(** Patient 101 books the scan for Monday 09:00 ... *)
Definition after_first_booking : store :=
  snd (book_service calm 101 (service_request 2 (monday_at "09:00")) clinic).



(** Patient 201 books the doctor for Monday 09:00 ... *)
Definition after_one_visit : store :=
  snd (book_appointment calm 201 (visit 9 0 9 15) clinic).

(** ... then patient 202 books 09:15, and the day is full. *)
Definition after_two_visits : store :=
  snd (book_appointment calm 202 (visit 9 15 9 30) after_one_visit).


(** * The handlers around the booking engine *)

(** ** More lifecycle handlers *)

(** Hospital owner declines a patient's service booking (booked ->
    declined).  The row is updated first; a closed crisis is noticed only
    afterwards, and then answers for the request. *)
Definition decline_service_booking (e : env) (u : user) (booking_id : Z) (s : store)
    : response * store :=
  match select_one (fun b => sb_id b =? booking_id) (service_bookings s) with
  | None => (err "not_found" 404, s)
  | Some sb =>
      let is_owner := sb_hospital_user_id sb =? u_id u in
      if negb (_require_admin u || (_require_hospital u && is_owner))
      then (err "forbidden" 403, s) else
      if negb (status_eqb (sb_status sb) booked) then (err "invalid_status" 400, s) else
      if write_ok e then
        let s := update_service_bookings
                   (fun b => (sb_id b =? booking_id) && status_eqb (sb_status b) booked)
                   (set_sb_status declined) s in
        match crisis_gate (sb_crisis_id sb) s with
        | Some r => (r, s)
        | None =>
            let s := _notify (sb_user_id sb) "service_booking_declined" booking_id s in
            let s := _notify (sb_hospital_user_id sb) "service_booking_declined" booking_id s in
            (JsonOk (Some declined), s)
        end
      else (err "update_failed" 400, s)
  end.

(** [approve_cancel_service_booking] and [decline_cancel_service_booking]. *)
Definition approve_cancel_service_booking (booking_id : Z) (s : store) : response * store :=
  (err "not_supported" 400, s).

Definition decline_cancel_service_booking (booking_id : Z) (s : store) : response * store :=
  (err "not_supported" 400, s).

(** Doctor confirms/completes an appointment: booked -> done. *)
Definition confirm_appointment (e : env) (doctor_id appointment_id : Z) (s : store)
    : response * store :=
  match select_one (fun a => ap_id a =? appointment_id) (appointments s) with
  | None => (err "not_found" 404, s)
  | Some ap =>
      if negb (ap_doctor_user_id ap =? doctor_id) then (err "forbidden" 403, s) else
      if negb (status_eqb (ap_status ap) booked) then (err "invalid_status" 400, s) else
      if write_ok e then
        let s := update_appointments
                   (fun a => (ap_id a =? appointment_id) && (ap_doctor_user_id a =? doctor_id)
                             && status_eqb (ap_status a) booked)
                   (set_ap_status done) s in
        let s := _notify (ap_patient_user_id ap) "appointment_completed" appointment_id s in
        (JsonOk (Some done), s)
      else (ServerError, s)
  end.

Definition set_ap_hidden_by_patient (h : Z) (a : appointment) : appointment :=
  {| ap_id := ap_id a; ap_patient_user_id := ap_patient_user_id a;
     ap_doctor_user_id := ap_doctor_user_id a;
     ap_hospital_user_id := ap_hospital_user_id a;
     ap_starts_at := ap_starts_at a; ap_ends_at := ap_ends_at a;
     ap_status := ap_status a; ap_serial := ap_serial a;
     ap_approx_time := ap_approx_time a; ap_hidden_by_patient := h |}.

(** Patient hides an appointment from their view (soft delete); no status
    restriction. *)
Definition hide_appointment (e : env) (user_id appointment_id : Z) (s : store)
    : response * store :=
  match select_one (fun a => ap_id a =? appointment_id) (appointments s) with
  | None => (err "not_found" 404, s)
  | Some ap =>
      if negb (ap_patient_user_id ap =? user_id) then (err "forbidden" 403, s) else
      if write_ok e then
        (JsonOk None,
         update_appointments
           (fun a => (ap_id a =? appointment_id) && (ap_patient_user_id a =? user_id))
           (set_ap_hidden_by_patient 1) s)
      else (ServerError, s)
  end.

(** Doctor declines a pending cancel request: cancel_requested -> booked. *)
Definition decline_cancel_appointment (e : env) (doctor_id appointment_id : Z) (s : store)
    : response * store :=
  match select_one (fun a => ap_id a =? appointment_id) (appointments s) with
  | None => (err "not_found" 404, s)
  | Some ap =>
      if negb (ap_doctor_user_id ap =? doctor_id) then (err "forbidden" 403, s) else
      if negb (status_eqb (ap_status ap) cancel_requested)
      then (err "invalid_status" 400, s) else
      if write_ok e then
        let s := update_appointments
                   (fun a => (ap_id a =? appointment_id) && (ap_doctor_user_id a =? doctor_id)
                             && status_eqb (ap_status a) cancel_requested)
                   (set_ap_status booked) s in
        let s := _notify (ap_patient_user_id ap) "appointment_cancel_declined" appointment_id s in
        (JsonOk (Some booked), s)
      else (ServerError, s)
  end.

(** ** The requester's list of service bookings *)

Definition listed_booking : Type := service_booking * hospital_service.

Fixpoint insert_by_scheduled_at_desc (x : listed_booking) (l : list listed_booking)
    : list listed_booking :=
  match l with
  | [] => [x]
  | y :: r =>
      if sb_scheduled_at (fst y) <? sb_scheduled_at (fst x) then x :: l
      else y :: insert_by_scheduled_at_desc x r
  end.

(** [ORDER BY sb.scheduled_at DESC]; rows of equal time stay in table order
    (the statement leaves their order open). *)
Definition order_by_scheduled_at_desc (l : list listed_booking) : list listed_booking :=
  fold_right insert_by_scheduled_at_desc [] l.

(** [list_my_service_bookings]: the caller's bookings that are not hidden,
    each joined with its service ([JOIN hospital_services hs ON hs.id =
    sb.service_id]), latest first.  [crisis] is the [crisis_id] parameter
    when it is a string of digits. *)
Definition list_my_service_bookings (user_id : Z) (crisis : option Z) (s : store)
    : list listed_booking :=
  order_by_scheduled_at_desc
    (flat_map
       (fun sb =>
          map (fun hs => (sb, hs))
              (filter (fun hs => hs_id hs =? sb_service_id sb) (hospital_services s)))
       (filter
          (fun sb =>
             (sb_user_id sb =? user_id) && (sb_hidden_by_user sb =? 0)
             && match crisis with
                | Some c => match sb_crisis_id sb with Some c' => c' =? c | None => false end
                | None => true
                end)
          (service_bookings s))).

(** ** Requests as data: one value per endpoint of the booking engine *)

Inductive service_action :=
  | BookService (user_id : Z) (rq : book_service_request)
  | CancelServiceBooking (user_id booking_id : Z)
  | ConfirmServiceBooking (u : user) (booking_id : Z)
  | DeclineServiceBooking (u : user) (booking_id : Z)
  | HideServiceBooking (user_id booking_id : Z).

Definition run_service_action (e : env) (a : service_action) (s : store)
    : response * store :=
  match a with
  | BookService user_id rq => book_service e user_id rq s
  | CancelServiceBooking user_id id => request_cancel_service_booking e user_id id s
  | ConfirmServiceBooking u id => confirm_service_booking e u id s
  | DeclineServiceBooking u id => decline_service_booking e u id s
  | HideServiceBooking user_id id => hide_service_booking e user_id id s
  end.

(** ** The doctor's list and its auto-complete sweep *)

(** What an endpoint of the appointments answers: a response, or the rows
    of a list. *)
Inductive answer :=
  | Responded (r : response)
  | Listed (rows : list appointment).

Definition answered (p : response * store) : answer * store := (Responded (fst p), snd p).

Fixpoint insert_by_starts_at_desc (x : appointment) (l : list appointment)
    : list appointment :=
  match l with
  | [] => [x]
  | y :: r =>
      if ap_starts_at y <? ap_starts_at x then x :: l
      else y :: insert_by_starts_at_desc x r
  end.

(** [ORDER BY a.starts_at DESC] *)
Definition order_by_starts_at_desc (l : list appointment) : list appointment :=
  fold_right insert_by_starts_at_desc [] l.

(** [MAX(end_time)] of texts. *)
Definition max_text (l : list string) : string :=
  fold_right (fun x acc => if String.leb x acc then acc else x) "" l.

(** The second UPDATE of the sweep, for one hospital of today's schedule:
    the doctor's booked appointments of today at that hospital become
    'done' when the database finds [TIME(NOW())] later than the last end
    time ([later_than], asked with the first eight characters of it). *)
Definition auto_complete_today (later_than : string -> bool) (doctor_id today wk : Z)
    (s : store) (hid : Z) : store :=
  if negb (Py.truthy_int hid) then s else
  let last_end :=
    max_text
      (map ds_end_time
         (filter (fun d => (ds_doctor_user_id d =? doctor_id)
                           && (ds_hospital_user_id d =? hid) && (ds_weekday d =? wk))
                 (doctor_schedules s))) in
  if negb (Py.truthy_str last_end) then s else
  update_appointments
    (fun a => (ap_doctor_user_id a =? doctor_id) && (ap_hospital_user_id a =? hid)
              && status_eqb (ap_status a) booked && (DATE (ap_starts_at a) =? today)
              && later_than (Py.prefix 8 last_end))
    (set_ap_status done) s.

(** [list_doctor_appointments]: refused for a user who is no doctor
    anywhere and has no appointment; else the booked appointments of past
    days, and those of today after hours, are marked 'done' (nothing is,
    where the statements raise), and the doctor's appointments are listed,
    latest first.  The database's clock is the handler's, and the join with
    [users] is taken to find every patient. *)
Definition list_doctor_appointments (e : env) (doctor_id : Z) (later_than : string -> bool)
    (s : store) : answer * store :=
  if negb (existsb (fun hd => snd hd =? doctor_id) (hospital_doctors s))
     && negb (existsb (fun a => ap_doctor_user_id a =? doctor_id) (appointments s))
  then (Responded (err "not_doctor" 403), s) else
  let today := DATE (now e) in
  let s :=
    if write_ok e then
      (* past days -> done *)
      let s :=
        update_appointments
          (fun a => (ap_doctor_user_id a =? doctor_id) && status_eqb (ap_status a) booked
                    && (DATE (ap_starts_at a) <? today))
          (set_ap_status done) s in
      (* today after schedule end per hospital *)
      let wk := (py_weekday today + 1) mod 7 in
      let hospitals_today :=
        nodup Z.eq_dec
          (map ds_hospital_user_id
             (filter (fun d => (ds_doctor_user_id d =? doctor_id) && (ds_weekday d =? wk))
                     (doctor_schedules s))) in
      fold_left (auto_complete_today later_than doctor_id today wk) hospitals_today s
    else s in
  (Listed (order_by_starts_at_desc
             (filter (fun a => ap_doctor_user_id a =? doctor_id) (appointments s))),
   s).

Inductive appointment_action :=
  | BookAppointment (user_id : Z) (rq : book_appointment_request)
  | ConfirmAppointment (doctor_id appointment_id : Z)
  | HideAppointment (user_id appointment_id : Z)
  | RequestCancelAppointment (user_id appointment_id : Z)
  | ApproveCancelAppointment (doctor_id appointment_id : Z)
  | DeclineCancelAppointment (doctor_id appointment_id : Z)
  | ListDoctorAppointments (doctor_id : Z) (later_than : string -> bool).

Definition run_appointment_action (e : env) (a : appointment_action) (s : store)
    : answer * store :=
  match a with
  | BookAppointment user_id rq => answered (book_appointment e user_id rq s)
  | ConfirmAppointment d id => answered (confirm_appointment e d id s)
  | HideAppointment u id => answered (hide_appointment e u id s)
  | RequestCancelAppointment u id => answered (request_cancel_appointment e u id s)
  | ApproveCancelAppointment d id => answered (approve_cancel_appointment e d id s)
  | DeclineCancelAppointment d id => answered (decline_cancel_appointment e d id s)
  | ListDoctorAppointments d later_than => list_doctor_appointments e d later_than s
  end.

(** A sequence of requests, each with the environment it meets, served one
    after the other. *)
Fixpoint serve {A R : Type} (run : env -> A -> store -> R * store)
    (requests : list (env * A)) (s : store) : store :=
  match requests with
  | [] => s
  | (e, a) :: rest => serve run rest (snd (run e a s))
  end.

(** ** Vocabulary for the properties of these handlers *)


(** Two appointment rows that differ at most in [status] and
    [hidden_by_patient]. *)
Definition same_visit (a a' : appointment) : Prop :=
  ap_id a' = ap_id a /\ ap_patient_user_id a' = ap_patient_user_id a
  /\ ap_doctor_user_id a' = ap_doctor_user_id a
  /\ ap_hospital_user_id a' = ap_hospital_user_id a
  /\ ap_starts_at a' = ap_starts_at a /\ ap_ends_at a' = ap_ends_at a
  /\ ap_serial a' = ap_serial a /\ ap_approx_time a' = ap_approx_time a.

(** The status changes the appointment handlers make. *)
Definition appointment_transition (old new : status) : Prop :=
  old = new
  \/ (old = booked /\ new = done)
  \/ (old = booked /\ new = cancel_requested)
  \/ (old = cancel_requested /\ new = cancelled)
  \/ (old = cancel_requested /\ new = booked).

(** The status changes the service handlers make. *)
Definition service_transition (old new : status) : Prop :=
  old = new
  \/ (old = booked /\ (new = confirmed \/ new = declined \/ new = cancelled)).

(** Two service booking rows that differ at most in [status] and
    [hidden_by_user]. *)
Definition same_booking (b b' : service_booking) : Prop :=
  sb_id b' = sb_id b /\ sb_user_id b' = sb_user_id b
  /\ sb_hospital_user_id b' = sb_hospital_user_id b
  /\ sb_service_id b' = sb_service_id b
  /\ sb_scheduled_at b' = sb_scheduled_at b
  /\ sb_serial b' = sb_serial b /\ sb_approx_time b' = sb_approx_time b
  /\ sb_notes b' = sb_notes b /\ sb_lat b' = sb_lat b /\ sb_lng b' = sb_lng b
  /\ sb_crisis_id b' = sb_crisis_id b.

(** What an appointment handler other than [book_appointment] does to the
    table: each row stays in place and changes at most its status, along one
    of the five transitions, or its hidden flag. *)
Definition rowwise_appointments (s s' : store) : Prop :=
  exists f : appointment -> appointment,
    appointments s' = map f (appointments s)
    /\ forall a, same_visit a (f a) /\ appointment_transition (ap_status a) (ap_status (f a)).

(** What the auto-complete sweep does to the table: each row stays in
    place, the same visit, and a booked one may have become 'done'; the
    schedules are as before. *)
Definition completed_rows (s s' : store) : Prop :=
  doctor_schedules s' = doctor_schedules s
  /\ exists f : appointment -> appointment,
       appointments s' = map f (appointments s)
       /\ forall a, same_visit a (f a)
                    /\ (ap_status (f a) = ap_status a
                        \/ (ap_status a = booked /\ ap_status (f a) = done)).

(** The rows the sweep of doctor [d] may touch on day [today], and what it
    does to them: a booked appointment of that doctor, of today or before,
    may have become 'done'; every other row is as it was. *)
Definition swept (d today : Z) (s s' : store) : Prop :=
  exists f : appointment -> appointment,
    appointments s' = map f (appointments s)
    /\ forall a,
         f a = a
         \/ (f a = set_ap_status done a /\ ap_doctor_user_id a = d
             /\ ap_status a = booked /\ DATE (ap_starts_at a) <= today).

(** What a sequence of appointment requests does to the table: the rows it
    found stay in place, the same visits as before, and new rows come after
    them. *)
Definition grown_appointments (s s' : store) : Prop :=
  exists (f : appointment -> appointment) (new : list appointment),
    appointments s' = (map f (appointments s) ++ new)%list
    /\ forall a,
         same_visit a (f a)
         /\ (ap_status a <> booked -> ap_status a <> cancel_requested ->
             ap_status (f a) = ap_status a).

(** The answer of a successful [book_service]. *)
Definition service_booked (r : response) : bool :=
  match r with
  | JsonServiceBooked _ _ _ _ => true
  | _ => false
  end.

(** Whether the service of that id is an ambulance service. *)
Definition ambulance_service (service_id : Z) (s : store) : bool :=
  match select_one (fun v => hs_id v =? service_id) (hospital_services s) with
  | Some v => is_ambulance v
  | None => false
  end.

(** The daily limit of the service of that id, where one is set (> 0). *)
Definition service_limit (service_id : Z) (s : store) : option Z :=
  match select_one (fun v => hs_id v =? service_id) (hospital_services s) with
  | Some v =>
      match hs_max_per_day v with
      | Some n => if 0 <? n then Some n else None
      | None => None
      end
  | None => None
  end.

(** What a service handler other than [book_service] does to the table:
    each row stays in place and changes at most its hidden flag or its
    status, from 'booked' to 'confirmed', 'declined' or 'cancelled'. *)
Definition rowwise_service_bookings (s s' : store) : Prop :=
  exists f : service_booking -> service_booking,
    service_bookings s' = map f (service_bookings s)
    /\ forall b, same_booking b (f b) /\ service_transition (sb_status b) (sb_status (f b)).

(** What a sequence of service requests does to the table: the rows it
    found stay in place, the same bookings as before, and new rows come
    after them. *)
Definition grown_service_bookings (s s' : store) : Prop :=
  exists (f : service_booking -> service_booking) (new : list service_booking),
    service_bookings s' = (map f (service_bookings s) ++ new)%list
    /\ forall b,
         same_booking b (f b)
         /\ (sb_status b <> booked -> sb_status (f b) = sb_status b).

(** No two booked rows of the service on the day show the same HH:MM. *)
Definition distinct_slots (service_id day : Z) (s : store) : Prop :=
  NoDup (taken_on service_id day s).

(** The readers of [scheduled_at] agree: it is absent, or the database
    reads a day from it, and the same day from its first ten characters,
    and [datetime(...)] accepts them as that day; a shorter text, which has
    no such characters and is saved under 1970-01-01, has to read as that
    day. *)
Definition well_dated (rq : book_service_request) : bool :=
  match rq_scheduled_at rq with
  | None => true
  | Some t =>
      match sa_date t, sa_date_part t with
      | Day d, Some p =>
          match dp_date p, dp_day p with
          | Day d', Some d'' => (d' =? d) && (d'' =? d)
          | _, _ => false
          end
      | Day d, None => d =? 0
      | NULL, _ => false
      end
  end.

Definition well_dated_action (a : service_action) : Prop :=
  match a with
  | BookService _ rq => well_dated rq = true
  | _ => True
  end.

Definition well_dated_requests (requests : list (env * service_action)) : Prop :=
  Forall (fun ea => well_dated_action (snd ea)) requests.

(** ** More worked inputs *)


(** The text 'tomorrow' as [scheduled_at]: eight characters, which read as
    no date and have neither a date part nor a time part. *)
Definition tomorrow : scheduled_at :=
  {| sa_date := NULL; sa_date_part := None; sa_time_part := None |}.

Definition tomorrow_request (service_id : Z) : book_service_request :=
  {| rq_service_id := service_id; rq_hospital_user_id := 10;
     rq_scheduled_at := Some tomorrow;
     rq_notes := None; rq_lat := None; rq_lng := None; rq_crisis_id := None |}.

(** A Monday's requests for services: patients 101 and 102 ask for the
    X-Ray at 09:00 (the second while the lock is held elsewhere), patient
    101 books the scan too, the hospital confirms the scan, patient 101
    cancels the X-Ray, and patient 103 asks for the X-Ray at 09:00. *)
Definition monday_service_requests : list (env * service_action) :=
  [ (calm, BookService 101 (service_request 1 (monday_at "09:00")));
    (busy, BookService 102 (service_request 1 (monday_at "09:00")));
    (calm, BookService 101 (service_request 2 (monday_at "09:00")));
    (calm, ConfirmServiceBooking hospital_owner 3);
    (calm, CancelServiceBooking 101 1);
    (calm, BookService 103 (service_request 1 (monday_at "09:00"))) ].

(** Ten minutes to midnight on Sunday, and five. *)
Definition late : env :=
  {| now := at_hm (monday - 1) 23 50; engine_mysql := true; lock_granted := true;
     write_ok := true |}.

Definition later : env :=
  {| now := at_hm (monday - 1) 23 55; engine_mysql := true; lock_granted := true;
     write_ok := true |}.

(** The clinic with crisis 7 of incident 70, which is closed, and the
    booking patient 101 made for the X-Ray under that crisis. *)
Definition flood_booking : service_booking :=
  {| sb_id := 1; sb_user_id := 101; sb_hospital_user_id := 10; sb_service_id := 1;
     sb_scheduled_at := at_hm monday 9 0; sb_status := booked; sb_serial := 1;
     sb_approx_time := Some "09:00"; sb_notes := None; sb_lat := None; sb_lng := None;
     sb_crisis_id := Some 7; sb_hidden_by_user := 0 |}.

Definition after_the_flood : store :=
  {| hospital_services := hospital_services clinic; service_bookings := [flood_booking];
     sb_auto_increment := 2; doctor_schedules := doctor_schedules clinic;
     hospital_doctors := hospital_doctors clinic; appointments := [];
     ap_auto_increment := 1;
     crises := [{| cr_id := 7; cr_incident_id := Some 70 |}];
     incidents := [{| inc_id := 70; inc_status := "closed" |}];
     incident_hospital_resources := []; locks_held := []; log := [] |}.

(** * The hospital's doctors and their schedules *)

(** A row of [users], as these handlers look at it. *)
Record account := { ac_id : Z; ac_role : string; ac_status : string }.

Definition with_hospital_doctors (s : store) (t : list (Z * Z)) : store :=
  {| hospital_services := hospital_services s; service_bookings := service_bookings s;
     sb_auto_increment := sb_auto_increment s; doctor_schedules := doctor_schedules s;
     hospital_doctors := t; appointments := appointments s;
     ap_auto_increment := ap_auto_increment s; crises := crises s;
     incidents := incidents s;
     incident_hospital_resources := incident_hospital_resources s;
     locks_held := locks_held s; log := log s |}.

Definition with_doctor_schedules (s : store) (t : list doctor_schedule) : store :=
  {| hospital_services := hospital_services s; service_bookings := service_bookings s;
     sb_auto_increment := sb_auto_increment s; doctor_schedules := t;
     hospital_doctors := hospital_doctors s; appointments := appointments s;
     ap_auto_increment := ap_auto_increment s; crises := crises s;
     incidents := incidents s;
     incident_hospital_resources := incident_hospital_resources s;
     locks_held := locks_held s; log := log s |}.

Definition is_member (hospital_id doctor_id : Z) (s : store) : bool :=
  existsb (fun hd => (fst hd =? hospital_id) && (snd hd =? doctor_id)) (hospital_doctors s).

(** The caller is an admin, or the hospital itself. *)
Definition manages (u : user) (hospital_id : Z) : bool :=
  _require_admin u || (_require_hospital u && (u_id u =? hospital_id)).

(** [add_doctor_to_hospital]; [doctor_id] is [int(doctor_user_id or 0)]. *)
Definition add_doctor_to_hospital (e : env) (users : list account) (u : user)
    (hospital_id doctor_id : Z) (s : store) : response * store :=
  if negb (manages u hospital_id) then (err "forbidden" 403, s) else
  if negb (Py.truthy_int doctor_id) then (err "missing_doctor" 400, s) else
  match select_one (fun a => (ac_id a =? hospital_id) && String.eqb (ac_role a) "hospital")
          users with
  | None => (err "hospital_not_found" 404, s)
  | Some _ =>
      match select_one (fun a => ac_id a =? doctor_id) users with
      | None => (err "doctor_not_active" 400, s)
      | Some doc =>
          if negb (String.eqb (ac_status doc) "active")
          then (err "doctor_not_active" 400, s) else
          if is_member hospital_id doctor_id s then (JsonOk None, s)
          else if write_ok e
          then (JsonOk None,
                with_hospital_doctors s (hospital_doctors s ++ [(hospital_id, doctor_id)])%list)
          else (ServerError, s)
      end
  end.

(** [remove_doctor_from_hospital] *)
Definition remove_doctor_from_hospital (e : env) (u : user) (hospital_id doctor_id : Z)
    (s : store) : response * store :=
  if negb (manages u hospital_id) then (err "forbidden" 403, s) else
  if write_ok e
  then (JsonOk None,
        with_hospital_doctors s
          (filter (fun hd => negb ((fst hd =? hospital_id) && (snd hd =? doctor_id)))
                  (hospital_doctors s)))
  else (ServerError, s).

(** A field of a request body that is converted: missing (or null), not
    convertible, or converted. *)
Inductive field (A : Type) :=
  | Missing
  | Unreadable
  | Read (a : A).
Arguments Missing {A}.
Arguments Unreadable {A}.
Arguments Read {A} a.

(** The body of [add_doctor_schedule]: [sq_doctor_user_id] is
    [int(doctor_user_id or 0)], [sq_visit_cost] what [float(visit_cost)]
    makes of the field and [sq_max_per_day] what [int(max_per_day)] does. *)
Record schedule_request := {
  sq_doctor_user_id : Z;
  sq_weekday : option Z;
  sq_start_time : option string;
  sq_end_time : option string;
  sq_visit_cost : field float;
  sq_max_per_day : field Z
}.

(** [add_doctor_schedule]: the doctor becomes a member if they are none, and
    the block is added.  [as_time] is what the TIME columns make of a text,
    [None] where the server refuses it and the INSERT raises; statements are
    committed one by one, so the membership stays where the block fails.
    The column [visit_cost] is left out of the table. *)
Definition add_doctor_schedule (e : env) (as_time : string -> option string) (u : user)
    (hospital_id : Z) (rq : schedule_request) (s : store) : response * store :=
  if negb (manages u hospital_id) then (err "forbidden" 403, s) else
  match sq_weekday rq, sq_start_time rq, sq_end_time rq, sq_visit_cost rq,
        sq_max_per_day rq with
  | None, _, _, _, _ | _, None, _, _, _ | _, _, None, _, _
  | _, _, _, Missing, _ | _, _, _, _, Missing => (err "missing_fields" 400, s)
  | _, _, _, Unreadable, _ | _, _, _, _, Unreadable => (err "invalid_fields" 400, s)
  | Some weekday, Some start_time, Some end_time, Read visit_cost, Read max_per_day =>
      if PrimFloat.ltb visit_cost 0%float || (max_per_day <=? 0)
      then (err "invalid_fields" 400, s) else
      let doctor_id := sq_doctor_user_id rq in
      (* membership check (auto-associate if missing) *)
      let s :=
        if negb (is_member hospital_id doctor_id s) && write_ok e
        then with_hospital_doctors s (hospital_doctors s ++ [(hospital_id, doctor_id)])%list
        else s in
      match as_time start_time, as_time end_time with
      | Some start_time, Some end_time =>
          if write_ok e then
            (JsonOk None,
             with_doctor_schedules s
               (doctor_schedules s
                ++ [{| ds_doctor_user_id := doctor_id; ds_hospital_user_id := hospital_id;
                       ds_weekday := weekday; ds_start_time := start_time;
                       ds_end_time := end_time; ds_max_per_day := Some max_per_day |}])%list)
          else (ServerError, s)
      | _, _ => (ServerError, s)
      end
  end.








(** "HH:MM" gets its seconds, everything else is refused. *)
Definition hm_as_time (t : string) : option string :=
  if (String.length t =? 5)%nat then Some (t ++ ":00")%string else None.

(** A Monday block of one visit for doctor 21, whom hospital 10 has not
    listed yet. *)
Definition second_doctor_block : schedule_request :=
  {| sq_doctor_user_id := 21; sq_weekday := Some 1; sq_start_time := Some "14:00";
     sq_end_time := Some "16:00"; sq_visit_cost := Read 500%float;
     sq_max_per_day := Read 1 |}.



(** The accounts of hospital 10, doctor 20 and doctor 21, who is suspended. *)
Definition accounts : list account :=
  [ {| ac_id := 10; ac_role := "hospital"; ac_status := "active" |};
    {| ac_id := 20; ac_role := "doctor"; ac_status := "active" |};
    {| ac_id := 21; ac_role := "doctor"; ac_status := "suspended" |} ].

(** * Helpers of [utils.py] *)

(** ** [paginate] *)

Record page_meta := {
  pm_page : Z;
  pm_page_size : Z;
  pm_total : Z;
  pm_total_pages : Z;
  pm_has_next : bool;
  pm_has_prev : bool;
  pm_next_page : option Z;
  pm_prev_page : option Z
}.

(** [ceil(a / b)].  The source divides as floats and rounds up; for a row
    count below 2^53 that is the ceiling of the exact quotient. *)
Definition ceil_div (a b : Z) : Z := - ((- a) / b).

(** [... LIMIT %s OFFSET %s] on the ordered result of the query; the
    statement is refused for a negative bound. *)
Definition limit_offset {A : Type} (limit offset : Z) (result : list A) : option (list A) :=
  if (limit <? 0) || (offset <? 0) then None
  else Some (firstn (Z.to_nat limit) (skipn (Z.to_nat offset) result)).

(** The page and the page size in force: the two [try] blocks and the three
    conditional assignments at the head of [paginate].  [page_arg] and
    [page_size_arg] are the two query parameters read as integers: [None]
    for a parameter that is missing, empty or not an integer. *)
Definition page_in_force (page_arg : option Z) : Z :=
  let page := match page_arg with Some p => p | None => 1 end in
  if page <? 1 then 1 else page.

Definition page_size_in_force (page_size_arg : option Z) (default_size max_size : Z) : Z :=
  let page_size := match page_size_arg with Some n => n | None => default_size end in
  let page_size := if page_size <? 1 then default_size else page_size in
  if page_size >? max_size then max_size else page_size.

(** [paginate].  [total] is the answer of the count query and [result] the
    ordered rows of [base_sql + order_fragment].  [None] where the LIMIT
    statement raises. *)
Definition paginate {A : Type} (page_arg page_size_arg : option Z)
    (default_size max_size : Z) (total : Z) (result : list A)
    : option (list A * page_meta) :=
  let page := page_in_force page_arg in
  let page_size := page_size_in_force page_size_arg default_size max_size in
  let offset := (page - 1) * page_size in
  match (if (offset >=? total) && negb (total =? 0) then Some []
         else limit_offset page_size offset result) with
  | None => None
  | Some rows =>
      let total_pages := if page_size =? 0 then 1 else ceil_div total page_size in
      Some (rows,
            {| pm_page := page; pm_page_size := page_size; pm_total := total;
               pm_total_pages := total_pages;
               pm_has_next := page <? total_pages;
               pm_has_prev := page >? 1;
               pm_next_page := if page <? total_pages then Some (page + 1) else None;
               pm_prev_page := if page >? 1 then Some (page - 1) else None |})
  end.

(** The rows of one page and the number of pages, for a request with the
    given [page_size] parameter. *)
Definition page_rows {A : Type} (page_size_arg : option Z) (default_size max_size : Z)
    (result : list A) (page : Z) : list A :=
  match paginate (Some page) page_size_arg default_size max_size
          (Z.of_nat (List.length result)) result with
  | Some (rows, _) => rows
  | None => []
  end.

Definition page_count {A : Type} (page_size_arg : option Z) (default_size max_size : Z)
    (result : list A) : Z :=
  match paginate (@None Z) page_size_arg default_size max_size
          (Z.of_nat (List.length result)) result with
  | Some (_, m) => pm_total_pages m
  | None => 0
  end.

(** ** [api_view]: method guard, authentication and CSRF *)

Record http_request := {
  rq_method : string;
  rq_auth_header : option string;   (* X-Auth-Token *)
  rq_auth_cookie : option string;   (* auth_token *)
  rq_csrf_header : option string    (* X-CSRF-Token *)
}.

(** The row [_auth_user] reads: the user and the CSRF token issued with the
    auth token. *)
Record session_user := { su_user : user; su_at_csrf : option string }.

Record settings := { DEV_OPEN : bool; DEBUG : bool }.

Record api_options := {
  require_auth : bool;
  csrf : bool;
  methods : option (list string);
  auth_methods : option (list string)
}.

Definition py_or (a b : option string) : option string :=
  match truthy_text a with
  | Some x => Some x
  | None => b
  end.

(** [_auth_user]: [tokens] answers for the join of [users] and the
    unexpired [auth_tokens]. *)
Definition _auth_user (tokens : string -> option session_user) (r : http_request)
    : option session_user :=
  match truthy_text (py_or (rq_auth_header r) (rq_auth_cookie r)) with
  | Some token => tokens token
  | None => None
  end.

Definition mutating (r : http_request) : bool :=
  Py.mem (rq_method r) ["POST"; "PUT"; "DELETE"; "PATCH"].

Inductive guard_error := method_not_allowed | auth_required | csrf_failed.

(** [_check_csrf] *)
Definition _check_csrf (r : http_request) (u : session_user) : option guard_error :=
  if mutating r then
    match truthy_text (rq_csrf_header r), truthy_text (su_at_csrf u) with
    | Some sent, Some issued =>
        if String.eqb sent issued then None else Some csrf_failed
    | _, _ => Some csrf_failed
    end
  else None.

(** The wrapper [api_view] puts around a view: an error of the guard, or
    the answer of the view for the user it was handed. *)
Definition api_view {R : Type} (o : api_options) (cfg : settings)
    (tokens : string -> option session_user)
    (view_fn : http_request -> option session_user -> R) (r : http_request)
    : guard_error + R :=
  if match methods o with
     | Some [] | None => false
     | Some ms => negb (Py.mem (rq_method r) ms)
     end
  then inl method_not_allowed else
  let dev_open := DEV_OPEN cfg && DEBUG cfg in
  let need_auth :=
    (require_auth o
     || match auth_methods o with
        | Some ms => Py.mem (rq_method r) ms
        | None => false
        end)
    && negb dev_open in
  let guarded : guard_error + option session_user :=
    if need_auth || (csrf o && mutating r) then
      let user := _auth_user tokens r in
      match user with
      | None =>
          if need_auth then inl auth_required
          else if csrf o && mutating r && negb dev_open then inl auth_required
          else inr None
      | Some u =>
          if csrf o && mutating r && negb dev_open then
            match _check_csrf r u with
            | Some err => inl err
            | None => inr (Some u)
            end
          else inr (Some u)
      end
    else inr None in
  match guarded with
  | inl err => inl err
  | inr (Some u) => inr (view_fn r (Some u))
  | inr None =>
      (* opportunistic user attach *)
      match truthy_text (rq_auth_header r) with
      | Some _ => inr (view_fn r (_auth_user tokens r))
      | None => inr (view_fn r None)
      end
  end.

(** The options of the booking endpoints:
    [@api_view(require_auth=True, methods=['POST'], csrf=False)]. *)
Definition booking_endpoint : api_options :=
  {| require_auth := true; csrf := false; methods := Some ["POST"]; auth_methods := None |}.

(** ** [_rate_limited]: the sliding window *)

Section RateLimit.

(** What [time.time()] returns, with its order, [now - window_seconds] and
    [int(dq[0] + window_seconds - now)]. *)
Variable T : Type.
Variable ltb : T -> T -> bool.
Variable minus : T -> Z -> T.
Variable retry_after : T -> Z -> T -> Z.

(** [while dq and dq[0] < cutoff: dq.popleft()] *)
Fixpoint trim (cutoff : T) (dq : list T) : list T :=
  match dq with
  | [] => []
  | t :: rest => if ltb t cutoff then trim cutoff rest else dq
  end.

(** One call on the deque of its key: the answer and the deque afterwards;
    [None] where [dq[0]] raises (an empty deque that is already at the
    limit). *)
Definition rate_step (limit window_seconds : Z) (now : T) (dq : list T)
    : option ((bool * option Z) * list T) :=
  let cutoff := minus now window_seconds in
  let dq := trim cutoff dq in
  if Z.of_nat (List.length dq) >=? limit then
    match dq with
    | first :: _ => Some ((true, Some (retry_after first window_seconds now)), dq)
    | [] => None
    end
  else Some ((false, None), (dq ++ [now])%list).

(** [_rate_limited(key, limit, window_seconds)] on [_RL_BUCKETS]. *)
Definition _rate_limited (buckets : string -> list T) (now : T) (key : string)
    (limit window_seconds : Z) : option ((bool * option Z) * (string -> list T)) :=
  match rate_step limit window_seconds now (buckets key) with
  | Some (answer, dq) =>
      Some (answer, fun k => if String.eqb k key then dq else buckets k)
  | None => None
  end.

(** The calls for one key, at the given instants, one after the other: the
    instants of the calls that were let through and the deque at the end. *)
Fixpoint rate_calls (limit window_seconds : Z) (calls : list T) (admitted dq : list T)
    : option (list T * list T) :=
  match calls with
  | [] => Some (admitted, dq)
  | now :: rest =>
      match rate_step limit window_seconds now dq with
      | Some ((true, _), dq) => rate_calls limit window_seconds rest admitted dq
      | Some ((false, _), dq) =>
          rate_calls limit window_seconds rest (admitted ++ [now])%list dq
      | None => None
      end
  end.

(** The instants of [l] that are not before the cutoff of [now]. *)
Definition in_window (window_seconds : Z) (now : T) (l : list T) : list T :=
  filter (fun t => negb (ltb t (minus now window_seconds))) l.

(** Each instant is not before the one it follows. *)
Fixpoint clock_runs_forward (last : T) (calls : list T) : Prop :=
  match calls with
  | [] => True
  | now :: rest => ltb now last = false /\ clock_runs_forward now rest
  end.

(** No instant of the list is before an earlier one. *)
Fixpoint nondecreasing (l : list T) : Prop :=
  match l with
  | [] => True
  | t :: rest => Forall (fun x => ltb x t = false) rest /\ nondecreasing rest
  end.

(** What holds between two calls: the deque holds the admitted instants
    that are in the window of the last call, in order, at most [limit] of
    them. *)
Definition window_kept (window_seconds limit : Z) (last : T) (admitted dq : list T)
    : Prop :=
  nondecreasing admitted
  /\ Forall (fun t => ltb last t = false) admitted
  /\ dq = in_window window_seconds last admitted
  /\ Z.of_nat (List.length dq) <= limit.

End RateLimit.

Arguments trim {T}.
Arguments rate_step {T}.
Arguments _rate_limited {T}.
Arguments rate_calls {T}.
Arguments in_window {T}.
Arguments clock_runs_forward {T}.
Arguments nondecreasing {T}.
Arguments window_kept {T}.

(** * The blood bank inventory ([views.py]) *)

Module Bank.

(** A row of [blood_inventory] and one of [blood_inventory_issuances]. *)
Record stock := {
  st_id : Z;
  st_bank_user_id : Z;
  st_blood_type : string;
  st_quantity_units : Z
}.

Record issuance := {
  is_id : Z;
  is_bank_user_id : Z;
  is_blood_type : string;
  is_quantity_units : Z;
  is_status : string;
  is_purpose : option Py.str;
  is_issued_to_name : option Py.str;
  is_issued_to_contact : option Py.str
}.

(** A row of [blood_inventory_requests]; [ir_target_datetime] is [None]
    for a text [_hours_until] cannot read. *)
Record inventory_request := {
  ir_id : Z;
  ir_requester_user_id : Z;
  ir_bank_user_id : Z;
  ir_blood_type : string;
  ir_quantity_units : Z;
  ir_target_datetime : option datetime;
  ir_status : string;
  ir_reject_reason : option Py.str
}.

(** The tables with their AUTO_INCREMENT counters, and the DEFAULT of the
    [status] column of the issuances, which the INSERT of
    [blood_inventory_issue] relies on. *)
Record tables := {
  blood_inventory : list stock;
  blood_inventory_next : Z;
  blood_inventory_issuances : list issuance;
  blood_inventory_issuances_next : Z;
  status_default : string;
  blood_inventory_requests : list inventory_request
}.

(** [query(sql, params)] with [many=False] on a condition that is not a
    key: the row when exactly one matches, a list otherwise. *)
Inductive answer (A : Type) :=
  | NoRow
  | OneRow (r : A)
  | ManyRows (l : list A).
Arguments NoRow {A}.
Arguments OneRow {A} r.
Arguments ManyRows {A} l.

Definition query {A : Type} (p : A -> bool) (t : list A) : answer A :=
  match filter p t with
  | [] => NoRow
  | [r] => OneRow r
  | l => ManyRows l
  end.

Inductive response :=
  | Error (code : string) (http : Z)
  | Id (id : Z)              (* {'id': id} *)
  | IdOk (id : Z)            (* {'id': id, 'ok': True} *)
  | Ok                       (* {'ok': True} *)
  | Raised.                  (* an exception no handler catches *)

Definition _require_blood_bank (u : user) : bool := String.eqb (u_role u) "blood_bank".

Definition VALID_BLOOD_TYPES : list string :=
  ["A+"; "A-"; "B+"; "B-"; "O+"; "O-"; "AB+"; "AB-"].

Definition with_inventory (s : tables) (t : list stock) (next : Z) : tables :=
  {| blood_inventory := t; blood_inventory_next := next;
     blood_inventory_issuances := blood_inventory_issuances s;
     blood_inventory_issuances_next := blood_inventory_issuances_next s;
     status_default := status_default s;
     blood_inventory_requests := blood_inventory_requests s |}.

Definition with_issuances (s : tables) (t : list issuance) (next : Z) : tables :=
  {| blood_inventory := blood_inventory s; blood_inventory_next := blood_inventory_next s;
     blood_inventory_issuances := t; blood_inventory_issuances_next := next;
     status_default := status_default s;
     blood_inventory_requests := blood_inventory_requests s |}.

Definition with_requests (s : tables) (t : list inventory_request) : tables :=
  {| blood_inventory := blood_inventory s; blood_inventory_next := blood_inventory_next s;
     blood_inventory_issuances := blood_inventory_issuances s;
     blood_inventory_issuances_next := blood_inventory_issuances_next s;
     status_default := status_default s;
     blood_inventory_requests := t |}.

Definition set_quantity (q : Z) (r : stock) : stock :=
  {| st_id := st_id r; st_bank_user_id := st_bank_user_id r;
     st_blood_type := st_blood_type r; st_quantity_units := q |}.

(** [UPDATE blood_inventory SET quantity_units=%s ... WHERE id=%s] *)
Definition update_quantity (id q : Z) (s : tables) : tables :=
  with_inventory s
    (update_where (fun r => st_id r =? id) (set_quantity q) (blood_inventory s))
    (blood_inventory_next s).

(** [INSERT INTO blood_inventory(bank_user_id,blood_type,quantity_units)] *)
Definition insert_stock (bank_user_id : Z) (bt : string) (q : Z) (s : tables) : tables :=
  with_inventory s
    (blood_inventory s
     ++ [{| st_id := blood_inventory_next s; st_bank_user_id := bank_user_id;
            st_blood_type := bt; st_quantity_units := q |}])%list
    (blood_inventory_next s + 1).

Definition stock_of (bank_user_id : Z) (bt : string) (s : tables) : answer stock :=
  query (fun r => (st_bank_user_id r =? bank_user_id) && String.eqb (st_blood_type r) bt)
        (blood_inventory s).

(** [blood_inventory_set]: the caller's stock of a blood type, upserted.
    [bt] is the blood type after [.upper().strip()]; [qty] is
    [int(quantity_units or 0)], [None] where that raises.  The statements
    sent to the database are taken to succeed. *)
Definition blood_inventory_set (u : user) (bt : string) (qty : option Z) (s : tables)
    : response * tables :=
  if negb (_require_blood_bank u) && negb (_require_admin u)
  then (Error "forbidden" 403, s) else
  match qty with
  | None => (Raised, s)
  | Some qty =>
      if negb (Py.mem bt ["A+"; "A-"; "B+"; "B-"; "O+"; "O-"; "AB+"; "AB-"])
      then (Error "invalid_blood_type" 400, s) else
      match stock_of (u_id u) bt s with
      | OneRow existing => (IdOk (st_id existing), update_quantity (st_id existing) qty s)
      | NoRow => (Id (blood_inventory_next s), insert_stock (u_id u) bt qty s)
      | ManyRows _ => (Error "db_error" 500, s)   (* existing['id'] on a list *)
      end
  end.

(** [_limit_str(text or None, 255)]: [''] for a missing or empty text. *)
Definition limit_255 (t : option Py.str) : Py.str :=
  match t with
  | Some (c :: r) => _limit_str (c :: r) 255
  | _ => []
  end.

(** [blood_inventory_issue]: units leave the stock and an issuance row
    records them. *)
Definition blood_inventory_issue (u : user) (bt : string) (qty : option Z)
    (purpose issued_to_name issued_to_contact : option Py.str) (s : tables)
    : response * tables :=
  if negb (_require_blood_bank u) && negb (_require_admin u)
  then (Error "forbidden" 403, s) else
  match qty with
  | None => (Error "invalid_quantity" 400, s)
  | Some qty =>
      if negb (Py.mem bt VALID_BLOOD_TYPES) then (Error "invalid_blood_type" 400, s) else
      if qty <? 1 then (Error "invalid_quantity" 400, s) else
      match stock_of (u_id u) bt s with
      | NoRow => (Error "insufficient_inventory" 400, s)
      | ManyRows _ => (Raised, s)                 (* inv['quantity_units'] on a list *)
      | OneRow inv =>
          if st_quantity_units inv <? qty then (Error "insufficient_inventory" 400, s) else
          let new_qty := st_quantity_units inv - qty in
          let s := update_quantity (st_id inv) new_qty s in
          let iid := blood_inventory_issuances_next s in
          let row :=
            {| is_id := iid; is_bank_user_id := u_id u; is_blood_type := bt;
               is_quantity_units := qty; is_status := status_default s;
               is_purpose := purpose;
               is_issued_to_name := Some (limit_255 issued_to_name);
               is_issued_to_contact := Some (limit_255 issued_to_contact) |} in
          (Id iid, with_issuances s (blood_inventory_issuances s ++ [row])%list (iid + 1))
      end
  end.

(** The units of an issuance go back to the stock of its bank and type:
    added to the row, or a new row when there is none; [None] where
    [inv['quantity_units']] raises on a list. *)
Definition restore_units (row : issuance) (s : tables) : option tables :=
  match stock_of (is_bank_user_id row) (is_blood_type row) s with
  | OneRow inv =>
      Some (update_quantity (st_id inv) (st_quantity_units inv + is_quantity_units row) s)
  | NoRow => Some (insert_stock (is_bank_user_id row) (is_blood_type row)
                     (is_quantity_units row) s)
  | ManyRows _ => None
  end.

(** The keys of the request body [blood_inventory_issuance_update] looks
    at: a text field is [Some v] when its key is present ([v] is [None] for
    null); [pt_status] is the value of [status] when that is a text. *)
Record patch := {
  pt_purpose : option (option Py.str);
  pt_issued_to_name : option (option Py.str);
  pt_issued_to_contact : option (option Py.str);
  pt_status : option string
}.

Definition patched (field : option (option Py.str)) (old : option Py.str)
    : option Py.str :=
  match field with
  | Some v => v
  | None => old
  end.

Definition apply_patch (p : patch) (new_status : option string) (r : issuance) : issuance :=
  {| is_id := is_id r; is_bank_user_id := is_bank_user_id r;
     is_blood_type := is_blood_type r; is_quantity_units := is_quantity_units r;
     is_status := match new_status with Some st => st | None => is_status r end;
     is_purpose := patched (pt_purpose p) (is_purpose r);
     is_issued_to_name := patched (pt_issued_to_name p) (is_issued_to_name r);
     is_issued_to_contact := patched (pt_issued_to_contact p) (is_issued_to_contact r) |}.

Definition is_some {A : Type} (o : option A) : bool :=
  match o with Some _ => true | None => false end.

(** [blood_inventory_issuance_update]: edits the texts of an issuance and
    its status; a change to 'reverted' puts the units back. *)
Definition blood_inventory_issuance_update (u : user) (issuance_id : Z) (p : patch)
    (s : tables) : response * tables :=
  if negb (_require_blood_bank u) && negb (_require_admin u)
  then (Error "forbidden" 403, s) else
  match select_one (fun r => is_id r =? issuance_id) (blood_inventory_issuances s) with
  | None => (Error "not_found" 404, s)
  | Some row =>
      if negb (_require_admin u) && negb (is_bank_user_id row =? u_id u)
      then (Error "not_found" 404, s) else
      let status_change :=
        match pt_status p with
        | Some new_status =>
            if Py.mem new_status ["issued"; "reverted"]
               && negb (String.eqb (is_status row) new_status)
            then Some new_status else None
        | None => None
        end in
      match (match status_change with
             | Some new_status =>
                 if String.eqb new_status "reverted" then restore_units row s else Some s
             | None => Some s
             end) with
      | None => (Raised, s)
      | Some s =>
          if negb (is_some (pt_purpose p) || is_some (pt_issued_to_name p)
                   || is_some (pt_issued_to_contact p) || is_some status_change)
          then (Ok, s) else
          (Ok, with_issuances s
                 (update_where (fun r => is_id r =? issuance_id)
                    (apply_patch p status_change) (blood_inventory_issuances s))
                 (blood_inventory_issuances_next s))
      end
  end.

(** [blood_inventory_issuance_delete]: an issuance that is still 'issued'
    gives its units back before it goes. *)
Definition blood_inventory_issuance_delete (u : user) (issuance_id : Z) (s : tables)
    : response * tables :=
  if negb (_require_blood_bank u) && negb (_require_admin u)
  then (Error "forbidden" 403, s) else
  match select_one (fun r => is_id r =? issuance_id) (blood_inventory_issuances s) with
  | None => (Error "not_found" 404, s)
  | Some row =>
      if negb (_require_admin u) && negb (is_bank_user_id row =? u_id u)
      then (Error "not_found" 404, s) else
      match (if String.eqb (is_status row) "issued" then restore_units row s else Some s) with
      | None => (Raised, s)
      | Some s =>
          (Ok, with_issuances s
                 (filter (fun r => negb (is_id r =? issuance_id))
                    (blood_inventory_issuances s))
                 (blood_inventory_issuances_next s))
      end
  end.

Definition set_request_status (st : string) (reason : option (option Py.str))
    (r : inventory_request) : inventory_request :=
  {| ir_id := ir_id r; ir_requester_user_id := ir_requester_user_id r;
     ir_bank_user_id := ir_bank_user_id r; ir_blood_type := ir_blood_type r;
     ir_quantity_units := ir_quantity_units r;
     ir_target_datetime := ir_target_datetime r; ir_status := st;
     ir_reject_reason := match reason with Some v => v | None => ir_reject_reason r end |}.

(** [UPDATE blood_inventory_requests SET status=..., ... WHERE id=%s] *)
Definition update_request (id : Z) (st : string) (reason : option (option Py.str))
    (s : tables) : tables :=
  with_requests s
    (update_where (fun r => ir_id r =? id) (set_request_status st reason)
       (blood_inventory_requests s)).

(** [_hours_until(target) < 2.0]: an unreadable target counts as now. *)
Definition sooner_than_two_hours (now : datetime) (target : option datetime) : bool :=
  match target with
  | Some t => t - now <? two_hours
  | None => true
  end.

(** [update_inventory_request_status].  [now] is the clock [_hours_until]
    reads, [new_status] the [status] of the body when it is a text, and
    [reason] its [reason].  The notifications are left out. *)
Definition update_inventory_request_status (now : datetime) (u : user) (request_id : Z)
    (new_status : option string) (reason : option Py.str) (s : tables)
    : response * tables :=
  match select_one (fun r => ir_id r =? request_id) (blood_inventory_requests s) with
  | None => (Error "not_found" 404, s)
  | Some row =>
      match new_status with
      | None => (Error "invalid_status" 400, s)
      | Some new_status =>
          if negb (Py.mem new_status ["accepted"; "rejected"; "cancelled"; "completed"])
          then (Error "invalid_status" 400, s) else
          let is_bank := (u_id u =? ir_bank_user_id row) || _require_admin u in
          let is_requester := u_id u =? ir_requester_user_id row in
          if Py.mem new_status ["accepted"; "rejected"; "completed"] && negb is_bank
          then (Error "forbidden" 403, s) else
          if String.eqb new_status "cancelled" && negb (is_bank || is_requester)
          then (Error "forbidden" 403, s) else
          if String.eqb new_status "cancelled" then
            if sooner_than_two_hours now (ir_target_datetime row)
            then (Error "too_late_to_cancel" 400, s)
            else (Ok, update_request request_id "cancelled" None s)
          else
          if Py.mem (ir_status row) ["rejected"; "cancelled"; "completed"]
          then (Error "immutable" 400, s) else
          if String.eqb new_status "accepted" then
            match stock_of (ir_bank_user_id row) (ir_blood_type row) s with
            | ManyRows _ => (Raised, s)
            | NoRow =>
                (Error "insufficient_inventory" 400,
                 update_request request_id "rejected" (Some (Some (Py.str_of "insufficient_inventory"))) s)
            | OneRow inv =>
                if st_quantity_units inv <? ir_quantity_units row
                then (Error "insufficient_inventory" 400,
                      update_request request_id "rejected"
                        (Some (Some (Py.str_of "insufficient_inventory"))) s)
                else (Ok, update_request request_id "accepted" None s)
            end
          else if String.eqb new_status "rejected" then
            (Ok, update_request request_id "rejected" (Some (Some (limit_255 reason))) s)
          else
            (* completed: the units leave the stock, which stops at 0 *)
            let s :=
              match stock_of (ir_bank_user_id row) (ir_blood_type row) s with
              | OneRow inv =>
                  update_quantity (st_id inv)
                    (Z.max 0 (st_quantity_units inv - ir_quantity_units row)) s
              | _ => s
              end in
            (Ok, update_request request_id "completed" None s)
      end
  end.

(** The requests to the inventory as data, and a sequence of them served. *)
Inductive action :=
  | SetStock (bt : string) (qty : option Z)
  | Issue (bt : string) (qty : option Z) (purpose name contact : option Py.str)
  | UpdateIssuance (issuance_id : Z) (p : patch)
  | DeleteIssuance (issuance_id : Z)
  | RequestStatus (now : datetime) (request_id : Z) (new_status : option string)
      (reason : option Py.str).

Definition run (u : user) (a : action) (s : tables) : response * tables :=
  match a with
  | SetStock bt qty => blood_inventory_set u bt qty s
  | Issue bt qty purpose name contact =>
      blood_inventory_issue u bt qty purpose name contact s
  | UpdateIssuance id p => blood_inventory_issuance_update u id p s
  | DeleteIssuance id => blood_inventory_issuance_delete u id s
  | RequestStatus now id new_status reason =>
      update_inventory_request_status now u id new_status reason s
  end.

Fixpoint served (requests : list (user * action)) (s : tables) : tables :=
  match requests with
  | [] => s
  | (u, a) :: rest => served rest (snd (run u a s))
  end.

(** A request that is rejected, cancelled or completed. *)
Definition finished (request_id : Z) (s : tables) : Prop :=
  exists row,
    select_one (fun r => ir_id r =? request_id) (blood_inventory_requests s) = Some row
    /\ Py.mem (ir_status row) ["rejected"; "cancelled"; "completed"] = true.

(** The units a bank holds of a blood type, over all its rows. *)
Definition units (bank_user_id : Z) (bt : string) (s : tables) : Z :=
  fold_right Z.add 0
    (map st_quantity_units
       (filter (fun r => (st_bank_user_id r =? bank_user_id)
                         && String.eqb (st_blood_type r) bt)
               (blood_inventory s))).

(** No quantity in the two tables is negative. *)
Definition sound (s : tables) : Prop :=
  Forall (fun r => 0 <= st_quantity_units r) (blood_inventory s)
  /\ Forall (fun r => 0 <= is_quantity_units r) (blood_inventory_issuances s).

(** A request that does not set a stock to a negative quantity. *)
Definition sets_no_debt (a : action) : Prop :=
  match a with
  | SetStock _ (Some q) => 0 <= q
  | _ => True
  end.

(** The ids of the two tables are keys, and the counters are ahead of them. *)
Definition keyed (s : tables) : Prop :=
  NoDup (map st_id (blood_inventory s))
  /\ Forall (fun r => st_id r < blood_inventory_next s) (blood_inventory s)
  /\ NoDup (map is_id (blood_inventory_issuances s))
  /\ Forall (fun r => is_id r < blood_inventory_issuances_next s)
       (blood_inventory_issuances s).

(** The patch that only sets the status. *)
Definition status_only (st : string) : patch :=
  {| pt_purpose := None; pt_issued_to_name := None; pt_issued_to_contact := None;
     pt_status := Some st |}.

(** The clerk of bank 30, and the bank with ten units of O+ and nothing
    issued. *)
Definition clerk : user := {| u_id := 30; u_role := "blood_bank" |}.

Definition o_positive : stock :=
  {| st_id := 1; st_bank_user_id := 30; st_blood_type := "O+"; st_quantity_units := 10 |}.

(** User 101 asked bank 30 for four units of O+ for Monday 09:00; the
    request is completed. *)
Definition delivered : inventory_request :=
  {| ir_id := 1; ir_requester_user_id := 101; ir_bank_user_id := 30;
     ir_blood_type := "O+"; ir_quantity_units := 4;
     ir_target_datetime := Some (at_hm monday 9 0); ir_status := "completed";
     ir_reject_reason := None |}.

Definition bank : tables :=
  {| blood_inventory := [o_positive]; blood_inventory_next := 2;
     blood_inventory_issuances := []; blood_inventory_issuances_next := 1;
     status_default := "issued"; blood_inventory_requests := [delivered] |}.

(** Four units are issued, the issuance is reverted, set back to 'issued'
    and reverted again. *)
Definition back_and_forth : list (user * action) :=
  [ (clerk, Issue "O+" (Some 4) None (Some (Py.str_of "Ward 3")) None);
    (clerk, UpdateIssuance 1 (status_only "reverted"));
    (clerk, UpdateIssuance 1 (status_only "issued"));
    (clerk, UpdateIssuance 1 (status_only "reverted")) ].

End Bank.
(** * Properties *)

Open Scope list_scope.

(** ** The slot allocator *)

Lemma find_app_first {A : Type} (p : A -> bool) (l1 l2 : list A) :
  find p (l1 ++ l2) = match find p l1 with Some x => Some x | None => find p l2 end.
Proof.
  induction l1 as [|a l1 IH]; simpl; [reflexivity|].
  destruct (p a); [reflexivity | exact IH].
Qed.


Lemma range_zero_succ (n : Z) :
  0 <= n ->
  Py.range 0 (n + 1) = 0 :: map Z.of_nat (seq 1 (Z.to_nat n)).
Proof.
  intros Hn. unfold Py.range.
  replace (Z.to_nat (n + 1 - 0)) with (S (Z.to_nat n)) by lia.
  cbn [seq map]. f_equal.
Qed.

Lemma max_iters_pos (ws we step : Z) : 1 <= max_iters ws we step.
Proof. unfold max_iters. lia. Qed.

Section SearchFacts.

Variables (d ws we step : Z) (taken : list string).

Let adm := spec_admissible ws we taken.

Lemma probe_signs_find (i : Z) (signs : list Z) :
  probe_signs d ws we step taken i signs
  = option_map min_to_hhmm (find adm (map (fun sign => d + sign * i * step) signs)).
Proof.
  induction signs as [|sg signs IH]; simpl; [reflexivity|].
  unfold adm, spec_admissible in *.
  destruct (d + sg * i * step <? ws) eqn:Hlo;
    destruct (d + sg * i * step >? we) eqn:Hhi;
    destruct (ws <=? d + sg * i * step) eqn:Hlo';
    destruct (d + sg * i * step <=? we) eqn:Hhi'; simpl; try lia; try exact IH.
  destruct (Py.mem (min_to_hhmm (d + sg * i * step)) taken); simpl;
    [exact IH | reflexivity].
Qed.

Lemma probe_rounds_find (rounds : list Z) :
  probe_rounds d ws we step taken rounds
  = option_map min_to_hhmm
      (find adm (flat_map (fun i => map (fun sign => d + sign * i * step) (signs_of i))
                          rounds)).
Proof.
  induction rounds as [|i rounds IH]; simpl; [reflexivity|].
  rewrite probe_signs_find, find_app_first.
  destruct (find adm (map (fun sign => d + sign * i * step) (signs_of i)));
    simpl; [reflexivity | exact IH].
Qed.

Lemma rounds_from (b n : nat) :
  (1 <= b)%nat ->
  flat_map (fun i => map (fun sign => d + sign * i * step) (signs_of i))
           (map Z.of_nat (seq b n))
  = flat_map (fun k => [d + Z.of_nat k * step; d - Z.of_nat k * step]) (seq b n).
Proof.
  revert b. induction n as [|n IH]; intros b Hb; cbn [seq map flat_map];
    [reflexivity|].
  unfold signs_of at 1.
  destruct (Z.of_nat b =? 0) eqn:Hz; [lia|]. cbn [map app].
  f_equal; [ring|]. f_equal; [ring|]. apply IH. lia.
Qed.

Lemma nearest_slot_find :
  nearest_slot d ws we step taken
  = option_map min_to_hhmm
      (find adm (probe_order d step (Z.to_nat (max_iters ws we step)))).
Proof.
  unfold nearest_slot. rewrite probe_rounds_find.
  rewrite range_zero_succ by (pose proof (max_iters_pos ws we step); lia).
  cbn [flat_map]. unfold signs_of at 1. cbn [Z.eqb map app].
  rewrite rounds_from by lia. unfold probe_order.
  replace (d + 0 * 0 * step) with d by ring. reflexivity.
Qed.

Lemma find_rounds_first (b n : nat) (cm : Z) :
  find adm (flat_map (fun k => [d + Z.of_nat k * step; d - Z.of_nat k * step]) (seq b n))
  = Some cm ->
  exists k : nat,
    (b <= k < b + n)%nat
    /\ (cm = d + Z.of_nat k * step
        \/ (cm = d - Z.of_nat k * step /\ adm (d + Z.of_nat k * step) = false))
    /\ forall j : nat, (b <= j < k)%nat ->
         adm (d + Z.of_nat j * step) = false /\ adm (d - Z.of_nat j * step) = false.
Proof.
  revert b. induction n as [|n IH]; intros b; cbn [seq flat_map app find];
    [discriminate|].
  destruct (adm (d + Z.of_nat b * step)) eqn:Hp.
  - intros [= <-]. exists b. repeat split; [lia | lia | now left | lia | lia].
  - destruct (adm (d - Z.of_nat b * step)) eqn:Hm.
    + intros [= <-]. exists b. repeat split; [lia | lia | now right | lia | lia].
    + intros Hf. destruct (IH (S b) Hf) as (k & Hk & Hcm & Hbefore).
      exists k. repeat split; [lia | lia | exact Hcm | |].
      * destruct (Nat.eq_dec j b) as [->|]; [exact Hp | apply Hbefore; lia].
      * destruct (Nat.eq_dec j b) as [->|]; [exact Hm | apply Hbefore; lia].
Qed.

Lemma find_candidates_first (n : nat) (cm : Z) :
  find adm (probe_order d step n) = Some cm ->
  exists k : nat,
    (k <= n)%nat
    /\ (cm = d + Z.of_nat k * step
        \/ (cm = d - Z.of_nat k * step /\ adm (d + Z.of_nat k * step) = false))
    /\ forall j : nat, (j < k)%nat ->
         adm (d + Z.of_nat j * step) = false /\ adm (d - Z.of_nat j * step) = false.
Proof.
  unfold probe_order. cbn [find].
  destruct (adm d) eqn:Hd.
  - intros [= <-]. exists 0%nat. repeat split; [lia | left; cbn; lia | lia | lia].
  - intros Hf. destruct (find_rounds_first 1 n cm Hf) as (k & Hk & Hcm & Hbefore).
    exists k. repeat split; [lia | exact Hcm | |].
    + destruct j as [|j]; [cbn; now rewrite Z.add_0_r | apply Hbefore; lia].
    + destruct j as [|j]; [cbn; now rewrite Z.sub_0_r | apply Hbefore; lia].
Qed.

End SearchFacts.

Lemma hhmm_roundtrip_table :
  forallb (fun cm => match hhmm_to_min (min_to_hhmm cm) with
                     | Some x => x =? cm
                     | None => false
                     end)
          (Py.range 0 1440) = true.
Proof. vm_compute. reflexivity. Qed.

Lemma hhmm_to_min_min_to_hhmm (cm : Z) :
  0 <= cm < 24 * 60 -> hhmm_to_min (min_to_hhmm cm) = Some cm.
Proof.
  intros Hcm. pose proof hhmm_roundtrip_table as T.
  rewrite forallb_forall in T. specialize (T cm).
  destruct (hhmm_to_min (min_to_hhmm cm)) as [x|].
  - f_equal. apply Z.eqb_eq. apply T.
    unfold Py.range. apply in_map_iff. exists (Z.to_nat cm). split; [lia|].
    apply in_seq. lia.
  - enough (false = true) by discriminate. apply T.
    unfold Py.range. apply in_map_iff. exists (Z.to_nat cm). split; [lia|].
    apply in_seq. lia.
Qed.

Lemma clamp_desired_in_window (d0 ws we : Z) :
  ws <= we -> ws <= clamp_desired d0 ws we <= we.
Proof.
  intros H. unfold clamp_desired.
  destruct (d0 <? ws) eqn:E1.
  - destruct (ws >? we) eqn:E2; lia.
  - destruct (d0 >? we) eqn:E2; lia.
Qed.


Lemma min_to_hhmm_mod (x : Z) : min_to_hhmm (x mod (24 * 60)) = min_to_hhmm x.
Proof. unfold min_to_hhmm. cbv zeta. now rewrite Z.mod_mod by lia. Qed.

Lemma hhmm_to_min_min_to_hhmm_mod (x : Z) :
  hhmm_to_min (min_to_hhmm x) = Some (x mod (24 * 60)).
Proof.
  rewrite <- min_to_hhmm_mod.
  apply hhmm_to_min_min_to_hhmm. apply Z.mod_pos_bound. lia.
Qed.

Lemma minute_of_day_datetime_at (day m : Z) :
  minute_of_day (datetime_at day m) = m mod (24 * 60).
Proof.
  unfold minute_of_day, datetime_at, usec_per_day, usec_per_min, usec_per_sec.
  replace (day * (86400 * 1000000) + m * (60 * 1000000))
    with ((day * 1440 + m) * (60 * 1000000)) by ring.
  rewrite Z.div_mul by lia.
  rewrite Z.add_comm. apply Z.mod_add. lia.
Qed.


(** ** The reach of the search *)

Lemma probe_order_plus (d step : Z) (n k : nat) :
  (k <= n)%nat -> In (d + Z.of_nat k * step) (probe_order d step n).
Proof.
  intros Hk. unfold probe_order. destruct k as [|k].
  - left. cbn. lia.
  - right. apply in_flat_map. exists (S k). split; [apply in_seq; lia | now left].
Qed.

Lemma probe_order_minus (d step : Z) (n k : nat) :
  (k <= n)%nat -> In (d - Z.of_nat k * step) (probe_order d step n).
Proof.
  intros Hk. unfold probe_order. destruct k as [|k].
  - left. cbn. lia.
  - right. apply in_flat_map. exists (S k). split; [apply in_seq; lia | right; now left].
Qed.

Lemma probe_order_grid (d step : Z) (n : nat) (x : Z) :
  In x (probe_order d step n) -> exists k : Z, x = d + k * step.
Proof.
  unfold probe_order. intros [<- | Hx].
  - exists 0. lia.
  - apply in_flat_map in Hx as (k & _ & [<- | [<- | []]]).
    + now exists (Z.of_nat k).
    + exists (- Z.of_nat k). lia.
Qed.

(** Every point of the grid that lies in the window is within the reach of
    the loop bound. *)
Lemma grid_within_reach (d ws we step k : Z) :
  step <> 0 -> ws <= d <= we -> ws <= d + k * step <= we ->
  Z.abs k <= max_iters ws we step.
Proof.
  intros Hstep Hd Hk. unfold max_iters.
  destruct (Z_lt_le_dec 0 step) as [Hpos | Hneg].
  - replace (Z.max 1 step) with step by lia.
    assert (Z.abs k <= (we - ws) / step); [|lia].
    apply Z.div_le_lower_bound; [exact Hpos|]. nia.
  - replace (Z.max 1 step) with 1 by lia. rewrite Z.div_1_r. nia.
Qed.

Lemma grid_is_probed (d ws we step k : Z) :
  step <> 0 -> ws <= d <= we -> ws <= d + k * step <= we ->
  In (d + k * step) (probe_order d step (Z.to_nat (max_iters ws we step))).
Proof.
  intros Hstep Hd Hk.
  pose proof (grid_within_reach d ws we step k Hstep Hd Hk) as Hreach.
  destruct (Z_lt_le_dec k 0) as [Hneg | Hpos].
  - replace (d + k * step) with (d - Z.of_nat (Z.to_nat (- k)) * step) by lia.
    apply probe_order_minus. lia.
  - replace (d + k * step) with (d + Z.of_nat (Z.to_nat k) * step) by lia.
    apply probe_order_plus. lia.
Qed.








(** ** The slot allocator and the design document *)




(** ** The regression case of the design document *)

(** C3, as stated, fails: with window 09:00-12:00, step 30, taken
    09:00/09:30/10:00 and desired 09:15, neither the search nor the handler
    allocates 10:30. *)
Lemma regression_case_is_not_1030 :
  nearest_slot (clamp_desired 555 540 720) 540 720 30 ["09:00"; "09:30"; "10:00"]
    <> Some "10:30"
  /\ forall id serial t,
       fst (book_service calm 104
              (service_request 1 (Some {| st_day := monday; st_time := Some "09:15" |}))
              xray_morning_taken)
       <> JsonServiceBooked id serial (Some "10:30") t.
Proof.
  split; [vm_compute; discriminate|].
  intros id serial t. vm_compute. discriminate.
Qed.

(** C3, amended: at that input the desired time 09:15 itself is inside the
    window and not taken, so it is the slot allocated; the handler books it
    with serial 4. *)
Theorem regression_case_allocates_0915 :
  hhmm_to_min "09:15" = Some 555
  /\ nearest_slot (clamp_desired 555 540 720) 540 720 30 ["09:00"; "09:30"; "10:00"]
     = Some "09:15"
  /\ fst (book_service calm 104
            (service_request 1 (Some {| st_day := monday; st_time := Some "09:15" |}))
            xray_morning_taken)
     = JsonServiceBooked 4 4 (Some "09:15") (at_hm monday 9 15).
Proof. repeat split; vm_compute; reflexivity. Qed.

(** ** Capacity *)

Lemma count_rows_nonneg {A : Type} (p : A -> bool) (t : list A) : 0 <= count_rows p t.
Proof. unfold count_rows. lia. Qed.




Lemma crisis_gate_is_error (c : option Z) (s : store) (r : response) :
  crisis_gate c s = Some r -> is_error r = true.
Proof.
  unfold crisis_gate, _require_crisis_open.
  destruct c as [c|]; [|discriminate].
  destruct (Py.truthy_int c); [|discriminate].
  destruct (_incident_status_for_crisis c s) as [st|]; [|discriminate].
  destruct (String.eqb st "closed" || String.eqb st "cancelled"); [|discriminate].
  now intros [= <-].
Qed.

Lemma beds_gate_is_error (c : option Z) (svc : hospital_service) (h : Z) (s : store)
    (r : response) :
  beds_gate c svc h s = Some r -> is_error r = true.
Proof.
  unfold beds_gate.
  repeat match goal with
         | |- context [match ?x with _ => _ end] => destruct x; try discriminate
         end.
  now intros [= <-].
Qed.



Lemma count_rows_snoc {A : Type} (p : A -> bool) (t : list A) (x : A) :
  count_rows p (t ++ [x]) = count_rows p t + (if p x then 1 else 0).
Proof.
  unfold count_rows. rewrite filter_app, length_app. cbn [filter].
  destruct (p x); cbn [List.length]; lia.
Qed.



(** ** The advisory lock *)

(** C4, the counterexample: the lock is not granted within the ten seconds,
    and both handlers go on and book; neither answers with an error. *)
Lemma lock_timeout_still_books :
  lock_granted busy = false
  /\ book_service busy 101 (service_request 1 (monday_at "09:00")) clinic
     = (JsonServiceBooked 1 1 (Some "09:00") (at_hm monday 9 0),
        snd (book_service busy 101 (service_request 1 (monday_at "09:00")) clinic))
  /\ log (snd (book_service busy 101 (service_request 1 (monday_at "09:00")) clinic))
     = [ EvGetLock (SvcKey 1 monday) false; EvReleaseLock (SvcKey 1 monday);
         EvInsertServiceBooking 1 [];
         EvNotify 10 "service_booked" 1; EvNotify 101 "service_booking_confirmed" 1 ]
  /\ fst (book_appointment busy 201 (visit 9 0 9 15) clinic)
     = JsonAppointmentBooked 1 1 (Some "09:00")
  /\ log (snd (book_appointment busy 201 (visit 9 0 9 15) clinic))
     = [ EvGetLock (ApptKey 20 10 monday) false; EvInsertAppointment 1 [];
         EvNotify 20 "appointment_booked" 1 ].
Proof. repeat split; vm_compute; reflexivity. Qed.

Lemma clamp_step_no_return (a b c : option Z) (r : response) :
  clamp_step a b c <> Return r.
Proof. destruct a, b, c; discriminate. Qed.

(** The only [return] of the [try] block after the lock request is the one
    of the exhausted search. *)
Lemma allocate_return (e : env) (svc : hospital_service) (service_id : Z)
    (date_part : booking_date) (time_part : option string) (s : store) (r : response) :
  allocate e svc service_id date_part time_part s = Return r -> r = err "full" 400.
Proof.
  unfold allocate. cbv zeta.
  destruct (clamp_step _ _ _) as [dm|r0|] eqn:Hclamp;
    [|now apply clamp_step_no_return in Hclamp|discriminate].
  intros H.
  repeat match type of H with
         | context [match ?x with _ => _ end] => destruct x; try discriminate
         end;
    congruence.
Qed.

Lemma crisis_gate_code (c : option Z) (s : store) (r : response) :
  crisis_gate c s = Some r -> exists st, r = JsonError "crisis_closed" [("status", st)] 400.
Proof.
  unfold crisis_gate, _require_crisis_open.
  destruct c as [c|]; [|discriminate].
  destruct (Py.truthy_int c); [|discriminate].
  destruct (_incident_status_for_crisis c s) as [st|]; [|discriminate].
  destruct (String.eqb st "closed" || String.eqb st "cancelled"); [|discriminate].
  intros [= <-]. now exists st.
Qed.

Lemma beds_gate_code (c : option Z) (svc : hospital_service) (h : Z) (s : store)
    (r : response) :
  beds_gate c svc h s = Some r -> r = err "no_beds" 400.
Proof.
  unfold beds_gate.
  repeat match goal with
         | |- context [match ?x with _ => _ end] => destruct x; try discriminate
         end.
  now intros [= <-].
Qed.

Lemma window_gate_code (amb : bool) (ws we tp : option string) (r : response) :
  window_gate amb ws we tp = Some r -> exists detail, r = JsonError "outside_window" detail 400.
Proof.
  unfold window_gate. intros Hw.
  repeat match type of Hw with
         | context [match ?x with _ => _ end] => destruct x; try discriminate
         end.
  injection Hw as <-. eexists. reflexivity.
Qed.

(** The response at hand is one of the listed errors, or no error. *)
Ltac listed_error :=
  cbn [fst]; unfold err;
  let H := fresh in
  intros H; first [discriminate H | injection H as <- _ <-; cbn; tauto].

(** Every error answer of [book_service] is one of [service_errors]. *)
Lemma book_service_errors (e : env) (user_id : Z) (rq : book_service_request) (s : store)
    (code : string) (detail : list (string * string)) (http : Z) :
  fst (book_service e user_id rq s) = JsonError code detail http ->
  In (code, http) service_errors.
Proof.
  unfold book_service.
  destruct (crisis_gate (rq_crisis_id rq) s) as [r|] eqn:Hc.
  { apply crisis_gate_code in Hc as [st ->]. listed_error. }
  destruct (negb _); [listed_error|].
  destruct (select_one _ (hospital_services s)) as [svc|]; [|listed_error].
  destruct (negb (hs_hospital_user_id svc =? _)); [listed_error|].
  destruct (negb (hs_available svc =? 1)); [listed_error|].
  destruct (beds_gate _ _ _ _) as [r|] eqn:Hb.
  { apply beds_gate_code in Hb as ->. listed_error. }
  destruct (0 <? _); [listed_error|].
  cbv zeta.
  destruct ((0 <? _) && _); [listed_error|].
  destruct (window_gate _ _ _ _) as [r|] eqn:Hw.
  { apply window_gate_code in Hw as [dt ->]. listed_error. }
  unfold GET_LOCK.
  destruct (allocate e svc _ _ _ _) as [a|r|] eqn:Hal;
    [destruct (write_ok e); listed_error | | listed_error].
  apply allocate_return in Hal as ->. listed_error.
Qed.

(** Every error answer of [book_appointment] is one of [appointment_errors]. *)
Lemma book_appointment_errors (e : env) (user_id : Z) (rq : book_appointment_request)
    (s : store) (code : string) (detail : list (string * string)) (http : Z) :
  fst (book_appointment e user_id rq s) = JsonError code detail http ->
  In (code, http) appointment_errors.
Proof.
  unfold book_appointment.
  destruct (ra_starts_at rq) as [starts_at|]; [|listed_error].
  destruct (ra_ends_at rq) as [ends_at|]; [|listed_error].
  destruct (negb _); [listed_error|].
  destruct (negb _); [listed_error|].
  destruct (day_schedules _ _ _ _); [listed_error|].
  destruct (_hhmm starts_at); [|listed_error].
  destruct (_hhmm ends_at); [|listed_error].
  destruct (String.leb _ _); [listed_error|].
  destruct (negb _); [listed_error|].
  destruct (existsb _ (appointments s)); [listed_error|].
  unfold GET_LOCK. cbv zeta.
  destruct (engine_mysql e), (lock_granted e);
    cbn [with_session appointments andb];
    (destruct (Py.truthy_int (sum_max_per_day _) && _); [listed_error|]);
    destruct (write_ok e); listed_error.
Qed.

Lemma no_contention_listed (code : string) (http : Z) :
  In (code, http) (service_errors ++ appointment_errors) ->
  code <> "contention" /\ http <> 409.
Proof.
  cbn. intros H.
  repeat (destruct H as [H | H];
          [injection H as <- <-; split; [discriminate | lia]|]).
  destruct H.
Qed.

(** C4, amended: the lock is best effort.  Whether [GET_LOCK] grants the
    lock or times out, both handlers give the same response and leave the
    same tables: a timeout is not reported, and the handler goes on to
    allocate.  Whatever the lock does, an error answer of [book_service] is
    one of crisis_closed, missing_fields, service_not_found (404),
    service_unavailable, no_beds, one_per_day, full and outside_window, and
    an error answer of [book_appointment] one of missing_fields, not_member,
    no_schedule, invalid_time, invalid_range, outside_schedule,
    already_booked_same_day and capacity_full, all 400 but the one: never
    'contention', never HTTP 409. *)
Theorem lock_outcome_is_ignored :
  forall (e : env) (b : bool) (user_id : Z),
    (forall rq s,
       fst (book_service (with_lock_granted b e) user_id rq s)
       = fst (book_service e user_id rq s)
       /\ service_bookings (snd (book_service (with_lock_granted b e) user_id rq s))
          = service_bookings (snd (book_service e user_id rq s))
       /\ forall code detail http,
            fst (book_service e user_id rq s) = JsonError code detail http ->
            In (code, http) service_errors /\ code <> "contention" /\ http <> 409)
    /\ (forall rq s,
       fst (book_appointment (with_lock_granted b e) user_id rq s)
       = fst (book_appointment e user_id rq s)
       /\ appointments (snd (book_appointment (with_lock_granted b e) user_id rq s))
          = appointments (snd (book_appointment e user_id rq s))
       /\ forall code detail http,
            fst (book_appointment e user_id rq s) = JsonError code detail http ->
            In (code, http) appointment_errors /\ code <> "contention" /\ http <> 409).
Proof.
  intros e b user_id. split; intros rq s.
  - apply and_assoc. split.
    2:{ intros code detail http Herr. apply book_service_errors in Herr.
        split; [exact Herr|]. apply no_contention_listed, in_or_app. now left. }
    unfold book_service, GET_LOCK.
    cbn [with_lock_granted now engine_mysql lock_granted write_ok].
    destruct (crisis_gate (rq_crisis_id rq) s); [split; reflexivity|].
    destruct (negb _); [split; reflexivity|].
    destruct (select_one _ (hospital_services s)) as [svc|]; [|split; reflexivity].
    destruct (negb (hs_hospital_user_id svc =? _)); [split; reflexivity|].
    destruct (negb (hs_available svc =? 1)); [split; reflexivity|].
    destruct (beds_gate _ _ _ _); [split; reflexivity|].
    destruct (0 <? _); [split; reflexivity|].
    destruct (_ && _); [split; reflexivity|].
    destruct (window_gate _ _ _ _); [split; reflexivity|].
    cbv zeta.
    match goal with
    | |- context [allocate ?e1 ?v ?i ?d ?t ?s1] =>
        change (allocate e1 v i d t s1) with (allocate e v i d t s)
    end.
    match goal with
    | |- context [allocate ?e1 ?v ?i ?d ?t (with_session ?s0 ?h ?l)] =>
        change (allocate e1 v i d t (with_session s0 h l)) with (allocate e v i d t s)
    end.
    destruct (allocate e svc _ _ _ s); [|split; reflexivity|split; reflexivity].
    destruct (write_ok e); split; reflexivity.
  - apply and_assoc. split.
    2:{ intros code detail http Herr. apply book_appointment_errors in Herr.
        split; [exact Herr|]. apply no_contention_listed, in_or_app. now right. }
    unfold book_appointment, GET_LOCK.
    cbn [with_lock_granted now engine_mysql lock_granted write_ok].
    destruct (ra_starts_at rq) as [starts_at|]; [|split; reflexivity].
    destruct (ra_ends_at rq) as [ends_at|]; [|split; reflexivity].
    destruct (negb _); [split; reflexivity|].
    destruct (negb _); [split; reflexivity|].
    destruct (day_schedules _ _ _ _); [split; reflexivity|].
    destruct (_hhmm starts_at); [|split; reflexivity].
    destruct (_hhmm ends_at); [|split; reflexivity].
    destruct (String.leb _ _); [split; reflexivity|].
    destruct (negb _); [split; reflexivity|].
    destruct (existsb _ (appointments s)); [split; reflexivity|].
    destruct (engine_mysql e), (lock_granted e), b; cbv zeta;
      cbn [with_session appointments andb];
      (destruct (_ && _); [split; reflexivity|]);
      destruct (write_ok e); split; reflexivity.
Qed.

(** ** One booking per patient, provider and day *)





(** ** Serials *)



Lemma filter_snoc {A : Type} (p : A -> bool) (l : list A) (x : A) :
  filter p (l ++ [x]) = filter p l ++ (if p x then [x] else []).
Proof. rewrite filter_app. reflexivity. Qed.


(** What [allocate] hands on when it falls through. *)
Lemma allocate_serial (e : env) (svc : hospital_service) (service_id : Z)
    (date_part : booking_date) (time_part : option string) (s : store) (a : allocation) :
  allocate e svc service_id date_part time_part s = Done a ->
  al_serial a
  = count_rows (booked_on service_id (bd_date date_part)) (service_bookings s) + 1.
Proof.
  unfold allocate. cbv zeta.
  destruct (clamp_step _ _ _) as [dm|r0|]; [|discriminate|discriminate].
  intros H.
  repeat match type of H with
         | context [match ?x with _ => _ end] => destruct x; try discriminate
         end;
    injection H as <-; reflexivity.
Qed.

(** A request whose date reads well is checked, numbered and saved on one
    and the same day. *)
Lemma well_dated_days (e : env) (svc : hospital_service) (rq : book_service_request) :
  well_dated rq = true ->
  exists d : Z,
    service_day e svc rq = Day d /\ booking_day e svc rq = Day d
    /\ bd_day (booking_date_of e svc (rq_scheduled_at rq)) = Some d.
Proof.
  unfold well_dated, service_day, booking_day, booking_date_of, effective_date,
    date_part_of.
  destruct (is_ambulance svc); [intros _; now exists (DATE (now e))|].
  destruct (rq_scheduled_at rq) as [t|]; [|intros _; now exists (DATE (now e))].
  destruct (sa_date t) as [|d]; [discriminate|].
  destruct (sa_date_part t) as [p|]; cbn [bd_date bd_day].
  - destruct (dp_date p) as [|d']; [discriminate|].
    destruct (dp_day p) as [d''|]; [|discriminate].
    intros H. apply andb_prop in H as [H1 H2]. apply Z.eqb_eq in H1, H2. subst.
    now exists d.
  - intros H. apply Z.eqb_eq in H. subst. now exists 0.
Qed.



(** C7: the defect at a concrete run.  [book_service] asks for the lock,
    releases it in its [finally] block and only then inserts the row, with
    no lock held; [book_appointment] inserts the row while it holds the lock
    and releases it afterwards. *)
Theorem service_insert_runs_after_release :
  log (snd (book_service calm 101 (service_request 1 (monday_at "09:00")) clinic))
  = [ EvGetLock (SvcKey 1 monday) true;
      EvReleaseLock (SvcKey 1 monday);
      EvInsertServiceBooking 1 [];
      EvNotify 10 "service_booked" 1;
      EvNotify 101 "service_booking_confirmed" 1 ]
  /\ log (snd (book_appointment calm 201 (visit 9 0 9 15) clinic))
     = [ EvGetLock (ApptKey 20 10 monday) true;
         EvInsertAppointment 1 [ApptKey 20 10 monday];
         EvReleaseLock (ApptKey 20 10 monday);
         EvNotify 20 "appointment_booked" 1 ].
Proof. split; vm_compute; reflexivity. Qed.

Lemma lock_key_eqb_refl (k : lock_key) : lock_key_eqb k k = true.
Proof.
  destruct k as [s d | s [t|] | x y d]; cbn;
    rewrite ?Z.eqb_refl, ?String.eqb_refl; reflexivity.
Qed.

(** The same for every run: whenever [book_service] books, for a session
    that held no lock before, the insert is logged with no lock held. *)
Lemma service_insert_without_lock (e : env) (user_id : Z) (rq : book_service_request)
    (s : store) (id serial : Z) (approx : option string) (t : datetime) :
  locks_held s = [] ->
  fst (book_service e user_id rq s) = JsonServiceBooked id serial approx t ->
  In (EvInsertServiceBooking id []) (log (snd (book_service e user_id rq s))).
Proof.
  intros Hs. unfold book_service.
  destruct (crisis_gate (rq_crisis_id rq) s) as [r|] eqn:Hc.
  { cbn [fst]. intros ->. now apply crisis_gate_is_error in Hc. }
  destruct (negb _); [discriminate|].
  destruct (select_one _ (hospital_services s)) as [svc|]; [|discriminate].
  destruct (negb (hs_hospital_user_id svc =? _)); [discriminate|].
  destruct (negb (hs_available svc =? 1)); [discriminate|].
  destruct (beds_gate _ _ _ _) as [r|] eqn:Hb.
  { cbn [fst]. intros ->. now apply beds_gate_is_error in Hb. }
  destruct (0 <? _); [discriminate|].
  cbv zeta.
  destruct ((0 <? _) && _); [discriminate|].
  destruct (window_gate _ _ _ _) as [r|] eqn:Hw.
  { unfold window_gate in Hw.
    repeat match type of Hw with
           | context [match ?x with _ => _ end] => destruct x; try discriminate
           end.
    injection Hw as <-. discriminate. }
  unfold GET_LOCK.
  destruct (allocate e svc _ _ _ _) as [a|r|] eqn:Hal; [| |discriminate].
  - destruct (write_ok e); [|discriminate].
    cbn [fst snd]. intros [= <- _ _ _].
    cbn [RELEASE_LOCK _notify emit with_session with_service_bookings log locks_held
           sb_auto_increment].
    rewrite Hs.
    replace (filter _ (if engine_mysql e && lock_granted e then [_] else []))
      with (@nil lock_key)
      by (destruct (engine_mysql e && lock_granted e); cbn [filter];
          rewrite ?lock_key_eqb_refl; reflexivity).
    rewrite !in_app_iff. left. left. right. left. reflexivity.
  - apply allocate_return in Hal as ->. discriminate.
Qed.

(** Release on every exit path: a request that starts with no lock held
    ends with no lock held, whatever the response (errors, an exhausted
    search, a failing insert included). *)
Lemma locks_released_on_every_path (e : env) (user_id : Z) :
  (forall rq s, locks_held s = [] -> locks_held (snd (book_service e user_id rq s)) = [])
  /\ (forall rq s, locks_held s = [] -> locks_held (snd (book_appointment e user_id rq s)) = []).
Proof.
  split; intros rq s Hs.
  - unfold book_service.
    destruct (crisis_gate (rq_crisis_id rq) s); [exact Hs|].
    destruct (negb _); [exact Hs|].
    destruct (select_one _ (hospital_services s)) as [svc|]; [|exact Hs].
    destruct (negb (hs_hospital_user_id svc =? _)); [exact Hs|].
    destruct (negb (hs_available svc =? 1)); [exact Hs|].
    destruct (beds_gate _ _ _ _); [exact Hs|].
    destruct (0 <? _); [exact Hs|].
    cbv zeta.
    destruct ((0 <? _) && _); [exact Hs|].
    destruct (window_gate _ _ _ _); [exact Hs|].
    unfold GET_LOCK.
    destruct (allocate e svc _ _ _ _); [destruct (write_ok e)| |];
      cbn [snd RELEASE_LOCK _notify emit with_session with_service_bookings locks_held];
      rewrite Hs;
      destruct (engine_mysql e && lock_granted e); cbn [filter];
      rewrite ?lock_key_eqb_refl; reflexivity.
  - unfold book_appointment.
    destruct (ra_starts_at rq) as [starts_at|]; [|exact Hs].
    destruct (ra_ends_at rq) as [ends_at|]; [|exact Hs].
    destruct (negb _); [exact Hs|].
    destruct (negb _); [exact Hs|].
    destruct (day_schedules _ _ _ _); [exact Hs|].
    destruct (_hhmm starts_at); [|exact Hs].
    destruct (_hhmm ends_at); [|exact Hs].
    destruct (String.leb _ _); [exact Hs|].
    destruct (negb _); [exact Hs|].
    destruct (existsb _ (appointments s)); [exact Hs|].
    unfold GET_LOCK. cbv zeta.
    destruct (engine_mysql e), (lock_granted e);
      cbn [with_session appointments andb];
      (destruct (Py.truthy_int (sum_max_per_day _) && _);
       [|destruct (write_ok e)]);
      cbn [snd RELEASE_LOCK _notify emit with_session with_appointments locks_held filter];
      rewrite ?Hs; cbn [filter]; rewrite ?lock_key_eqb_refl; reflexivity.
Qed.

(** The insert of [book_appointment] happens under the lock whenever the
    lock was granted. *)
Lemma appointment_insert_under_lock (e : env) (user_id : Z)
    (rq : book_appointment_request) (s : store) (id serial : Z) (approx : option string) :
  engine_mysql e = true -> lock_granted e = true ->
  fst (book_appointment e user_id rq s) = JsonAppointmentBooked id serial approx ->
  exists starts_at held,
    ra_starts_at rq = Some starts_at
    /\ In (EvInsertAppointment id held) (log (snd (book_appointment e user_id rq s)))
    /\ In (ApptKey (ra_doctor_user_id rq) (ra_hospital_user_id rq) (DATE starts_at)) held.
Proof.
  intros Hm Hg. unfold book_appointment.
  destruct (ra_starts_at rq) as [starts_at|]; [|discriminate].
  destruct (ra_ends_at rq) as [ends_at|]; [|discriminate].
  destruct (negb _); [discriminate|].
  destruct (negb _); [discriminate|].
  destruct (day_schedules _ _ _ _); [discriminate|].
  destruct (_hhmm starts_at); [|discriminate].
  destruct (_hhmm ends_at); [|discriminate].
  destruct (String.leb _ _); [discriminate|].
  destruct (negb _); [discriminate|].
  destruct (existsb _ (appointments s)); [discriminate|].
  unfold GET_LOCK. rewrite Hm, Hg. cbv zeta.
  cbn [with_session appointments andb ap_auto_increment locks_held].
  destruct (Py.truthy_int (sum_max_per_day _) && _); [discriminate|].
  destruct (write_ok e); [|discriminate].
  cbn [fst snd]. intros [= <- _ _].
  eexists starts_at, _. split; [reflexivity|].
  cbn [RELEASE_LOCK _notify emit with_session with_appointments log locks_held].
  split.
  - rewrite !in_app_iff. left. left. right. left. reflexivity.
  - left. reflexivity.
Qed.

(** ** Cancellation by the requester *)


Lemma filter_update_where {A : Type} (p cond : A -> bool) (f : A -> A) (t : list A) :
  (forall r, p (f r) = p r) ->
  filter p (update_where cond f t)
  = map (fun r => if cond r then f r else r) (filter p t).
Proof.
  intros Hp. unfold update_where.
  induction t as [|a t IH]; cbn [map filter]; [reflexivity|].
  replace (p (if cond a then f a else a)) with (p a)
    by (destruct (cond a); [symmetry; apply Hp | reflexivity]).
  destruct (p a); cbn [map]; now rewrite IH.
Qed.

Lemma select_one_update_where {A : Type} (p cond : A -> bool) (f : A -> A)
    (t : list A) (r : A) :
  (forall x, p (f x) = p x) ->
  select_one p t = Some r ->
  select_one p (update_where cond f t) = Some (if cond r then f r else r).
Proof.
  intros Hp. unfold select_one. rewrite filter_update_where by exact Hp.
  destruct (filter p t) as [|a [|b l]]; try discriminate.
  now intros [= ->].
Qed.

Lemma select_one_holds {A : Type} (p : A -> bool) (t : list A) (r : A) :
  select_one p t = Some r -> p r = true /\ In r t.
Proof.
  unfold select_one. destruct (filter p t) as [|a [|b l]] eqn:Hf; try discriminate.
  intros [= ->].
  assert (Hin : In r (filter p t)) by (rewrite Hf; now left).
  apply filter_In in Hin. tauto.
Qed.



(** ** Ambulance services *)

(** C9, the counterexample: a patient who called the ambulance today and
    calls again is refused with 'one_per_day'; and an ambulance service with
    max_per_day 1 that was called once today refuses the next caller with
    'full'. *)
Lemma ambulance_call_can_be_refused :
  is_ambulance ambulance = true /\ is_ambulance night_ambulance = true
  /\ fst (book_service calm 101 (ambulance_call 3) clinic)
     = JsonServiceBooked 1 1 (Some "20:15") (at_hm (monday - 1) 20 15)
  /\ fst (book_service calm 101 (ambulance_call 3)
            (snd (book_service calm 101 (ambulance_call 3) clinic)))
     = err "one_per_day" 400
  /\ fst (book_service calm 102 (ambulance_call 4)
            (snd (book_service calm 101 (ambulance_call 4) clinic)))
     = err "full" 400.
Proof. repeat split; vm_compute; reflexivity. Qed.

Lemma min_to_hhmm_truthy (x : Z) :
  truthy_text (Some (min_to_hhmm x)) = Some (min_to_hhmm x).
Proof.
  pose proof (hhmm_to_min_min_to_hhmm_mod x) as H.
  unfold truthy_text, Py.truthy_str.
  destruct (min_to_hhmm x); [discriminate H | reflexivity].
Qed.

(** C9, amended.  For an ambulance service the window check and the slot
    search are skipped and the time of the booking is now plus fifteen
    minutes, whatever the request says and whatever is taken; but the
    request still has to get past the earlier checks (one booking per
    patient and day among them) and the max_per_day check, both run for
    today; then, with window bounds that can be read and a store that
    accepts the insert, it is booked. *)
Theorem ambulance_books_immediately :
  forall e user_id rq s svc,
    select_one (fun v => hs_id v =? rq_service_id rq) (hospital_services s) = Some svc ->
    is_ambulance svc = true ->
    service_prechecks e user_id rq s svc = true ->
    service_has_room e rq s svc = true ->
    window_parses (hs_window_start_time svc) = true ->
    window_parses (hs_window_end_time svc) = true ->
    write_ok e = true ->
    service_day e svc rq = DATE (now e)
    /\ fst (book_service e user_id rq s)
       = JsonServiceBooked
           (sb_auto_increment s)
           (count_rows (booked_on (rq_service_id rq) (DATE (now e))) (service_bookings s) + 1)
           (Some (strftime_HM (now e + timedelta_minutes 15)))
           (strftime_seconds (now e + timedelta_minutes 15)).
Proof.
  intros e user_id rq s svc Hsel Hamb Hpre Hroom Hws Hwe Hw.
  assert (Hday : service_day e svc rq = DATE (now e))
    by (unfold service_day, effective_date; now rewrite Hamb).
  split; [exact Hday|].
  unfold service_prechecks in Hpre. unfold service_has_room in Hroom.
  rewrite Hday in Hpre, Hroom.
  unfold book_service, booking_date_of, date_part_of, time_part_of.
  rewrite Hsel. fold (service_day e svc rq). rewrite Hamb, Hday.
  cbn [dp_date dp_day svc_lock_key].
  destruct (crisis_gate (rq_crisis_id rq) s); [discriminate|].
  destruct (beds_gate (rq_crisis_id rq) svc (rq_hospital_user_id rq) s); [discriminate|].
  apply andb_prop in Hpre as [Hpre Hone]. apply andb_prop in Hpre as [Hpre Ha].
  apply andb_prop in Hpre as [Hid Hh].
  rewrite Hid, Hh, Ha. cbn [negb].
  apply Z.eqb_eq in Hone. rewrite Hone. cbn [Z.ltb Z.compare].
  replace ((0 <? match hs_max_per_day svc with Some n => n | None => 0 end)
           && (match hs_max_per_day svc with Some n => n | None => 0 end
               <=? count_rows (booked_on (rq_service_id rq) (DATE (now e)))
                              (service_bookings s)))
    with false.
  2:{ symmetry. destruct (hs_max_per_day svc) as [N|]; [|reflexivity].
      apply orb_prop in Hroom as [Hz|Hlt].
      - apply Z.leb_le in Hz. apply andb_false_iff. left. apply Z.ltb_ge. exact Hz.
      - apply Z.ltb_lt in Hlt. apply andb_false_iff. right. apply Z.leb_gt. exact Hlt. }
  cbv zeta. unfold window_gate at 1. cbv iota.
  unfold GET_LOCK.
  assert (Hal : forall held l,
             allocate e svc (rq_service_id rq) (DATE (now e)) (Some (strftime_HM (now e)))
                      (with_session s held l)
             = Done {| al_serial := count_rows (booked_on (rq_service_id rq) (DATE (now e)))
                                               (service_bookings s) + 1;
                       al_approx_time := Some (strftime_HM (now e + timedelta_minutes 15));
                       al_scheduled_to_save :=
                         strftime_seconds (now e + timedelta_minutes 15) |}).
  { intros held l. unfold allocate, desired_text, wstart_min_of, wend_min_of. cbv zeta.
    unfold strftime_HM at 1 2. rewrite min_to_hhmm_truthy, hhmm_to_min_min_to_hhmm_mod.
    unfold window_parses in Hws, Hwe.
    destruct (window_text (hs_window_start_time svc)) as [ws|];
      [destruct (hhmm_to_min ws); [|discriminate]|];
      (destruct (window_text (hs_window_end_time svc)) as [we|];
       [destruct (hhmm_to_min we); [|discriminate]|]);
      cbn [clamp_step]; rewrite Hamb; reflexivity. }
  rewrite Hal, Hw. reflexivity.
Qed.

(** The default ambulance service, called on Sunday at 20:00, books for
    20:15. *)
Lemma ambulance_books_immediately_witness :
  fst (book_service calm 101 (ambulance_call 3) clinic)
  = JsonServiceBooked 1 1 (Some "20:15") (at_hm (monday - 1) 20 15).
Proof.
  refine (proj2 (ambulance_books_immediately calm 101 (ambulance_call 3) clinic ambulance
                   _ _ _ _ _ _ _)); reflexivity.
Defined.

(** ** Hiding a service booking *)

(** C10.  For an existing service booking: hidden by its owner (and the
    UPDATE going through), the answer is ok, the booking has hidden_by_user
    1 and every other column as before, every other row is as before, and
    no other table changes; asked by anybody else, the answer is 'forbidden'
    and nothing changes. *)
Theorem hide_service_booking_frame :
  forall e user_id id s sb,
    select_one (fun b => sb_id b =? id) (service_bookings s) = Some sb ->
    (sb_user_id sb <> user_id ->
     hide_service_booking e user_id id s = (err "forbidden" 403, s))
    /\ (sb_user_id sb = user_id -> write_ok e = true ->
        let s' := snd (hide_service_booking e user_id id s) in
        fst (hide_service_booking e user_id id s) = JsonOk None
        /\ (exists sb',
              select_one (fun b => sb_id b =? id) (service_bookings s') = Some sb'
              /\ sb_hidden_by_user sb' = 1 /\ same_but_hidden sb sb')
        /\ List.length (service_bookings s') = List.length (service_bookings s)
        /\ (forall i b, nth_error (service_bookings s) i = Some b ->
              exists b', nth_error (service_bookings s') i = Some b'
                         /\ same_but_hidden b b'
                         /\ (sb_id b <> id -> b' = b))
        /\ s' = with_service_bookings s (service_bookings s') (sb_auto_increment s))
    /\ (sb_user_id sb = user_id -> write_ok e = false ->
        hide_service_booking e user_id id s = (err "hide_failed" 400, s)).
Proof.
  intros e user_id id s sb Hsel.
  destruct (select_one_holds _ _ _ Hsel) as [Hid _].
  unfold hide_service_booking. rewrite Hsel.
  split; [|split].
  - intros Hother. apply Z.eqb_neq in Hother. now rewrite Hother.
  - intros Hown Hw. rewrite Hown, Z.eqb_refl, Hw. cbn [negb fst snd].
    cbn [update_service_bookings with_service_bookings service_bookings].
    split; [reflexivity|]. split; [|split; [|split]].
    + exists (set_sb_hidden_by_user 1 sb). split.
      * rewrite (select_one_update_where _ _ _ _ sb) by (reflexivity || exact Hsel).
        now rewrite Hid, Hown, Z.eqb_refl.
      * split; [reflexivity|]. repeat split.
    + unfold update_where. apply length_map.
    + intros i b Hb. unfold update_where. rewrite nth_error_map, Hb. cbn [option_map].
      eexists. split; [reflexivity|].
      destruct (sb_id b =? id) eqn:Hbid; cbn [andb].
      * destruct (sb_user_id b =? user_id); split;
          [repeat split | intros Hne; apply Z.eqb_eq in Hbid; contradiction
          |repeat split | reflexivity].
      * split; [repeat split | reflexivity].
    + reflexivity.
  - intros Hown Hw. now rewrite Hown, Z.eqb_refl, Hw.
Qed.

(** Patient 101 hides the booked scan; patient 102 may not. *)
Lemma hide_service_booking_frame_witness :
  hide_service_booking calm 102 1 after_first_booking
  = (err "forbidden" 403, after_first_booking)
  /\ fst (hide_service_booking calm 101 1 after_first_booking) = JsonOk None.
Proof.
  assert (Hsel : select_one (fun b => sb_id b =? 1) (service_bookings after_first_booking)
                 = Some (booking 1 101 2 (at_hm monday 9 0) booked 1))
    by (vm_compute; reflexivity).
  split.
  - apply (proj1 (hide_service_booking_frame calm 102 1 after_first_booking _ Hsel)).
    vm_compute. discriminate.
  - apply (proj1 (proj2 (hide_service_booking_frame calm 101 1 after_first_booking _ Hsel)));
      reflexivity.
Defined.

(** * Properties of the handlers around the booking engine *)

(** ** Appointments: what every sequence of requests keeps *)

Lemma map_filter_update_where {A B : Type} (p cond : A -> bool) (f : A -> A)
    (g : A -> B) (t : list A) :
  (forall r, p (f r) = p r) -> (forall r, g (f r) = g r) ->
  map g (filter p (update_where cond f t)) = map g (filter p t).
Proof.
  intros Hp Hg. rewrite filter_update_where by exact Hp.
  rewrite map_map. apply map_ext. intros r. destruct (cond r); [apply Hg | reflexivity].
Qed.

Lemma count_rows_update_where {A : Type} (p cond : A -> bool) (f : A -> A) (t : list A) :
  (forall r, p (f r) = p r) ->
  count_rows p (update_where cond f t) = count_rows p t.
Proof.
  intros Hp. unfold count_rows. rewrite filter_update_where by exact Hp.
  now rewrite length_map.
Qed.

Lemma rowwise_appointments_refl (s : store) : rowwise_appointments s s.
Proof.
  exists (fun a => a). split; [now rewrite map_id|].
  intros a. split; [repeat split | now left].
Qed.

Lemma rowwise_update (s : store) (cond : appointment -> bool) (old new : status) :
  (forall a, cond a = true -> ap_status a = old) ->
  appointment_transition old new ->
  exists f : appointment -> appointment,
    update_where cond (set_ap_status new) (appointments s) = map f (appointments s)
    /\ forall a, same_visit a (f a) /\ appointment_transition (ap_status a) (ap_status (f a)).
Proof.
  intros Hcond Htr.
  exists (fun a => if cond a then set_ap_status new a else a). split; [reflexivity|].
  intros a. destruct (cond a) eqn:Hc.
  - split; [repeat split|]. cbn [set_ap_status ap_status]. now rewrite (Hcond a Hc).
  - split; [repeat split | now left].
Qed.

Ltac status_of_cond :=
  let a := fresh "a" in
  let H := fresh "H" in
  intros a H; apply andb_prop in H as [_ H];
  destruct (ap_status a); try discriminate; reflexivity.

Lemma status_eqb_eq (a b : status) : status_eqb a b = true <-> a = b.
Proof. destruct a, b; cbn; split; intros H; try reflexivity; discriminate. Qed.

Lemma completed_rows_refl (s : store) : completed_rows s s.
Proof.
  split; [reflexivity|]. exists (fun a => a). rewrite map_id. split; [reflexivity|].
  intros a. split; [unfold same_visit; tauto | now left].
Qed.

Lemma completed_rows_trans (s1 s2 s3 : store) :
  completed_rows s1 s2 -> completed_rows s2 s3 -> completed_rows s1 s3.
Proof.
  intros (Hd & f & Hf & Hrow) (Hd' & g & Hg & Hrow').
  split; [congruence|]. exists (fun a => g (f a)).
  split; [now rewrite Hg, Hf, map_map|].
  intros a. destruct (Hrow a) as [Hv Hs], (Hrow' (f a)) as [Hv' Hs'].
  split.
  - unfold same_visit in *.
    destruct Hv as (H1 & H2 & H3 & H4 & H5 & H6 & H7 & H8).
    destruct Hv' as (K1 & K2 & K3 & K4 & K5 & K6 & K7 & K8).
    repeat split; congruence.
  - destruct Hs as [Hs | [Hb Hdone]], Hs' as [Hs' | [Hb' Hdone']].
    + left. congruence.
    + right. split; congruence.
    + right. split; congruence.
    + congruence.
Qed.

Lemma completed_rows_update (s : store) (cond : appointment -> bool) :
  (forall a, cond a = true -> ap_status a = booked) ->
  completed_rows s (update_appointments cond (set_ap_status done) s).
Proof.
  intros Hcond. split; [reflexivity|].
  exists (fun a => if cond a then set_ap_status done a else a). split; [reflexivity|].
  intros a. destruct (cond a) eqn:Hc.
  - split; [unfold same_visit; cbn; tauto|]. right. split; [now apply Hcond | reflexivity].
  - split; [unfold same_visit; tauto | now left].
Qed.

Lemma auto_complete_today_completes (later_than : string -> bool) (d today wk hid : Z)
    (s : store) :
  completed_rows s (auto_complete_today later_than d today wk s hid).
Proof.
  unfold auto_complete_today.
  destruct (negb (Py.truthy_int hid)); [apply completed_rows_refl|]. cbv zeta.
  destruct (negb (Py.truthy_str _)); [apply completed_rows_refl|].
  apply completed_rows_update. intros a Ha.
  apply andb_prop in Ha as [Ha _]. apply andb_prop in Ha as [Ha _].
  apply andb_prop in Ha as [_ Ha]. now apply status_eqb_eq.
Qed.

Lemma fold_auto_complete_completes (later_than : string -> bool) (d today wk : Z)
    (hospitals : list Z) (s : store) :
  completed_rows s (fold_left (auto_complete_today later_than d today wk) hospitals s).
Proof.
  revert s. induction hospitals as [|hid rest IH]; intros s; cbn [fold_left].
  - apply completed_rows_refl.
  - eapply completed_rows_trans; [apply auto_complete_today_completes | apply IH].
Qed.

(** The sweep of the doctor's list only completes booked appointments. *)
Lemma list_doctor_appointments_completes (e : env) (d : Z) (later_than : string -> bool)
    (s : store) :
  completed_rows s (snd (list_doctor_appointments e d later_than s)).
Proof.
  unfold list_doctor_appointments.
  destruct (_ && _); [apply completed_rows_refl|]. cbv zeta. cbn [snd].
  destruct (write_ok e); [|apply completed_rows_refl].
  eapply completed_rows_trans; [|apply fold_auto_complete_completes].
  apply completed_rows_update. intros a Ha.
  apply andb_prop in Ha as [Ha _]. apply andb_prop in Ha as [_ Ha].
  now apply status_eqb_eq.
Qed.

Lemma lifecycle_rowwise (e : env) (a : appointment_action) (s : store) :
  (forall u rq, a <> BookAppointment u rq) ->
  rowwise_appointments s (snd (run_appointment_action e a s)).
Proof.
  intros Hnotbook.
  destruct a as [u rq | d id | u id | u id | d id | d id | d later_than];
    cbn [run_appointment_action answered snd].
  - now elim (Hnotbook u rq).
  - unfold confirm_appointment.
    destruct (select_one _ _) as [ap|]; [|apply rowwise_appointments_refl].
    destruct (negb _); [apply rowwise_appointments_refl|].
    destruct (negb _); [apply rowwise_appointments_refl|].
    destruct (write_ok e); [|apply rowwise_appointments_refl].
    cbn [snd _notify emit with_session update_appointments with_appointments appointments].
    apply (rowwise_update s _ booked done); [status_of_cond | right; left; now split].
  - unfold hide_appointment.
    destruct (select_one _ _) as [ap|]; [|apply rowwise_appointments_refl].
    destruct (negb _); [apply rowwise_appointments_refl|].
    destruct (write_ok e); [|apply rowwise_appointments_refl].
    cbn [snd update_appointments with_appointments appointments].
    unfold update_where. eexists. split; [reflexivity|].
    intros a. cbv beta.
    destruct ((ap_id a =? id) && (ap_patient_user_id a =? u));
      (split; [repeat split | now left]).
  - unfold request_cancel_appointment.
    destruct (select_one _ _) as [ap|]; [|apply rowwise_appointments_refl].
    destruct (negb _); [apply rowwise_appointments_refl|].
    destruct (negb _); [apply rowwise_appointments_refl|].
    destruct (_ <? _); [apply rowwise_appointments_refl|].
    destruct (write_ok e); [|apply rowwise_appointments_refl].
    cbn [snd _notify emit with_session update_appointments with_appointments appointments].
    apply (rowwise_update s _ booked cancel_requested);
      [status_of_cond | right; right; left; now split].
  - unfold approve_cancel_appointment.
    destruct (select_one _ _) as [ap|]; [|apply rowwise_appointments_refl].
    destruct (negb _); [apply rowwise_appointments_refl|].
    destruct (negb _); [apply rowwise_appointments_refl|].
    destruct (write_ok e); [|apply rowwise_appointments_refl].
    cbn [snd _notify emit with_session update_appointments with_appointments appointments].
    apply (rowwise_update s _ cancel_requested cancelled);
      [status_of_cond | right; right; right; left; now split].
  - unfold decline_cancel_appointment.
    destruct (select_one _ _) as [ap|]; [|apply rowwise_appointments_refl].
    destruct (negb _); [apply rowwise_appointments_refl|].
    destruct (negb _); [apply rowwise_appointments_refl|].
    destruct (write_ok e); [|apply rowwise_appointments_refl].
    cbn [snd _notify emit with_session update_appointments with_appointments appointments].
    apply (rowwise_update s _ cancel_requested booked);
      [status_of_cond | right; right; right; right; now split].
  - destruct (list_doctor_appointments_completes e d later_than s) as (_ & f & Hf & Hrow).
    exists f. split; [exact Hf|]. intros a. destruct (Hrow a) as [Hv Hs].
    split; [exact Hv|]. destruct Hs as [Hs | Hs]; [left; congruence | right; left; exact Hs].
Qed.

(** What [book_appointment] does to the table: nothing, or one more row,
    for the requested doctor, hospital and start, numbered after the rows of
    that day and inserted under the limit. *)
Lemma book_appointment_appends (e : env) (user_id : Z) (rq : book_appointment_request)
    (s : store) :
  appointments (snd (book_appointment e user_id rq s)) = appointments s
  \/ exists starts_at row,
       ra_starts_at rq = Some starts_at
       /\ appointments (snd (book_appointment e user_id rq s)) = appointments s ++ [row]
       /\ ap_doctor_user_id row = ra_doctor_user_id rq
       /\ ap_hospital_user_id row = ra_hospital_user_id rq
       /\ ap_starts_at row = starts_at /\ ap_status row = booked
       /\ ap_patient_user_id row = user_id
       /\ ap_serial row
          = count_rows (same_doctor_day (ra_doctor_user_id rq) (ra_hospital_user_id rq)
                          (DATE starts_at)) (appointments s) + 1
       /\ existsb (same_patient_doctor_day user_id (ra_doctor_user_id rq)
                     (ra_hospital_user_id rq) (DATE starts_at)) (appointments s) = false
       /\ (sum_max_per_day (day_schedules (ra_doctor_user_id rq) (ra_hospital_user_id rq)
                               starts_at s) = 0
           \/ count_rows (same_doctor_day (ra_doctor_user_id rq) (ra_hospital_user_id rq)
                            (DATE starts_at)) (appointments s)
              < sum_max_per_day (day_schedules (ra_doctor_user_id rq)
                                   (ra_hospital_user_id rq) starts_at s)).
Proof.
  unfold book_appointment.
  destruct (ra_starts_at rq) as [starts_at|]; [|now left].
  destruct (ra_ends_at rq) as [ends_at|]; [|now left].
  destruct (negb _); [now left|].
  destruct (negb _); [now left|].
  destruct (day_schedules _ _ _ _) as [|blk blks] eqn:Hsch; [now left|].
  destruct (_hhmm starts_at); [|now left].
  destruct (_hhmm ends_at); [|now left].
  destruct (String.leb _ _); [now left|].
  destruct (negb _); [now left|].
  cbv zeta.
  destruct (existsb (same_patient_doctor_day _ _ _ _) (appointments s)) eqn:Hdup;
    [now left|].
  unfold GET_LOCK. cbv zeta.
  destruct (engine_mysql e), (lock_granted e);
    cbn [with_session appointments ap_auto_increment andb];
    (destruct (Py.truthy_int (sum_max_per_day _) && _) eqn:Hcap; [now left|]);
    (destruct (write_ok e); [|now left]);
    right; eexists starts_at, _; (split; [reflexivity|]); (split; [reflexivity|]);
    cbn [ap_doctor_user_id ap_hospital_user_id ap_starts_at ap_status
           ap_patient_user_id ap_serial];
    repeat (split; [reflexivity|]);
    (split; [exact Hdup|]);
    rewrite Hsch;
    (apply andb_false_iff in Hcap as [Hz|Hlt];
     [ left; unfold Py.truthy_int in Hz; apply negb_false_iff in Hz;
       now apply Z.eqb_eq in Hz
     | right; now apply Z.leb_gt in Hlt ]).
Qed.

















Lemma same_visit_refl (a : appointment) : same_visit a a.
Proof. unfold same_visit. tauto. Qed.

Lemma same_visit_trans (a b c : appointment) :
  same_visit a b -> same_visit b c -> same_visit a c.
Proof.
  unfold same_visit.
  intros (H1 & H2 & H3 & H4 & H5 & H6 & H7 & H8) (K1 & K2 & K3 & K4 & K5 & K6 & K7 & K8).
  repeat split; congruence.
Qed.

Lemma appointment_transition_final (old new : status) :
  appointment_transition old new ->
  old <> booked -> old <> cancel_requested -> new = old.
Proof.
  intros [H | [[H _] | [[H _] | [[H _] | [H _]]]]] Hb Hc; congruence.
Qed.

Lemma grown_appointments_step (e : env) (a : appointment_action) (s : store) :
  grown_appointments s (snd (run_appointment_action e a s)).
Proof.
  destruct a as [u rq | d id | u id | u id | d id | d id | d later_than].
  - cbn [run_appointment_action answered snd].
    destruct (book_appointment_appends e u rq s) as [Hsame | (t & row & _ & Happ & _)].
    + exists (fun r => r), []. rewrite Hsame, map_id, app_nil_r.
      split; [reflexivity|]. intros r. split; [apply same_visit_refl | reflexivity].
    + exists (fun r => r), [row]. rewrite Happ, map_id.
      split; [reflexivity|]. intros r. split; [apply same_visit_refl | reflexivity].
  - destruct (lifecycle_rowwise e (ConfirmAppointment d id) s) as (f & Hmap & Hf);
      [intros ? ?; discriminate|].
    exists f, []. rewrite app_nil_r. split; [exact Hmap|].
    intros r. split; [apply Hf | apply appointment_transition_final, Hf].
  - destruct (lifecycle_rowwise e (HideAppointment u id) s) as (f & Hmap & Hf);
      [intros ? ?; discriminate|].
    exists f, []. rewrite app_nil_r. split; [exact Hmap|].
    intros r. split; [apply Hf | apply appointment_transition_final, Hf].
  - destruct (lifecycle_rowwise e (RequestCancelAppointment u id) s) as (f & Hmap & Hf);
      [intros ? ?; discriminate|].
    exists f, []. rewrite app_nil_r. split; [exact Hmap|].
    intros r. split; [apply Hf | apply appointment_transition_final, Hf].
  - destruct (lifecycle_rowwise e (ApproveCancelAppointment d id) s) as (f & Hmap & Hf);
      [intros ? ?; discriminate|].
    exists f, []. rewrite app_nil_r. split; [exact Hmap|].
    intros r. split; [apply Hf | apply appointment_transition_final, Hf].
  - destruct (lifecycle_rowwise e (DeclineCancelAppointment d id) s) as (f & Hmap & Hf);
      [intros ? ?; discriminate|].
    exists f, []. rewrite app_nil_r. split; [exact Hmap|].
    intros r. split; [apply Hf | apply appointment_transition_final, Hf].
  - destruct (lifecycle_rowwise e (ListDoctorAppointments d later_than) s)
      as (f & Hmap & Hf); [intros ? ?; discriminate|].
    exists f, []. rewrite app_nil_r. split; [exact Hmap|].
    intros r. split; [apply Hf | apply appointment_transition_final, Hf].
Qed.

Lemma grown_appointments_trans (s1 s2 s3 : store) :
  grown_appointments s1 s2 -> grown_appointments s2 s3 -> grown_appointments s1 s3.
Proof.
  intros (f & new & H12 & Hf) (g & new' & H23 & Hg).
  exists (fun r => g (f r)), (map g new ++ new').
  split.
  - rewrite H23, H12, map_app, map_map, app_assoc. reflexivity.
  - intros r. destruct (Hf r) as [Hv Hs], (Hg (f r)) as [Hv' Hs'].
    split; [eapply same_visit_trans; eassumption|].
    intros Hb Hc. rewrite <- (Hs Hb Hc). apply Hs'; rewrite (Hs Hb Hc); assumption.
Qed.

(** No appointment is ever deleted, moved or rewritten.  Whatever requests
    are served, the rows the table had are still there, in their places,
    with the id, patient, doctor, hospital, times, serial and approximate
    time they had; new rows come after them; and a row whose status was
    neither 'booked' nor 'cancel_requested' (a done or cancelled
    appointment) keeps that status for good. *)
Theorem appointments_are_kept :
  forall (requests : list (env * appointment_action)) (s0 : store),
    grown_appointments s0 (serve run_appointment_action requests s0).
Proof.
  induction requests as [|[e a] rest IH]; intros s0; cbn [serve].
  - exists (fun r => r), []. rewrite map_id, app_nil_r.
    split; [reflexivity|]. intros r. split; [apply same_visit_refl | reflexivity].
  - eapply grown_appointments_trans; [apply grown_appointments_step | apply IH].
Qed.


Lemma update_where_undo {A : Type} (c c' : A -> bool) (f g : A -> A) (t : list A) :
  (forall r, In r t -> c r = true -> c' (f r) = true /\ g (f r) = r) ->
  (forall r, In r t -> c r = false -> c' r = false) ->
  update_where c' g (update_where c f t) = t.
Proof.
  intros Hon Hoff. unfold update_where. rewrite map_map.
  rewrite <- (map_id t) at 2. apply map_ext_in. intros r Hin.
  destruct (c r) eqn:Hc.
  - destruct (Hon r Hin Hc) as [-> Hg]. exact Hg.
  - now rewrite (Hoff r Hin Hc).
Qed.





(** Only the two parties of an appointment can change it.  For an existing
    appointment, a caller who is not its doctor is answered 'forbidden' by
    confirm, approve-cancel and decline-cancel, a caller who is not its
    patient is answered 'forbidden' by hide and request-cancel, whatever the
    status of the appointment and the time; the store stays as it was. *)
Theorem appointment_handlers_check_the_caller :
  forall (e : env) (caller id : Z) (s : store) (ap : appointment),
    select_one (fun a => ap_id a =? id) (appointments s) = Some ap ->
    (ap_doctor_user_id ap <> caller ->
     confirm_appointment e caller id s = (err "forbidden" 403, s)
     /\ approve_cancel_appointment e caller id s = (err "forbidden" 403, s)
     /\ decline_cancel_appointment e caller id s = (err "forbidden" 403, s))
    /\ (ap_patient_user_id ap <> caller ->
        hide_appointment e caller id s = (err "forbidden" 403, s)
        /\ request_cancel_appointment e caller id s = (err "forbidden" 403, s)).
Proof.
  intros e caller id s ap Hsel. split; intros Hne.
  - apply Z.eqb_neq in Hne.
    unfold confirm_appointment, approve_cancel_appointment, decline_cancel_appointment.
    rewrite Hsel, Hne. repeat split; reflexivity.
  - apply Z.eqb_neq in Hne.
    unfold hide_appointment, request_cancel_appointment.
    rewrite Hsel, Hne. repeat split; reflexivity.
Qed.

Lemma appointment_handlers_check_the_caller_witness :
  confirm_appointment calm 201 1 after_one_visit = (err "forbidden" 403, after_one_visit)
  /\ hide_appointment calm 20 1 after_one_visit = (err "forbidden" 403, after_one_visit).
Proof.
  assert (Hsel : select_one (fun a => ap_id a =? 1) (appointments after_one_visit)
                 = Some {| ap_id := 1; ap_patient_user_id := 201; ap_doctor_user_id := 20;
                           ap_hospital_user_id := 10; ap_starts_at := at_hm monday 9 0;
                           ap_ends_at := at_hm monday 9 15; ap_status := booked;
                           ap_serial := 1; ap_approx_time := Some "09:00";
                           ap_hidden_by_patient := 0 |})
    by (vm_compute; reflexivity).
  split.
  - apply (proj1 (appointment_handlers_check_the_caller calm 201 1 after_one_visit _ Hsel)).
    vm_compute. discriminate.
  - apply (proj2 (appointment_handlers_check_the_caller calm 20 1 after_one_visit _ Hsel)).
    vm_compute. discriminate.
Defined.

(** ** The service bookings of a day *)

Lemma strftime_seconds_datetime_at (day m : Z) :
  strftime_seconds (datetime_at day m) = datetime_at day m.
Proof.
  unfold strftime_seconds, datetime_at, usec_per_day, usec_per_min.
  replace (day * (86400 * usec_per_sec) + m * (60 * usec_per_sec))
    with ((day * 86400 + m * 60) * usec_per_sec) by ring.
  rewrite Z.div_mul by (unfold usec_per_sec; lia). reflexivity.
Qed.

Lemma DATE_datetime_at (day m : Z) : 0 <= m < 24 * 60 -> DATE (datetime_at day m) = day.
Proof.
  intros Hm. unfold DATE, datetime_at, usec_per_day, usec_per_min, usec_per_sec.
  symmetry. apply Z.div_unique with (r := m * (60 * 1000000)); lia.
Qed.

Lemma strftime_HM_seconds (t : datetime) :
  strftime_HM (strftime_seconds t) = strftime_HM t.
Proof.
  unfold strftime_HM, minute_of_day, strftime_seconds, usec_per_min, usec_per_sec.
  replace (t / 1000000 * 1000000 / (60 * 1000000)) with (t / (60 * 1000000));
    [reflexivity|].
  rewrite (Z.mul_comm 60 1000000). rewrite <- !Z.div_div by lia.
  now rewrite Z.div_mul by lia.
Qed.

Lemma allocate_ext (e : env) (svc : hospital_service) (service_id : Z)
    (date_part : booking_date)
    (time_part : option string) (s s' : store) :
  service_bookings s' = service_bookings s ->
  allocate e svc service_id date_part time_part s'
  = allocate e svc service_id date_part time_part s.
Proof. intros H. unfold allocate, taken_on. now rewrite H. Qed.

(** Outside the ambulance branch, a slot that is allocated lies on the
    booking day, at a time of the day no booked row of the service has on
    the date of the search, when [datetime(...)] accepts the booking date;
    when it does not, the time of the request is saved. *)
Lemma allocate_slot (e : env) (svc : hospital_service) (service_id : Z)
    (date_part : booking_date) (time_part : option string) (s : store) (a : allocation) :
  is_ambulance svc = false ->
  allocate e svc service_id date_part time_part s = Done a ->
  match bd_day date_part with
  | Some day =>
      DATE (al_scheduled_to_save a) = day
      /\ Py.mem (strftime_HM (al_scheduled_to_save a))
           (taken_on service_id (bd_date date_part) s) = false
  | None => al_scheduled_to_save a = strftime_seconds (now e)
  end
  /\ al_approx_time a = Some (strftime_HM (al_scheduled_to_save a)).
Proof.
  intros Hamb. unfold allocate. cbv zeta. rewrite Hamb.
  destruct (clamp_step _ _ _) as [dm|r0|]; [|discriminate|discriminate].
  destruct dm as [d|]; [|discriminate].
  destruct (wstart_min_of svc) as [ws|]; [|discriminate].
  destruct (wend_min_of svc) as [we|]; [|discriminate].
  destruct (nearest_slot _ _ _ _ _) as [found|] eqn:Hsearch; [|discriminate].
  rewrite nearest_slot_find in Hsearch.
  destruct (find _ _) as [cm|] eqn:Hfind; [|discriminate]. injection Hsearch as <-.
  apply find_some in Hfind as [_ Hadm].
  unfold spec_admissible in Hadm.
  apply andb_prop in Hadm as [_ Hfree]. apply negb_true_iff in Hfree.
  rewrite hhmm_to_min_min_to_hhmm_mod.
  intros [= <-]. cbn [al_approx_time al_scheduled_to_save].
  destruct (bd_day date_part) as [day|].
  2:{ split; [reflexivity|]. now rewrite strftime_HM_seconds. }
  pose proof (Z.mod_pos_bound cm (24 * 60) ltac:(lia)) as Hm.
  rewrite strftime_seconds_datetime_at.
  assert (HHM : strftime_HM (datetime_at day (cm mod (24 * 60))) = min_to_hhmm cm).
  { unfold strftime_HM. rewrite minute_of_day_datetime_at.
    now rewrite Z.mod_mod, min_to_hhmm_mod by lia. }
  change (24 * 60) with 1440 in *.
  rewrite HHM. split; [|reflexivity]. split; [now apply DATE_datetime_at | exact Hfree].
Qed.

(** In the ambulance branch the time saved is a quarter of an hour from now. *)
Lemma allocate_ambulance (e : env) (svc : hospital_service) (service_id : Z)
    (date_part : booking_date)
    (time_part : option string) (s : store) (a : allocation) :
  is_ambulance svc = true ->
  allocate e svc service_id date_part time_part s = Done a ->
  al_scheduled_to_save a = strftime_seconds (now e + timedelta_minutes 15).
Proof.
  intros Hamb. unfold allocate. cbv zeta. rewrite Hamb.
  destruct (clamp_step _ _ _) as [dm|r0|]; [|discriminate|discriminate].
  now intros [= <-].
Qed.

Lemma error_is_not_booked (r : response) : is_error r = true -> service_booked r = false.
Proof. destruct r; cbn; intros H; try reflexivity; discriminate. Qed.

Lemma window_gate_is_error (amb : bool) (ws we tp : option string) (r : response) :
  window_gate amb ws we tp = Some r -> is_error r = true.
Proof.
  unfold window_gate. intros Hw.
  repeat match type of Hw with
         | context [match ?x with _ => _ end] => destruct x; try discriminate
         end.
  now injection Hw as <-.
Qed.

Ltac refused :=
  left; split; [first [left; reflexivity | right; reflexivity] | reflexivity].

(** The two ways [book_service] ends: with another answer than a booking
    and the table as it was; or with a booking and one more row, booked,
    for the requested service of the requested hospital and the caller,
    who had no booked row of the service on the day of the checks, with
    that day under its limit. *)
Lemma book_service_cases (e : env) (user_id : Z) (rq : book_service_request)
    (s : store) :
  ((is_error (fst (book_service e user_id rq s)) = true
    \/ fst (book_service e user_id rq s) = ServerError)
   /\ service_bookings (snd (book_service e user_id rq s)) = service_bookings s)
  \/ exists svc row,
       service_bookings (snd (book_service e user_id rq s)) = service_bookings s ++ [row]
       /\ fst (book_service e user_id rq s)
          = JsonServiceBooked (sb_id row) (sb_serial row) (sb_approx_time row)
              (sb_scheduled_at row)
       /\ select_one (fun v => hs_id v =? rq_service_id rq) (hospital_services s) = Some svc
       /\ sb_service_id row = rq_service_id rq /\ sb_user_id row = user_id
       /\ sb_status row = booked
       /\ count_rows (user_booked_on user_id (rq_service_id rq) (service_day e svc rq))
            (service_bookings s) = 0
       /\ (forall n, hs_max_per_day svc = Some n -> 0 < n ->
             count_rows (booked_on (rq_service_id rq) (service_day e svc rq))
               (service_bookings s) < n)
       /\ sb_serial row
          = count_rows (booked_on (rq_service_id rq) (booking_day e svc rq))
              (service_bookings s) + 1
       /\ (is_ambulance svc = false ->
           match bd_day (booking_date_of e svc (rq_scheduled_at rq)) with
           | Some day =>
               DATE (sb_scheduled_at row) = day
               /\ Py.mem (strftime_HM (sb_scheduled_at row))
                    (taken_on (rq_service_id rq) (booking_day e svc rq) s) = false
           | None => sb_scheduled_at row = strftime_seconds (now e)
           end)
       /\ (is_ambulance svc = true ->
           sb_scheduled_at row = strftime_seconds (now e + timedelta_minutes 15)).
Proof.
  unfold book_service.
  destruct (crisis_gate (rq_crisis_id rq) s) as [r|] eqn:Hc.
  { left. split; [|reflexivity]. left. now apply crisis_gate_is_error in Hc. }
  destruct (negb _); [refused|].
  destruct (select_one _ (hospital_services s)) as [svc|] eqn:Hsvc; [|refused].
  destruct (negb (hs_hospital_user_id svc =? _)); [refused|].
  destruct (negb (hs_available svc =? 1)); [refused|].
  destruct (beds_gate _ _ _ _) as [r|] eqn:Hb.
  { left. split; [|reflexivity]. left. now apply beds_gate_is_error in Hb. }
  cbv zeta. fold (service_day e svc rq).
  destruct (0 <? count_rows (user_booked_on _ _ _) _) eqn:Huser; [refused|].
  destruct ((0 <? _) && _) eqn:Hcap; [refused|].
  destruct (window_gate _ _ _ _) as [r|] eqn:Hw.
  { left. split; [|reflexivity]. left. now apply window_gate_is_error in Hw. }
  unfold GET_LOCK.
  destruct (allocate e svc _ _ _ _) as [a|r|] eqn:Hal; [| |refused].
  2:{ left. apply allocate_return in Hal as ->. split; [left|]; reflexivity. }
  destruct (write_ok e); [|refused].
  right. exists svc. eexists.
  cbn [fst snd RELEASE_LOCK _notify emit with_session with_service_bookings
         service_bookings].
  split; [reflexivity|].
  split; [reflexivity|].
  split; [reflexivity|].
  cbn [sb_service_id sb_user_id sb_status sb_serial sb_scheduled_at].
  do 3 (split; [reflexivity|]).
  rewrite (allocate_ext _ _ _ _ _ s) in Hal by reflexivity.
  split.
  { apply Z.ltb_ge in Huser.
    pose proof (count_rows_nonneg (user_booked_on user_id (rq_service_id rq)
                                     (service_day e svc rq)) (service_bookings s)).
    lia. }
  split.
  { intros n Hn Hpos. rewrite Hn in Hcap.
    apply andb_false_iff in Hcap as [H|H]; [apply Z.ltb_ge in H; lia|].
    now apply Z.leb_gt in H. }
  split; [now apply allocate_serial in Hal|].
  split.
  - intros Hamb. now destruct (allocate_slot _ _ _ _ _ _ _ Hamb Hal) as [H _].
  - intros Hamb. now apply allocate_ambulance in Hal.
Qed.

Lemma book_service_appends (e : env) (user_id : Z) (rq : book_service_request)
    (s : store) :
  service_bookings (snd (book_service e user_id rq s)) = service_bookings s
  \/ exists svc row,
       select_one (fun v => hs_id v =? rq_service_id rq) (hospital_services s) = Some svc
       /\ service_bookings (snd (book_service e user_id rq s)) = service_bookings s ++ [row]
       /\ sb_service_id row = rq_service_id rq /\ sb_user_id row = user_id
       /\ sb_status row = booked
       /\ count_rows (user_booked_on user_id (rq_service_id rq) (service_day e svc rq))
            (service_bookings s) = 0
       /\ (forall n, hs_max_per_day svc = Some n -> 0 < n ->
             count_rows (booked_on (rq_service_id rq) (service_day e svc rq))
               (service_bookings s) < n)
       /\ sb_serial row
          = count_rows (booked_on (rq_service_id rq) (booking_day e svc rq))
              (service_bookings s) + 1
       /\ (is_ambulance svc = false ->
           match bd_day (booking_date_of e svc (rq_scheduled_at rq)) with
           | Some day =>
               DATE (sb_scheduled_at row) = day
               /\ Py.mem (strftime_HM (sb_scheduled_at row))
                    (taken_on (rq_service_id rq) (booking_day e svc rq) s) = false
           | None => sb_scheduled_at row = strftime_seconds (now e)
           end)
       /\ (is_ambulance svc = true ->
           sb_scheduled_at row = strftime_seconds (now e + timedelta_minutes 15)).
Proof.
  destruct (book_service_cases e user_id rq s)
    as [[_ H] | (svc & row & Happ & _ & Hsvc & H)].
  - now left.
  - right. now exists svc, row.
Qed.

Lemma rowwise_service_bookings_refl (s : store) : rowwise_service_bookings s s.
Proof.
  exists (fun b => b). rewrite map_id. split; [reflexivity|].
  intros b. split; [unfold same_booking; tauto | now left].
Qed.

Lemma rowwise_service_update (s : store) (cond : service_booking -> bool) (new : status) :
  (forall b, cond b = true -> sb_status b = booked) ->
  new = confirmed \/ new = declined \/ new = cancelled ->
  exists f : service_booking -> service_booking,
    update_where cond (set_sb_status new) (service_bookings s) = map f (service_bookings s)
    /\ forall b, same_booking b (f b) /\ service_transition (sb_status b) (sb_status (f b)).
Proof.
  intros Hcond Hnew.
  exists (fun b => if cond b then set_sb_status new b else b). split; [reflexivity|].
  intros b. destruct (cond b) eqn:Hc.
  - split; [unfold same_booking; cbn; tauto|]. right.
    split; [now apply Hcond | exact Hnew].
  - split; [unfold same_booking; tauto | now left].
Qed.

Ltac booked_of_cond :=
  let b := fresh "b" in
  let H := fresh "H" in
  intros b H; apply andb_prop in H as [_ H];
  destruct (sb_status b); try discriminate; reflexivity.

Lemma service_lifecycle_rowwise (e : env) (a : service_action) (s : store) :
  (forall u rq, a <> BookService u rq) ->
  rowwise_service_bookings s (snd (run_service_action e a s)).
Proof.
  intros Hnotbook.
  destruct a as [u rq | u id | u id | u id | u id]; cbn [run_service_action].
  - now elim (Hnotbook u rq).
  - unfold request_cancel_service_booking.
    destruct (select_one _ _) as [sb|]; [|apply rowwise_service_bookings_refl].
    destruct (negb _); [apply rowwise_service_bookings_refl|].
    destruct (negb _); [apply rowwise_service_bookings_refl|].
    destruct (_ <? _); [apply rowwise_service_bookings_refl|].
    destruct (write_ok e); [|apply rowwise_service_bookings_refl].
    cbn [snd _notify emit with_session update_service_bookings with_service_bookings
           service_bookings].
    apply (rowwise_service_update s _ cancelled); [booked_of_cond | tauto].
  - unfold confirm_service_booking.
    destruct (select_one _ _) as [sb|]; [|apply rowwise_service_bookings_refl].
    cbv zeta.
    destruct (negb _); [apply rowwise_service_bookings_refl|].
    destruct (negb _); [apply rowwise_service_bookings_refl|].
    destruct (confirm_crisis_part sb s) as [r|s'] eqn:Hpart;
      [apply rowwise_service_bookings_refl|].
    assert (Hsame : service_bookings s' = service_bookings s).
    { unfold confirm_crisis_part in Hpart.
      repeat match type of Hpart with
             | context [match ?x with _ => _ end] => destruct x; try discriminate
             end;
        injection Hpart as <-; reflexivity. }
    unfold rowwise_service_bookings.
    destruct (write_ok e).
    + cbn [snd _notify emit with_session update_service_bookings with_service_bookings
             service_bookings].
      rewrite Hsame.
      apply (rowwise_service_update s _ confirmed); [booked_of_cond | tauto].
    + cbn [snd]. exists (fun b => b). rewrite map_id, Hsame. split; [reflexivity|].
      intros b. split; [unfold same_booking; tauto | now left].
  - unfold decline_service_booking.
    destruct (select_one _ _) as [sb|]; [|apply rowwise_service_bookings_refl].
    cbv zeta.
    destruct (negb _); [apply rowwise_service_bookings_refl|].
    destruct (negb _); [apply rowwise_service_bookings_refl|].
    destruct (write_ok e); [|apply rowwise_service_bookings_refl].
    destruct (crisis_gate _ _);
      cbn [snd _notify emit with_session update_service_bookings with_service_bookings
             service_bookings];
      (apply (rowwise_service_update s _ declined); [booked_of_cond | tauto]).
  - unfold hide_service_booking.
    destruct (select_one _ _) as [sb|]; [|apply rowwise_service_bookings_refl].
    destruct (negb _); [apply rowwise_service_bookings_refl|].
    destruct (write_ok e); [|apply rowwise_service_bookings_refl].
    cbn [snd update_service_bookings with_service_bookings service_bookings].
    unfold update_where. eexists. split; [reflexivity|].
    intros b. cbv beta.
    destruct ((sb_id b =? id) && (sb_user_id b =? u));
      (split; [unfold same_booking; cbn; tauto | now left]).
Qed.

Lemma confirm_crisis_part_frame (sb : service_booking) (s s' : store) :
  confirm_crisis_part sb s = inr s' ->
  service_bookings s' = service_bookings s /\ hospital_services s' = hospital_services s.
Proof.
  unfold confirm_crisis_part. intros Hpart.
  repeat match type of Hpart with
         | context [match ?x with _ => _ end] => destruct x; try discriminate
         end;
    injection Hpart as <-; split; reflexivity.
Qed.

Lemma service_action_keeps_services (e : env) (a : service_action) (s : store) :
  hospital_services (snd (run_service_action e a s)) = hospital_services s.
Proof.
  destruct a as [u rq | u id | u id | u id | u id]; cbn [run_service_action].
  - unfold book_service.
    destruct (crisis_gate (rq_crisis_id rq) s) as [r|]; [reflexivity|].
    destruct (negb _); [reflexivity|].
    destruct (select_one _ (hospital_services s)) as [svc|]; [|reflexivity].
    destruct (negb (hs_hospital_user_id svc =? _)); [reflexivity|].
    destruct (negb (hs_available svc =? 1)); [reflexivity|].
    destruct (beds_gate _ _ _ _) as [r|]; [reflexivity|].
    cbv zeta.
    destruct (0 <? count_rows (user_booked_on _ _ _) _); [reflexivity|].
    destruct ((0 <? _) && _); [reflexivity|].
    destruct (window_gate _ _ _ _) as [r|]; [reflexivity|].
    unfold GET_LOCK.
    destruct (allocate e svc _ _ _ _) as [a|r|]; [|reflexivity|reflexivity].
    destruct (write_ok e); reflexivity.
  - unfold request_cancel_service_booking.
    repeat match goal with
           | |- context [match ?x with _ => _ end] => destruct x
           end; reflexivity.
  - unfold confirm_service_booking.
    destruct (select_one _ _) as [sb|]; [|reflexivity]. cbv zeta.
    destruct (negb _); [reflexivity|].
    destruct (negb _); [reflexivity|].
    destruct (confirm_crisis_part sb s) as [r|s'] eqn:Hpart; [reflexivity|].
    apply confirm_crisis_part_frame in Hpart as [_ Hsvc].
    destruct (write_ok e); cbn [snd]; exact Hsvc.
  - unfold decline_service_booking.
    repeat match goal with
           | |- context [match ?x with _ => _ end] => destruct x
           end; reflexivity.
  - unfold hide_service_booking.
    repeat match goal with
           | |- context [match ?x with _ => _ end] => destruct x
           end; reflexivity.
Qed.

Lemma served_services (requests : list (env * service_action)) (s0 : store) :
  hospital_services (serve run_service_action requests s0) = hospital_services s0.
Proof.
  revert s0. induction requests as [|[e a] rest IH]; intros s0; cbn [serve]; [reflexivity|].
  rewrite IH. apply service_action_keeps_services.
Qed.

Lemma booked_on_rowwise (sid : Z) (day : sql_date) (b b' : service_booking) :
  same_booking b b' -> service_transition (sb_status b) (sb_status b') ->
  booked_on sid day b' = true -> booked_on sid day b = true.
Proof.
  intros (_ & _ & _ & Hsid & Ht & _) Htr. unfold booked_on. rewrite Hsid, Ht.
  destruct Htr as [-> | [-> _]]; [tauto|].
  intros H. apply andb_prop in H as [H _]. rewrite H. reflexivity.
Qed.

Lemma filter_map_incl {A B : Type} (p q : A -> bool) (f : A -> A) (g : A -> B)
    (t : list A) :
  (forall r, p (f r) = true -> q r = true) -> (forall r, g (f r) = g r) ->
  incl (map g (filter p (map f t))) (map g (filter q t)).
Proof.
  intros Hp Hg. induction t as [|a t IH]; cbn [map filter]; [apply incl_refl|].
  destruct (p (f a)) eqn:Hpa.
  - rewrite (Hp a Hpa). cbn [map]. rewrite Hg.
    intros x [<- | Hx]; [now left | right; now apply IH].
  - destruct (q a); [apply incl_tl|]; exact IH.
Qed.

Lemma filter_map_NoDup {A B : Type} (p q : A -> bool) (f : A -> A) (g : A -> B)
    (t : list A) :
  (forall r, p (f r) = true -> q r = true) -> (forall r, g (f r) = g r) ->
  NoDup (map g (filter q t)) -> NoDup (map g (filter p (map f t))).
Proof.
  intros Hp Hg. induction t as [|a t IH]; cbn [map filter]; [intros _; constructor|].
  destruct (p (f a)) eqn:Hpa.
  - rewrite (Hp a Hpa). cbn [map]. rewrite Hg. intros Hnd.
    apply NoDup_cons_iff in Hnd as [Hnin Hnd].
    constructor; [|now apply IH].
    intros Hin. apply Hnin. revert Hin. now apply filter_map_incl.
  - destruct (q a); cbn [map]; intros Hnd; [|now apply IH].
    apply NoDup_cons_iff in Hnd as [_ Hnd]. now apply IH.
Qed.

Lemma filter_map_count_le {A : Type} (p q : A -> bool) (f : A -> A) (t : list A) :
  (forall r, p (f r) = true -> q r = true) ->
  count_rows p (map f t) <= count_rows q t.
Proof.
  intros Hp. unfold count_rows.
  induction t as [|a t IH]; cbn [map filter]; [lia|].
  destruct (p (f a)) eqn:Hpa.
  - rewrite (Hp a Hpa). cbn [List.length]. lia.
  - destruct (q a); cbn [List.length]; lia.
Qed.

Lemma mem_false_not_In (x : string) (l : list string) :
  Py.mem x l = false -> ~ In x l.
Proof.
  unfold Py.mem. intros H Hin.
  assert (existsb (String.eqb x) l = true)
    by (apply existsb_exists; exists x; split; [exact Hin | apply String.eqb_refl]).
  congruence.
Qed.

Lemma booked_on_group (sid : Z) (day : sql_date) (row : service_booking) :
  booked_on sid day row = true ->
  sid = sb_service_id row /\ day = Day (DATE (sb_scheduled_at row)).
Proof.
  unfold booked_on. intros H.
  apply andb_prop in H as [H _]. apply andb_prop in H as [Hs Hd].
  destruct day as [|d]; [discriminate|]. cbn [same_date] in Hd.
  apply Z.eqb_eq in Hs, Hd. now subst.
Qed.

(** What a well-dated [book_service] adds, when it adds: a row on the day
    of its checks, at a time of the day that was free. *)
Lemma book_service_well_dated (e : env) (user_id : Z) (rq : book_service_request)
    (s : store) :
  well_dated rq = true ->
  service_bookings (snd (book_service e user_id rq s)) = service_bookings s
  \/ exists svc row (day : Z),
       select_one (fun v => hs_id v =? rq_service_id rq) (hospital_services s) = Some svc
       /\ service_bookings (snd (book_service e user_id rq s)) = service_bookings s ++ [row]
       /\ sb_service_id row = rq_service_id rq /\ sb_user_id row = user_id
       /\ count_rows (user_booked_on user_id (rq_service_id rq) day) (service_bookings s) = 0
       /\ (forall n, hs_max_per_day svc = Some n -> 0 < n ->
             count_rows (booked_on (rq_service_id rq) day) (service_bookings s) < n)
       /\ (is_ambulance svc = false ->
           DATE (sb_scheduled_at row) = day
           /\ Py.mem (strftime_HM (sb_scheduled_at row))
                (taken_on (rq_service_id rq) day s) = false).
Proof.
  intros Hwell.
  destruct (book_service_appends e user_id rq s)
    as [Hsame | (svc & row & Hsvc & Happ & Hsid & Huid & _ & Hnone & Hroom & _ & Hslot & _)];
    [now left|].
  destruct (well_dated_days e svc rq Hwell) as (d & Hsd & Hbd & Hday).
  rewrite Hsd in Hnone, Hroom. rewrite Hbd, Hday in Hslot.
  right. exists svc, row, d. repeat (split; [assumption|]). exact Hslot.
Qed.

(** One request keeps the slots of every day of a service that is not an
    ambulance distinct ... *)
Lemma service_step_slots (e : env) (a : service_action) (s : store) :
  well_dated_action a ->
  (forall sid day, ambulance_service sid s = false -> distinct_slots sid day s) ->
  forall sid day,
    ambulance_service sid s = false ->
    distinct_slots sid day (snd (run_service_action e a s)).
Proof.
  intros Hwell Hinv sid day Hamb. unfold distinct_slots, taken_on.
  destruct a as [u rq | u id | u id | u id | u id];
    try (match goal with
         | |- context [run_service_action e ?a s] =>
             destruct (service_lifecycle_rowwise e a s) as (f & -> & Hf);
             [intros ? ?; discriminate|]
         end;
         apply filter_map_NoDup with (q := booked_on sid day);
         [ intros r; apply booked_on_rowwise; apply Hf
         | intros r; destruct (Hf r) as [(_ & _ & _ & _ & -> & _) _]; reflexivity
         | now apply Hinv ]).
  cbn [run_service_action].
  destruct (book_service_well_dated e u rq s Hwell)
    as [-> | (svc & row & d & Hsvc & -> & Hsid & _ & _ & _ & Hslot)];
    [now apply Hinv|].
  rewrite filter_snoc.
  destruct (booked_on sid day row) eqn:Hrow; [|rewrite app_nil_r; now apply Hinv].
  apply booked_on_group in Hrow as [-> ->]. rewrite Hsid in *.
  unfold ambulance_service in Hamb. rewrite Hsvc in Hamb.
  destruct (Hslot Hamb) as [Hday Hfree]. rewrite <- Hday in Hfree.
  rewrite map_app. cbn [map].
  apply NoDup_app.
  - apply (Hinv (rq_service_id rq)). unfold ambulance_service. now rewrite Hsvc.
  - constructor; [intros []|constructor].
  - intros x Hx [<- | []]. revert Hx. now apply mem_false_not_In.
Qed.

Lemma ambulance_service_kept (e : env) (a : service_action) (s : store) (sid : Z) :
  ambulance_service sid (snd (run_service_action e a s)) = ambulance_service sid s.
Proof. unfold ambulance_service. now rewrite service_action_keeps_services. Qed.

Lemma service_limit_kept (e : env) (a : service_action) (s : store) (sid : Z) :
  service_limit sid (snd (run_service_action e a s)) = service_limit sid s.
Proof. unfold service_limit. now rewrite service_action_keeps_services. Qed.

(** ... every day of a limited one within its limit ... *)
Lemma service_step_limit (e : env) (a : service_action) (s : store) :
  well_dated_action a ->
  (forall sid day n, ambulance_service sid s = false -> service_limit sid s = Some n ->
     count_rows (booked_on sid day) (service_bookings s) <= n) ->
  forall sid day n,
    ambulance_service sid s = false -> service_limit sid s = Some n ->
    count_rows (booked_on sid day) (service_bookings (snd (run_service_action e a s))) <= n.
Proof.
  intros Hwell Hinv sid day n Hamb Hlim.
  destruct a as [u rq | u id | u id | u id | u id];
    try (match goal with
         | |- context [run_service_action e ?a s] =>
             destruct (service_lifecycle_rowwise e a s) as (f & -> & Hf);
             [intros ? ?; discriminate|]
         end;
         etransitivity;
         [ apply filter_map_count_le with (q := booked_on sid day);
           intros r; apply booked_on_rowwise; apply Hf
         | now apply Hinv ]).
  cbn [run_service_action].
  destruct (book_service_well_dated e u rq s Hwell)
    as [-> | (svc & row & d & Hsvc & -> & Hsid & _ & _ & Hroom & Hslot)];
    [now apply Hinv|].
  rewrite count_rows_snoc.
  destruct (booked_on sid day row) eqn:Hrow; [|specialize (Hinv sid day n Hamb Hlim); lia].
  apply booked_on_group in Hrow as [-> ->]. rewrite Hsid in *.
  unfold ambulance_service in Hamb. unfold service_limit in Hlim.
  rewrite Hsvc in Hamb, Hlim.
  destruct (Hslot Hamb) as [Hday _]. rewrite Hday.
  destruct (hs_max_per_day svc) as [m|] eqn:Hm; [|discriminate].
  destruct (0 <? m) eqn:Hpos; [|discriminate]. injection Hlim as <-.
  apply Z.ltb_lt in Hpos. specialize (Hroom m eq_refl Hpos). lia.
Qed.

(** ... and every requester with at most one booked row a day. *)
Lemma service_step_one_per_day (e : env) (a : service_action) (s : store) :
  well_dated_action a ->
  (forall u sid day, ambulance_service sid s = false ->
     count_rows (user_booked_on u sid day) (service_bookings s) <= 1) ->
  forall u sid day,
    ambulance_service sid s = false ->
    count_rows (user_booked_on u sid day)
      (service_bookings (snd (run_service_action e a s))) <= 1.
Proof.
  intros Hwell Hinv u sid day Hamb.
  destruct a as [v rq | v id | v id | v id | v id];
    try (match goal with
         | |- context [run_service_action e ?a s] =>
             destruct (service_lifecycle_rowwise e a s) as (f & -> & Hf);
             [intros ? ?; discriminate|]
         end;
         etransitivity;
         [ apply filter_map_count_le with (q := user_booked_on u sid day);
           intros r; unfold user_booked_on;
           destruct (Hf r) as [Hsame Htr];
           pose proof (booked_on_rowwise sid day r (f r) Hsame Htr) as Hb;
           destruct Hsame as (_ & -> & _);
           intros H; apply andb_prop in H as [-> H]; now apply Hb
         | now apply Hinv ]).
  cbn [run_service_action].
  destruct (book_service_well_dated e v rq s Hwell)
    as [-> | (svc & row & d & Hsvc & -> & Hsid & Huid & Hnone & _ & Hslot)];
    [now apply Hinv|].
  rewrite count_rows_snoc.
  destruct (user_booked_on u sid day row) eqn:Hrow; [|specialize (Hinv u sid day Hamb); lia].
  unfold user_booked_on in Hrow. apply andb_prop in Hrow as [Hu Hrow].
  apply Z.eqb_eq in Hu. apply booked_on_group in Hrow as [-> ->].
  rewrite Hsid, Huid in *. subst u.
  unfold ambulance_service in Hamb. rewrite Hsvc in Hamb.
  destruct (Hslot Hamb) as [Hday _]. rewrite Hday, Hnone. lia.
Qed.

(** No slot is given twice to requests whose date reads well.  Served one
    after the other, whatever the requests (bookings, cancellations,
    confirmations, refusals, hides, by anybody, with the lock granted or not
    and writes failing or not), as long as every booking request comes
    without [scheduled_at] or with one from which the database and the
    handler read the same day, the booked rows of a service that is not an
    ambulance never show the same HH:MM twice on a day, provided they did
    not at the start (an empty table, say).  A request whose date nobody
    can read is booked whatever the table holds; see the next section. *)
Theorem service_slots_stay_distinct :
  forall (requests : list (env * service_action)) (s0 : store),
    well_dated_requests requests ->
    (forall sid day, ambulance_service sid s0 = false -> distinct_slots sid day s0) ->
    forall sid day,
      ambulance_service sid s0 = false ->
      distinct_slots sid day (serve run_service_action requests s0).
Proof.
  induction requests as [|[e a] rest IH]; intros s0 Hwell Hinv sid day Hamb; cbn [serve].
  - now apply Hinv.
  - apply Forall_cons_iff in Hwell as [Ha Hrest]. apply IH; [exact Hrest| |].
    + intros sid' day' Hamb'. rewrite ambulance_service_kept in Hamb'.
      now apply service_step_slots.
    + now rewrite ambulance_service_kept.
Qed.

(** The daily limit of a service holds for requests whose date reads well.
    Served one after the other, whatever the requests, as long as every
    booking request comes without [scheduled_at] or with one from which the
    database and the handler read the same day, a service that is not an
    ambulance and has a limit of n > 0 bookings a day never has more than n
    booked rows on a day, provided it had not at the start. *)
Theorem service_limit_is_kept :
  forall (requests : list (env * service_action)) (s0 : store),
    well_dated_requests requests ->
    (forall sid day n, ambulance_service sid s0 = false -> service_limit sid s0 = Some n ->
       count_rows (booked_on sid day) (service_bookings s0) <= n) ->
    forall sid day n,
      ambulance_service sid s0 = false -> service_limit sid s0 = Some n ->
      count_rows (booked_on sid day)
        (service_bookings (serve run_service_action requests s0)) <= n.
Proof.
  induction requests as [|[e a] rest IH]; intros s0 Hwell Hinv sid day n Hamb Hlim;
    cbn [serve].
  - now apply Hinv.
  - apply Forall_cons_iff in Hwell as [Ha Hrest]. apply IH; [exact Hrest| | |].
    + intros sid' day' n' Hamb' Hlim'.
      rewrite ambulance_service_kept in Hamb'. rewrite service_limit_kept in Hlim'.
      now apply service_step_limit.
    + now rewrite ambulance_service_kept.
    + now rewrite service_limit_kept.
Qed.

(** One booked row per requester, service and day, for requests whose date
    reads well.  Served one after the other, whatever the requests, as long
    as every booking request comes without [scheduled_at] or with one from
    which the database and the handler read the same day, nobody holds two
    booked rows of a service that is not an ambulance on one day, provided
    nobody did at the start. *)
Theorem one_booked_row_per_user_and_day :
  forall (requests : list (env * service_action)) (s0 : store),
    well_dated_requests requests ->
    (forall u sid day, ambulance_service sid s0 = false ->
       count_rows (user_booked_on u sid day) (service_bookings s0) <= 1) ->
    forall u sid day,
      ambulance_service sid s0 = false ->
      count_rows (user_booked_on u sid day)
        (service_bookings (serve run_service_action requests s0)) <= 1.
Proof.
  induction requests as [|[e a] rest IH]; intros s0 Hwell Hinv u sid day Hamb; cbn [serve].
  - now apply Hinv.
  - apply Forall_cons_iff in Hwell as [Ha Hrest]. apply IH; [exact Hrest| |].
    + intros u' sid' day' Hamb'. rewrite ambulance_service_kept in Hamb'.
      now apply service_step_one_per_day.
    + now rewrite ambulance_service_kept.
Qed.

Lemma service_slots_stay_distinct_witness :
  taken_on 1 monday (serve run_service_action monday_service_requests clinic)
  = ["09:30"; "09:00"]
  /\ distinct_slots 1 monday (serve run_service_action monday_service_requests clinic).
Proof.
  split; [vm_compute; reflexivity|].
  apply (service_slots_stay_distinct monday_service_requests clinic).
  - repeat constructor.
  - intros sid day _. constructor.
  - vm_compute. reflexivity.
Defined.

Lemma service_limit_is_kept_witness :
  service_limit 2 clinic = Some 1
  /\ count_rows (booked_on 2 monday)
       (service_bookings (serve run_service_action monday_service_requests clinic)) <= 1.
Proof.
  split; [vm_compute; reflexivity|].
  apply (service_limit_is_kept monday_service_requests clinic).
  - repeat constructor.
  - intros sid day n _ Hlim. unfold service_limit in Hlim.
    destruct (select_one _ _) as [v|]; [|discriminate].
    destruct (hs_max_per_day v) as [m|]; [|discriminate].
    destruct (0 <? m) eqn:Hm; [|discriminate]. injection Hlim as <-.
    apply Z.ltb_lt in Hm. unfold count_rows. cbn [clinic service_bookings filter List.length].
    lia.
  - vm_compute. reflexivity.
  - vm_compute. reflexivity.
Defined.

Lemma one_booked_row_per_user_and_day_witness :
  count_rows (user_booked_on 101 1 monday)
    (service_bookings (serve run_service_action monday_service_requests clinic)) <= 1.
Proof.
  apply (one_booked_row_per_user_and_day monday_service_requests clinic).
  - repeat constructor.
  - intros u sid day _. unfold count_rows. cbn [clinic service_bookings filter List.length].
    lia.
  - vm_compute. reflexivity.
Defined.

(** ** A date nobody can read *)

Lemma nearest_slot_free_day (d ws we step : Z) :
  ws <= d <= we -> nearest_slot d ws we step [] = Some (min_to_hhmm d).
Proof.
  intros Hd. rewrite nearest_slot_find. unfold probe_order. cbn [find].
  unfold spec_admissible. cbn [Py.mem existsb negb].
  replace (ws <=? d) with true by (symmetry; apply Z.leb_le; lia).
  replace (d <=? we) with true by (symmetry; apply Z.leb_le; lia).
  reflexivity.
Qed.

(** A [scheduled_at] that reads as no date and is shorter than ten
    characters ('tomorrow', say) gets past every check of the day.  For a
    service that is not an ambulance, with a window that reads as times of
    the day, a request that gets past the checks before the one-per-day
    rule is booked whatever the table holds: the one-per-day rule, the
    daily limit, the serial and the taken times are all read for a date
    that is NULL and find nothing, so the row gets serial 1 and the start of
    the window (or 09:00), and is saved under 1970-01-01. *)
Theorem unreadable_date_is_always_booked :
  forall (e : env) (user_id : Z) (rq : book_service_request) (s : store)
         (svc : hospital_service) (t : scheduled_at) (desired ws we : Z),
    select_one (fun v => hs_id v =? rq_service_id rq) (hospital_services s) = Some svc ->
    service_found rq s svc = true ->
    is_ambulance svc = false ->
    rq_scheduled_at rq = Some t ->
    sa_date t = NULL -> sa_date_part t = None -> sa_time_part t = None ->
    hhmm_to_min (desired_text svc None) = Some desired ->
    wstart_min_of svc = Some ws -> wend_min_of svc = Some we ->
    0 <= ws <= we -> we < 24 * 60 ->
    write_ok e = true ->
    fst (book_service e user_id rq s)
    = JsonServiceBooked (sb_auto_increment s) 1
        (Some (min_to_hhmm (clamp_desired desired ws we)))
        (datetime_at 0 (clamp_desired desired ws we)).
Proof.
  intros e user_id rq s svc t desired ws we Hsel Hfound Hamb Hrq Hdate Hpart Htime
    Hdes Hws Hwe Hwin Hday Hw.
  pose proof (clamp_desired_in_window desired ws we ltac:(lia)) as Hslot.
  unfold service_found in Hfound. unfold book_service.
  rewrite Hsel.
  destruct (crisis_gate (rq_crisis_id rq) s); [discriminate|].
  destruct (beds_gate (rq_crisis_id rq) svc (rq_hospital_user_id rq) s); [discriminate|].
  apply andb_prop in Hfound as [Hfound Ha]. apply andb_prop in Hfound as [Hid Hh].
  rewrite Hid, Hh, Ha. cbn [negb].
  unfold effective_date, booking_date_of, date_part_of, time_part_of.
  rewrite Hamb, Hrq, Hdate, Hpart, Htime.
  assert (Hnone : forall p : service_booking -> bool,
             (forall b, p b = false) -> forall l, count_rows p l = 0).
  { intros p Hp l. unfold count_rows.
    induction l as [|b l IH]; cbn [filter]; [reflexivity | now rewrite Hp]. }
  rewrite (Hnone (user_booked_on user_id (rq_service_id rq) NULL))
    by (intros b; unfold user_booked_on, booked_on; cbn [same_date];
        now rewrite andb_false_r, andb_false_r).
  rewrite (Hnone (booked_on (rq_service_id rq) NULL))
    by (intros b; unfold booked_on; cbn [same_date]; now rewrite andb_false_r).
  cbn [Z.ltb Z.compare]. rewrite Z.leb_antisym.
  replace ((0 <? match hs_max_per_day svc with Some n => n | None => 0 end)
           && negb (0 <? match hs_max_per_day svc with Some n => n | None => 0 end))
    with false by (destruct (0 <? _); reflexivity).
  cbv zeta.
  unfold window_gate. cbn [truthy_text].
  replace (match window_text (hs_window_start_time svc) with
           | Some _ => match window_text (hs_window_end_time svc) with
                       | Some _ => None | None => None end
           | None => None end) with (@None response)
    by (destruct (window_text (hs_window_start_time svc)),
                 (window_text (hs_window_end_time svc)); reflexivity).
  unfold GET_LOCK, allocate, taken_on. cbv zeta. cbn [bd_date bd_day with_session service_bookings].
  rewrite Hdes, Hws, Hwe, Hamb. cbn [clamp_step].
  replace (filter (booked_on (rq_service_id rq) NULL) (service_bookings s)) with (@nil service_booking).
  2:{ symmetry. induction (service_bookings s) as [|b l IH]; cbn [filter]; [reflexivity|].
      unfold booked_on at 1. cbn [same_date]. now rewrite andb_false_r. }
  cbn [map]. rewrite nearest_slot_free_day by exact Hslot.
  rewrite hhmm_to_min_min_to_hhmm by lia.
  rewrite Hw. cbn [fst al_serial al_approx_time al_scheduled_to_save RELEASE_LOCK
                     with_session sb_auto_increment].
  rewrite (Hnone (booked_on (rq_service_id rq) NULL))
    by (intros b; unfold booked_on; cbn [same_date]; now rewrite andb_false_r).
  f_equal.
  - unfold strftime_HM. rewrite minute_of_day_datetime_at.
    now rewrite Z.mod_small by lia.
  - replace (clamp_desired desired ws we)
      with (clamp_desired desired ws we mod (24 * 60)) at 1 by (apply Z.mod_small; lia).
    rewrite strftime_seconds_datetime_at. now rewrite Z.mod_small by lia.
Qed.

(** Patient 101 asks for the scan, one booking a day, for 'tomorrow', twice:
    both requests are booked, for 09:00 of 1970-01-01 with serial 1. *)
Lemma unreadable_date_is_always_booked_witness :
  service_limit 2 clinic = Some 1
  /\ fst (book_service calm 101 (tomorrow_request 2)
            (snd (book_service calm 101 (tomorrow_request 2) clinic)))
     = JsonServiceBooked 2 1 (Some "09:00") (datetime_at 0 540)
  /\ map (fun b => (sb_user_id b, DATE (sb_scheduled_at b), sb_approx_time b, sb_serial b,
                    sb_status b))
         (service_bookings
            (snd (book_service calm 101 (tomorrow_request 2)
                    (snd (book_service calm 101 (tomorrow_request 2) clinic)))))
     = [(101, 0, Some "09:00", 1, booked); (101, 0, Some "09:00", 1, booked)].
Proof.
  split; [vm_compute; reflexivity|]. split; [|vm_compute; reflexivity].
  apply (unreadable_date_is_always_booked calm 101 (tomorrow_request 2)
           (snd (book_service calm 101 (tomorrow_request 2) clinic)) scan tomorrow
           540 540 720); try reflexivity; lia.
Defined.

(** ** The reach of the slot search *)

(** The search reaches the whole grid.  With the desired minute inside the
    window and a step other than 0 (the step of a service never is 0), the
    search fails only when every slot desired + k*step of the window, for
    any integer k, is taken; and a slot it returns is a nearest free slot of
    that grid: no free slot of the window lies fewer steps away from the
    desired minute. *)
Theorem search_covers_the_grid :
  forall (d ws we step : Z) (taken : list string),
    step <> 0 -> ws <= d <= we ->
    (nearest_slot d ws we step taken = None <->
     forall k : Z, ws <= d + k * step <= we ->
                   Py.mem (min_to_hhmm (d + k * step)) taken = true)
    /\ (forall found, nearest_slot d ws we step taken = Some found ->
        exists k : Z,
          found = min_to_hhmm (d + k * step)
          /\ ws <= d + k * step <= we
          /\ Py.mem found taken = false
          /\ forall j : Z, ws <= d + j * step <= we ->
                           Py.mem (min_to_hhmm (d + j * step)) taken = false ->
                           Z.abs k <= Z.abs j).
Proof.
  intros d ws we step taken Hstep Hd. rewrite nearest_slot_find. split; [split|].
  - intros Hnone k Hk.
    destruct (find _ _) as [cm|] eqn:Hfind; [discriminate|].
    pose proof (find_none _ _ Hfind _ (grid_is_probed d ws we step k Hstep Hd Hk)) as Hadm.
    unfold spec_admissible in Hadm.
    replace (ws <=? d + k * step) with true in Hadm by (symmetry; apply Z.leb_le; lia).
    replace (d + k * step <=? we) with true in Hadm by (symmetry; apply Z.leb_le; lia).
    cbn [andb] in Hadm. now apply negb_false_iff in Hadm.
  - intros Hall.
    destruct (find _ _) as [cm|] eqn:Hfind; [|reflexivity].
    apply find_some in Hfind as [Hin Hadm].
    apply probe_order_grid in Hin as [k ->].
    unfold spec_admissible in Hadm.
    apply andb_prop in Hadm as [Hwin Hfree]. apply andb_prop in Hwin as [Hlo Hhi].
    apply Z.leb_le in Hlo, Hhi. rewrite (Hall k) in Hfree by lia. discriminate.
  - intros found Hfound.
    destruct (find _ _) as [cm|] eqn:Hfind; [|discriminate]. injection Hfound as <-.
    pose proof (find_some _ _ Hfind) as [_ Hadm].
    apply find_candidates_first in Hfind as (k & _ & Hcm & Hbefore).
    assert (Hcm' : exists k' : Z, cm = d + k' * step /\ Z.abs k' = Z.of_nat k).
    { destruct Hcm as [-> | [-> _]];
        [exists (Z.of_nat k) | exists (- Z.of_nat k)]; split; lia. }
    destruct Hcm' as (k' & -> & Habs). exists k'.
    unfold spec_admissible in Hadm.
    apply andb_prop in Hadm as [Hwin Hfree]. apply andb_prop in Hwin as [Hlo Hhi].
    apply Z.leb_le in Hlo, Hhi. apply negb_true_iff in Hfree.
    split; [reflexivity|]. split; [lia|]. split; [exact Hfree|].
    intros j Hj Hjfree.
    destruct (Z_lt_le_dec (Z.abs j) (Z.abs k')) as [Hlt | Hge]; [|exact Hge].
    exfalso.
    destruct (Hbefore (Z.to_nat (Z.abs j)) ltac:(lia)) as [Hp Hm].
    assert (Hjadm : spec_admissible ws we taken (d + j * step) = true).
    { unfold spec_admissible.
      replace (ws <=? d + j * step) with true by (symmetry; apply Z.leb_le; lia).
      replace (d + j * step <=? we) with true by (symmetry; apply Z.leb_le; lia).
      now rewrite Hjfree. }
    destruct (Z_lt_le_dec j 0) as [Hneg | Hpos].
    + replace (d - Z.of_nat (Z.to_nat (Z.abs j)) * step) with (d + j * step) in Hm by lia.
      congruence.
    + replace (d + Z.of_nat (Z.to_nat (Z.abs j)) * step) with (d + j * step) in Hp by lia.
      congruence.
Qed.

Lemma search_covers_the_grid_witness :
  nearest_slot 540 540 720 30 ["09:00"; "09:30"; "10:00"] = Some "10:30"
  /\ exists k : Z,
       "10:30" = min_to_hhmm (540 + k * 30)
       /\ forall j : Z, 540 <= 540 + j * 30 <= 720 ->
            Py.mem (min_to_hhmm (540 + j * 30)) ["09:00"; "09:30"; "10:00"] = false ->
            Z.abs k <= Z.abs j.
Proof.
  split; [vm_compute; reflexivity|].
  destruct (proj2 (search_covers_the_grid 540 540 720 30 ["09:00"; "09:30"; "10:00"]
                     ltac:(lia) ltac:(lia)) "10:30")
    as (k & Hk & _ & _ & Hnear).
  - vm_compute. reflexivity.
  - exists k. split; [exact Hk | exact Hnear].
Defined.

(** ** Edges of the service handlers *)

Lemma DATE_strftime_seconds (t : datetime) : DATE (strftime_seconds t) = DATE t.
Proof.
  unfold DATE, strftime_seconds, usec_per_day.
  rewrite (Z.mul_comm 86400 usec_per_sec).
  rewrite <- !Z.div_div by (unfold usec_per_sec; lia).
  rewrite Z.div_mul by (unfold usec_per_sec; lia). reflexivity.
Qed.

(** An ambulance called in the last quarter of an hour of a day is not seen
    by the checks of that day.  The one-per-day rule and the daily limit
    count the booked rows of today, and the row of the call is saved at now
    plus 15 minutes, which is tomorrow: after a successful call the caller
    still has no booked row of the service today, and today has as many
    booked rows as before the call. *)
Theorem late_ambulance_call_escapes_the_day_checks :
  forall (e : env) (user_id : Z) (rq : book_service_request) (s : store),
    ambulance_service (rq_service_id rq) s = true ->
    DATE (now e + timedelta_minutes 15) <> DATE (now e) ->
    service_booked (fst (book_service e user_id rq s)) = true ->
    count_rows (user_booked_on user_id (rq_service_id rq) (DATE (now e)))
      (service_bookings (snd (book_service e user_id rq s))) = 0
    /\ count_rows (booked_on (rq_service_id rq) (DATE (now e)))
         (service_bookings (snd (book_service e user_id rq s)))
       = count_rows (booked_on (rq_service_id rq) (DATE (now e))) (service_bookings s).
Proof.
  intros e user_id rq s Hamb Hlate Hbooked.
  destruct (book_service_cases e user_id rq s)
    as [[[Hno|Hno] _] | (svc & row & -> & _ & Hsvc & _ & _ & _ & Hnone & _ & _ & _ & Hrow)];
    [ apply error_is_not_booked in Hno; congruence
    | rewrite Hno in Hbooked; discriminate |].
  unfold ambulance_service in Hamb. rewrite Hsvc in Hamb.
  unfold service_day, effective_date in Hnone. rewrite Hamb in Hnone.
  specialize (Hrow Hamb).
  assert (Hoff : booked_on (rq_service_id rq) (DATE (now e)) row = false).
  { unfold booked_on. cbn [same_date]. rewrite Hrow, DATE_strftime_seconds.
    apply Z.eqb_neq in Hlate. rewrite Hlate. now rewrite andb_false_r. }
  rewrite !count_rows_snoc. unfold user_booked_on at 2. rewrite Hoff, andb_false_r.
  split; lia.
Qed.

Lemma late_ambulance_call_escapes_the_day_checks_witness :
  service_limit 4 clinic = Some 1
  /\ count_rows (user_booked_on 101 4 (monday - 1))
       (service_bookings (snd (book_service late 101 (ambulance_call 4) clinic))) = 0
  /\ service_booked
       (fst (book_service later 101 (ambulance_call 4)
               (snd (book_service late 101 (ambulance_call 4) clinic)))) = true.
Proof.
  split; [vm_compute; reflexivity|].
  split; [|vm_compute; reflexivity].
  apply (late_ambulance_call_escapes_the_day_checks late 101 (ambulance_call 4) clinic).
  - vm_compute. reflexivity.
  - vm_compute. discriminate.
  - vm_compute. reflexivity.
Defined.

Lemma crisis_gate_confirm (sb : service_booking) (s : store) (r : response) :
  crisis_gate (sb_crisis_id sb) s = Some r -> confirm_crisis_part sb s = inl r.
Proof.
  unfold crisis_gate, confirm_crisis_part.
  destruct (sb_crisis_id sb) as [c|]; [|discriminate].
  destruct (Py.truthy_int c); [|discriminate].
  now intros ->.
Qed.

(** A booking of a closed crisis can be declined but not confirmed, and the
    answer does not tell.  For a booked row whose crisis is closed or
    cancelled, the hospital's confirmation is answered 'crisis_closed' and
    changes nothing; its refusal is answered 'crisis_closed' too, but the
    row is 'declined' by then, and neither party is notified. *)
Theorem closed_crisis_booking_is_declined_silently :
  forall (e : env) (u : user) (id : Z) (s : store) (sb : service_booking) (r : response),
    select_one (fun b => sb_id b =? id) (service_bookings s) = Some sb ->
    _require_admin u || (_require_hospital u && (sb_hospital_user_id sb =? u_id u)) = true ->
    sb_status sb = booked ->
    crisis_gate (sb_crisis_id sb) s = Some r ->
    write_ok e = true ->
    confirm_service_booking e u id s = (r, s)
    /\ fst (decline_service_booking e u id s) = r
    /\ select_one (fun b => sb_id b =? id)
         (service_bookings (snd (decline_service_booking e u id s)))
       = Some (set_sb_status declined sb)
    /\ log (snd (decline_service_booking e u id s)) = log s.
Proof.
  intros e u id s sb r Hsel Hown Hst Hgate Hw.
  destruct (select_one_holds _ _ _ Hsel) as [Hid _].
  split.
  { unfold confirm_service_booking. rewrite Hsel. cbv zeta. rewrite Hown, Hst.
    cbn [negb status_eqb]. now rewrite (crisis_gate_confirm sb s r Hgate). }
  unfold decline_service_booking. rewrite Hsel. cbv zeta. rewrite Hown, Hst, Hw.
  cbn [negb status_eqb].
  change (crisis_gate (sb_crisis_id sb)
            (update_service_bookings
               (fun b => (sb_id b =? id) && status_eqb (sb_status b) booked)
               (set_sb_status declined) s))
    with (crisis_gate (sb_crisis_id sb) s).
  rewrite Hgate. cbn [fst snd update_service_bookings with_service_bookings
                        service_bookings log].
  split; [reflexivity|]. split; [|reflexivity].
  erewrite select_one_update_where; [|intros x; reflexivity | exact Hsel].
  cbv beta. now rewrite Hid, Hst.
Qed.

Lemma closed_crisis_booking_is_declined_silently_witness :
  fst (decline_service_booking calm hospital_owner 1 after_the_flood)
  = JsonError "crisis_closed" [("status", "closed")] 400
  /\ select_one (fun b => sb_id b =? 1)
       (service_bookings (snd (decline_service_booking calm hospital_owner 1 after_the_flood)))
     = Some (set_sb_status declined flood_booking).
Proof.
  destruct (closed_crisis_booking_is_declined_silently calm hospital_owner 1 after_the_flood
              flood_booking (JsonError "crisis_closed" [("status", "closed")] 400))
    as (_ & Hr & Hrow & _); try reflexivity.
  split; [exact Hr | exact Hrow].
Defined.

(** ** The life of a service booking *)

Lemma same_booking_refl (b : service_booking) : same_booking b b.
Proof. unfold same_booking. tauto. Qed.

Lemma same_booking_trans (a b c : service_booking) :
  same_booking a b -> same_booking b c -> same_booking a c.
Proof.
  unfold same_booking.
  intros (H1 & H2 & H3 & H4 & H5 & H6 & H7 & H8 & H9 & H10 & H11)
         (K1 & K2 & K3 & K4 & K5 & K6 & K7 & K8 & K9 & K10 & K11).
  repeat split; congruence.
Qed.

Lemma service_transition_final (old new : status) :
  service_transition old new -> old <> booked -> new = old.
Proof. intros [H | [H _]] Hb; congruence. Qed.

Lemma grown_service_bookings_step (e : env) (a : service_action) (s : store) :
  grown_service_bookings s (snd (run_service_action e a s)).
Proof.
  destruct a as [u rq | u id | u id | u id | u id];
    try (match goal with
         | |- context [run_service_action e ?a s] =>
             destruct (service_lifecycle_rowwise e a s) as (f & Hmap & Hf);
             [intros ? ?; discriminate|]
         end;
         exists f, []; rewrite app_nil_r; split; [exact Hmap|];
         intros r; split; [apply Hf | apply service_transition_final, Hf]).
  cbn [run_service_action].
  destruct (book_service_appends e u rq s) as [Hsame | (svc & row & _ & Happ & _)].
  - exists (fun r => r), []. rewrite Hsame, map_id, app_nil_r.
    split; [reflexivity|]. intros r. split; [apply same_booking_refl | reflexivity].
  - exists (fun r => r), [row]. rewrite Happ, map_id.
    split; [reflexivity|]. intros r. split; [apply same_booking_refl | reflexivity].
Qed.

Lemma grown_service_bookings_trans (s1 s2 s3 : store) :
  grown_service_bookings s1 s2 -> grown_service_bookings s2 s3 ->
  grown_service_bookings s1 s3.
Proof.
  intros (f & new & H12 & Hf) (g & new' & H23 & Hg).
  exists (fun r => g (f r)), (map g new ++ new').
  split.
  - rewrite H23, H12, map_app, map_map, app_assoc. reflexivity.
  - intros r. destruct (Hf r) as [Hv Hs], (Hg (f r)) as [Hv' Hs'].
    split; [eapply same_booking_trans; eassumption|].
    intros Hb. rewrite <- (Hs Hb). apply Hs'. now rewrite (Hs Hb).
Qed.

(** No service booking is ever deleted, moved or rewritten.  Whatever
    requests are served, the rows the table had are still there, in their
    places, with the id, requester, hospital, service, time, serial,
    approximate time, notes, position and crisis they had; new rows come
    after them; and a row that has left the status 'booked' (confirmed,
    declined or cancelled) keeps its status for good: no handler reopens a
    booking, and none confirms a cancelled one. *)
Theorem service_bookings_are_kept :
  forall (requests : list (env * service_action)) (s0 : store),
    grown_service_bookings s0 (serve run_service_action requests s0).
Proof.
  induction requests as [|[e a] rest IH]; intros s0; cbn [serve].
  - exists (fun r => r), []. rewrite map_id, app_nil_r.
    split; [reflexivity|]. intros r. split; [apply same_booking_refl | reflexivity].
  - eapply grown_service_bookings_trans; [apply grown_service_bookings_step | apply IH].
Qed.

Lemma count_update_one {A : Type} (p cond q : A -> bool) (f : A -> A) (t : list A) (r : A) :
  select_one p t = Some r ->
  (forall x, cond x = true -> p x = true) ->
  cond r = true -> q r = true -> q (f r) = false ->
  count_rows q (update_where cond f t) = count_rows q t - 1.
Proof.
  intros Hsel Hcp Hcr Hqr Hqf. unfold select_one in Hsel.
  destruct (filter p t) as [|x [|y l]] eqn:Hfil; try discriminate.
  injection Hsel as ->.
  unfold count_rows, update_where.
  revert Hfil. induction t as [|a t IH]; cbn [filter map]; [discriminate|].
  destruct (p a) eqn:Hpa.
  - intros [= -> Hrest]. rewrite Hcr, Hqf, Hqr. cbn [List.length].
    replace (map (fun x => if cond x then f x else x) t) with t; [lia|].
    rewrite <- (map_id t) at 1. apply map_ext_in. intros x Hx.
    destruct (cond x) eqn:Hcx; [|reflexivity].
    assert (In x (filter p t)) by (apply filter_In; split; [exact Hx | now apply Hcp]).
    rewrite Hrest in H. destruct H.
  - intros Hrest. specialize (IH Hrest).
    replace (cond a) with false
      by (destruct (cond a) eqn:Hca; [apply Hcp in Hca; congruence | reflexivity]).
    destruct (q a); cbn [List.length]; lia.
Qed.

(** Leaving 'booked' frees a place.  When a cancel request, a confirmation
    or a refusal is answered ok, the booking was 'booked' and has the new
    status now, and the day of the booking has one booked row of that
    service fewer: the one-per-day rule, the daily limit, the serial and the
    slot search of [book_service] no longer see it, a confirmed booking no
    more than a cancelled one. *)
Theorem leaving_booked_frees_a_place :
  forall (e : env) (a : service_action) (s : store) (st : status),
    fst (run_service_action e a s) = JsonOk (Some st) ->
    exists id sb,
      select_one (fun b => sb_id b =? id) (service_bookings s) = Some sb
      /\ sb_status sb = booked /\ st <> booked
      /\ select_one (fun b => sb_id b =? id)
           (service_bookings (snd (run_service_action e a s)))
         = Some (set_sb_status st sb)
      /\ count_rows (booked_on (sb_service_id sb) (DATE (sb_scheduled_at sb)))
           (service_bookings (snd (run_service_action e a s)))
         = count_rows (booked_on (sb_service_id sb) (DATE (sb_scheduled_at sb)))
             (service_bookings s) - 1.
Proof.
  intros e a s st.
  destruct a as [u rq | u id | u id | u id | u id]; cbn [run_service_action].
  - destruct (book_service_cases e u rq s) as [[[Hno|Hno] _] | (svc & row & _ & Hyes & _)];
      intros H; [rewrite H in Hno | rewrite H in Hno | rewrite H in Hyes]; discriminate.
  - unfold request_cancel_service_booking.
    destruct (select_one _ _) as [sb|] eqn:Hsel; [|discriminate].
    destruct (select_one_holds _ _ _ Hsel) as [Hid _].
    destruct (sb_user_id sb =? u) eqn:Hu; [|discriminate].
    destruct (status_eqb (sb_status sb) booked) eqn:Hst; [|discriminate].
    apply status_eqb_eq in Hst.
    cbn [negb]. destruct (_ <? _); [discriminate|].
    destruct (write_ok e); [|discriminate].
    cbn [fst snd _notify emit with_session update_service_bookings with_service_bookings
           service_bookings].
    intros [= <-]. exists id, sb.
    split; [exact Hsel|]. split; [exact Hst|]. split; [discriminate|]. split.
    + erewrite select_one_update_where; [|intros x; reflexivity | exact Hsel].
      cbv beta. now rewrite Hid, Hu, Hst.
    + apply count_update_one with (p := fun b => sb_id b =? id) (r := sb).
      * exact Hsel.
      * intros x Hx. apply andb_prop in Hx as [Hx _]. now apply andb_prop in Hx as [Hx _].
      * now rewrite Hid, Hu, Hst.
      * unfold booked_on. cbn [same_date]. now rewrite !Z.eqb_refl, Hst.
      * unfold booked_on. cbn [set_sb_status sb_status status_eqb].
        now rewrite andb_false_r.
  - unfold confirm_service_booking.
    destruct (select_one _ _) as [sb|] eqn:Hsel; [|discriminate].
    destruct (select_one_holds _ _ _ Hsel) as [Hid _].
    cbv zeta. destruct (negb _); [discriminate|].
    destruct (status_eqb (sb_status sb) booked) eqn:Hst; [|discriminate].
    apply status_eqb_eq in Hst. cbn [negb].
    destruct (confirm_crisis_part sb s) as [r|s'] eqn:Hpart.
    { cbn [fst]. intros ->. unfold confirm_crisis_part in Hpart.
      repeat match type of Hpart with
             | context [match ?x with _ => _ end] => destruct x eqn:?; try discriminate
             end;
        try (injection Hpart as Hpart; discriminate).
      injection Hpart as Hpart.
      match goal with
      | H : _require_crisis_open _ _ = Some _ |- _ =>
          unfold _require_crisis_open in H;
          repeat match type of H with
                 | context [match ?x with _ => _ end] => destruct x; try discriminate
                 end;
          injection H as H; congruence
      end. }
    apply confirm_crisis_part_frame in Hpart as [Hsame _].
    destruct (write_ok e); [|discriminate].
    cbn [fst snd _notify emit with_session update_service_bookings with_service_bookings
           service_bookings].
    intros [= <-]. rewrite Hsame. exists id, sb.
    split; [exact Hsel|]. split; [exact Hst|]. split; [discriminate|]. split.
    + erewrite select_one_update_where; [|intros x; reflexivity | exact Hsel].
      cbv beta. now rewrite Hid, Hst.
    + apply count_update_one with (p := fun b => sb_id b =? id) (r := sb).
      * exact Hsel.
      * intros x Hx. now apply andb_prop in Hx as [Hx _].
      * now rewrite Hid, Hst.
      * unfold booked_on. cbn [same_date]. now rewrite !Z.eqb_refl, Hst.
      * unfold booked_on. cbn [set_sb_status sb_status status_eqb].
        now rewrite andb_false_r.
  - unfold decline_service_booking.
    destruct (select_one _ _) as [sb|] eqn:Hsel; [|discriminate].
    destruct (select_one_holds _ _ _ Hsel) as [Hid _].
    cbv zeta. destruct (negb _); [discriminate|].
    destruct (status_eqb (sb_status sb) booked) eqn:Hst; [|discriminate].
    apply status_eqb_eq in Hst. cbn [negb].
    destruct (write_ok e); [|discriminate].
    destruct (crisis_gate _ _) as [r|] eqn:Hgate.
    { cbn [fst]. intros ->. apply crisis_gate_is_error in Hgate. discriminate. }
    cbn [fst snd _notify emit with_session update_service_bookings with_service_bookings
           service_bookings].
    intros [= <-]. exists id, sb.
    split; [exact Hsel|]. split; [exact Hst|]. split; [discriminate|]. split.
    + erewrite select_one_update_where; [|intros x; reflexivity | exact Hsel].
      cbv beta. now rewrite Hid, Hst.
    + apply count_update_one with (p := fun b => sb_id b =? id) (r := sb).
      * exact Hsel.
      * intros x Hx. now apply andb_prop in Hx as [Hx _].
      * now rewrite Hid, Hst.
      * unfold booked_on. cbn [same_date]. now rewrite !Z.eqb_refl, Hst.
      * unfold booked_on. cbn [set_sb_status sb_status status_eqb].
        now rewrite andb_false_r.
  - unfold hide_service_booking.
    destruct (select_one _ _) as [sb|]; [|discriminate].
    destruct (negb _); [discriminate|].
    destruct (write_ok e); discriminate.
Qed.

Lemma leaving_booked_frees_a_place_witness :
  exists id sb,
    select_one (fun b => sb_id b =? id) (service_bookings after_first_booking) = Some sb
    /\ count_rows (booked_on (sb_service_id sb) (DATE (sb_scheduled_at sb)))
         (service_bookings
            (snd (run_service_action calm (ConfirmServiceBooking hospital_owner 1)
                    after_first_booking)))
       = count_rows (booked_on (sb_service_id sb) (DATE (sb_scheduled_at sb)))
           (service_bookings after_first_booking) - 1.
Proof.
  destruct (leaving_booked_frees_a_place calm (ConfirmServiceBooking hospital_owner 1)
              after_first_booking confirmed)
    as (id & sb & Hsel & _ & _ & _ & Hcount).
  - vm_compute. reflexivity.
  - exists id, sb. split; [exact Hsel | exact Hcount].
Defined.

(** * Properties of the helpers of [utils.py] *)

(** ** [paginate] *)

Lemma firstn_plus {A : Type} (a b : nat) (l : list A) :
  firstn (a + b) l = firstn a l ++ firstn b (skipn a l).
Proof.
  revert l. induction a as [|a IH]; intros l; [reflexivity|].
  destruct l as [|x l]; cbn [Nat.add firstn skipn app].
  - now rewrite firstn_nil.
  - now rewrite IH.
Qed.

(** The first [m] chunks of [n] rows are the first [m * n] rows. *)
Lemma chunks_firstn {A : Type} (n m : nat) (l : list A) :
  List.concat (map (fun k => firstn n (skipn (k * n) l)) (seq 0 m)) = firstn (m * n) l.
Proof.
  induction m as [|m IH]; [reflexivity|].
  rewrite seq_S, map_app, concat_app, IH. cbn [map List.concat Nat.add].
  rewrite app_nil_r. replace (S m * n)%nat with (m * n + n)%nat by lia.
  now rewrite firstn_plus.
Qed.

Lemma ceil_div_spec (a b : Z) :
  0 < b -> (ceil_div a b - 1) * b < a <= ceil_div a b * b.
Proof.
  intros Hb. unfold ceil_div.
  pose proof (Z.div_mod (- a) b ltac:(lia)) as Hdm.
  pose proof (Z.mod_pos_bound (- a) b Hb) as Hmod. nia.
Qed.

Lemma page_in_force_pos (page_arg : option Z) : 1 <= page_in_force page_arg.
Proof. unfold page_in_force. cbv zeta. destruct (_ <? 1) eqn:H; lia. Qed.

Lemma page_in_force_id (page : Z) : 1 <= page -> page_in_force (Some page) = page.
Proof.
  intros H. unfold page_in_force. cbv zeta.
  now replace (page <? 1) with false by (symmetry; apply Z.ltb_ge; lia).
Qed.

Lemma page_size_in_force_bounds (page_size_arg : option Z) (default_size max_size : Z) :
  1 <= default_size -> 1 <= max_size ->
  1 <= page_size_in_force page_size_arg default_size max_size <= max_size.
Proof.
  intros Hd Hm. unfold page_size_in_force. cbv zeta.
  destruct page_size_arg as [n|].
  - destruct (n <? 1) eqn:H1.
    + destruct (default_size >? max_size) eqn:H2; lia.
    + destruct (n >? max_size) eqn:H2; lia.
  - replace (default_size <? 1) with false by (symmetry; apply Z.ltb_ge; lia).
    destruct (default_size >? max_size) eqn:H2; lia.
Qed.

(** With sizes of at least 1 the LIMIT statement does not raise. *)
Lemma paginate_unfold {A : Type} (page_arg page_size_arg : option Z)
    (default_size max_size : Z) (total : Z) (result : list A) :
  1 <= default_size -> 1 <= max_size ->
  let page := page_in_force page_arg in
  let size := page_size_in_force page_size_arg default_size max_size in
  paginate page_arg page_size_arg default_size max_size total result
  = Some (if ((page - 1) * size >=? total) && negb (total =? 0) then []
          else firstn (Z.to_nat size) (skipn (Z.to_nat ((page - 1) * size)) result),
          {| pm_page := page; pm_page_size := size; pm_total := total;
             pm_total_pages := ceil_div total size;
             pm_has_next := page <? ceil_div total size;
             pm_has_prev := page >? 1;
             pm_next_page := if page <? ceil_div total size then Some (page + 1) else None;
             pm_prev_page := if page >? 1 then Some (page - 1) else None |}).
Proof.
  intros Hd Hm.
  pose proof (page_size_in_force_bounds page_size_arg default_size max_size Hd Hm) as Hs.
  pose proof (page_in_force_pos page_arg) as Hpage.
  cbv zeta. unfold paginate. cbv zeta.
  set (page := page_in_force page_arg) in *.
  set (size := page_size_in_force page_size_arg default_size max_size) in *.
  replace (size =? 0) with false by (symmetry; apply Z.eqb_neq; lia).
  unfold limit_offset.
  replace (size <? 0) with false by (symmetry; apply Z.ltb_ge; lia).
  replace ((page - 1) * size <? 0) with false by (symmetry; apply Z.ltb_ge; nia).
  cbn [orb].
  destruct (((page - 1) * size >=? total) && negb (total =? 0)); reflexivity.
Qed.

Lemma page_count_unfold {A : Type} (page_size_arg : option Z) (default_size max_size : Z)
    (result : list A) :
  1 <= default_size -> 1 <= max_size ->
  page_count page_size_arg default_size max_size result
  = ceil_div (Z.of_nat (List.length result))
      (page_size_in_force page_size_arg default_size max_size).
Proof. intros Hd Hm. unfold page_count. now rewrite paginate_unfold. Qed.

Lemma page_rows_unfold {A : Type} (page_size_arg : option Z) (default_size max_size : Z)
    (result : list A) (page : Z) :
  1 <= default_size -> 1 <= max_size -> 1 <= page ->
  let size := page_size_in_force page_size_arg default_size max_size in
  page_rows page_size_arg default_size max_size result page
  = firstn (Z.to_nat size) (skipn (Z.to_nat ((page - 1) * size)) result).
Proof.
  intros Hd Hm Hpage. cbv zeta. unfold page_rows.
  rewrite paginate_unfold by assumption. cbv zeta.
  rewrite page_in_force_id by exact Hpage.
  destruct (_ && _) eqn:Hbeyond; [|reflexivity].
  apply andb_prop in Hbeyond as [Hoff _].
  rewrite skipn_all2; [now rewrite firstn_nil|]. lia.
Qed.

(** The pages partition the result.  For a default and a maximal page size
    of at least 1 and whatever page size the request asks for, with the
    count query counting the rows of the paginated query: the rows of the
    pages 1, 2, ..., total_pages, one after the other, are the rows of the
    query, each once and in order; no page has more than max_size rows, and
    a page after the last is empty. *)
Theorem pages_partition_the_result :
  forall (A : Type) (page_size_arg : option Z) (default_size max_size : Z)
         (result : list A),
    1 <= default_size -> 1 <= max_size ->
    let rows := page_rows page_size_arg default_size max_size result in
    let pages := page_count page_size_arg default_size max_size result in
    List.concat (map rows (Py.range 1 (pages + 1))) = result
    /\ (forall page, Z.of_nat (List.length (rows page)) <= max_size)
    /\ (forall page, pages < page -> rows page = []).
Proof.
  intros A page_size_arg default_size max_size result Hd Hm. cbv zeta.
  rewrite page_count_unfold by assumption.
  pose proof (page_size_in_force_bounds page_size_arg default_size max_size Hd Hm) as Hs.
  set (size := page_size_in_force page_size_arg default_size max_size) in *.
  set (total := Z.of_nat (List.length result)).
  pose proof (ceil_div_spec total size ltac:(lia)) as Hceil.
  assert (Hpages : 0 <= ceil_div total size) by (unfold total in *; nia).
  split; [|split].
  - unfold Py.range. replace (ceil_div total size + 1 - 1) with (ceil_div total size) by lia.
    rewrite map_map.
    rewrite map_ext_in
      with (g := fun k => firstn (Z.to_nat size) (skipn (k * Z.to_nat size) result)).
    + rewrite chunks_firstn. apply firstn_all2. unfold total in *. nia.
    + intros k Hk. apply in_seq in Hk.
      rewrite page_rows_unfold by (try assumption; lia).
      fold size. do 2 f_equal. nia.
  - intros page. unfold page_rows.
    rewrite paginate_unfold by assumption. cbv zeta. fold size total.
    destruct (_ && _); [cbn; lia|].
    rewrite length_firstn. lia.
  - intros page Hpage.
    rewrite page_rows_unfold by (try assumption; lia).
    fold size. rewrite skipn_all2; [now rewrite firstn_nil|]. unfold total in *. nia.
Qed.

Lemma pages_partition_the_result_witness :
  page_count (Some 2) 20 100 ["a"; "b"; "c"; "d"; "e"] = 3
  /\ List.concat (map (page_rows (Some 2) 20 100 ["a"; "b"; "c"; "d"; "e"])
               (Py.range 1 (page_count (Some 2) 20 100 ["a"; "b"; "c"; "d"; "e"] + 1)))
     = ["a"; "b"; "c"; "d"; "e"].
Proof.
  split; [vm_compute; reflexivity|].
  apply (pages_partition_the_result string (Some 2) 20 100 ["a"; "b"; "c"; "d"; "e"]); lia.
Defined.

(** The page and its metadata agree.  With sizes of at least 1 and the
    count query counting the rows of the paginated query, [paginate]
    answers (the LIMIT statement does not raise) and: the rows are those at
    positions (page-1)*page_size up to page*page_size of the result;
    has_next says exactly that rows remain after this page, and then the
    page is full; without has_next no row follows; total_pages is 0 exactly
    for an empty result. *)
Theorem page_meta_is_coherent :
  forall (A : Type) (page_arg page_size_arg : option Z) (default_size max_size : Z)
         (result : list A),
    1 <= default_size -> 1 <= max_size ->
    exists rows m,
      paginate page_arg page_size_arg default_size max_size
        (Z.of_nat (List.length result)) result = Some (rows, m)
      /\ 1 <= pm_page m /\ 1 <= pm_page_size m <= max_size
      /\ rows = firstn (Z.to_nat (pm_page_size m))
                  (skipn (Z.to_nat ((pm_page m - 1) * pm_page_size m)) result)
      /\ (pm_has_next m = true
          <-> skipn (Z.to_nat (pm_page m * pm_page_size m)) result <> [])
      /\ (pm_has_next m = true -> Z.of_nat (List.length rows) = pm_page_size m)
      /\ (pm_total_pages m = 0 <-> result = []).
Proof.
  intros A page_arg page_size_arg default_size max_size result Hd Hm.
  rewrite paginate_unfold by assumption. cbv zeta.
  pose proof (page_size_in_force_bounds page_size_arg default_size max_size Hd Hm) as Hs.
  pose proof (page_in_force_pos page_arg) as Hpage.
  set (page := page_in_force page_arg) in *.
  set (size := page_size_in_force page_size_arg default_size max_size) in *.
  set (total := Z.of_nat (List.length result)).
  pose proof (ceil_div_spec total size ltac:(lia)) as Hceil.
  assert (Hrows : (if ((page - 1) * size >=? total) && negb (total =? 0) then []
                   else firstn (Z.to_nat size) (skipn (Z.to_nat ((page - 1) * size)) result))
                  = firstn (Z.to_nat size) (skipn (Z.to_nat ((page - 1) * size)) result)).
  { destruct (_ && _) eqn:Hbeyond; [|reflexivity].
    apply andb_prop in Hbeyond as [Hoff _].
    rewrite skipn_all2; [now rewrite firstn_nil|]. unfold total in Hoff. lia. }
  rewrite Hrows.
  assert (Hnext : (page <? ceil_div total size) = true <-> page * size < total).
  { rewrite Z.ltb_lt. split; intros H; nia. }
  assert (Hskip : forall n, skipn n result <> [] <-> (n < List.length result)%nat).
  { intros n. split.
    - intros Hne. destruct (Nat.lt_ge_cases n (List.length result)) as [Hlt|Hge];
        [exact Hlt|]. elim Hne. now apply skipn_all2.
    - intros Hlt Hnil.
      assert (List.length (skipn n result) = 0%nat) by now rewrite Hnil.
      rewrite length_skipn in H. lia. }
  eexists _, _. split; [reflexivity|].
  cbn [pm_page pm_page_size pm_has_next pm_total_pages].
  split; [exact Hpage|]. split; [exact Hs|]. split; [reflexivity|].
  split; [|split].
  - rewrite Hnext, Hskip. unfold total. lia.
  - intros H. apply Hnext in H.
    rewrite length_firstn, length_skipn. unfold total in H. nia.
  - split.
    + intros H0. rewrite H0 in Hceil. destruct result; [reflexivity|].
      unfold total in Hceil. cbn [List.length] in Hceil. lia.
    + intros ->. subst total. unfold ceil_div. cbn [List.length Z.of_nat Z.opp].
      rewrite Z.div_0_l by lia. reflexivity.
Qed.

Lemma page_meta_is_coherent_witness :
  exists rows m,
    paginate (Some 2) (Some 2) 20 100 5 ["a"; "b"; "c"; "d"; "e"] = Some (rows, m)
    /\ rows = ["c"; "d"]
    /\ (pm_has_next m = true
        <-> skipn (Z.to_nat (pm_page m * pm_page_size m)) ["a"; "b"; "c"; "d"; "e"] <> []).
Proof.
  destruct (page_meta_is_coherent string (Some 2) (Some 2) 20 100 ["a"; "b"; "c"; "d"; "e"])
    as (rows & m & Hp & _ & _ & Hrows & Hnext & _); [lia | lia |].
  exists rows, m. split; [exact Hp|]. split; [|exact Hnext].
  injection Hp as <- <-. reflexivity.
Defined.

(** ** What a booking stores, and what the requester sees of it *)

Lemma _limit_str_bounded (val : Py.str) (max_len : nat) :
  _limit_str val max_len = firstn max_len val
  /\ (List.length (_limit_str val max_len) <= max_len)%nat
  /\ (exists rest, val = _limit_str val max_len ++ rest)
  /\ ((List.length val <= max_len)%nat -> _limit_str val max_len = val).
Proof.
  unfold _limit_str.
  destruct (max_len <? List.length val)%nat eqn:Hlen.
  - apply Nat.ltb_lt in Hlen. split; [reflexivity|]. split; [|split].
    + rewrite length_firstn. lia.
    + exists (skipn max_len val). symmetry. apply firstn_skipn.
    + lia.
  - apply Nat.ltb_ge in Hlen. split; [symmetry; now apply firstn_all2|].
    split; [exact Hlen|]. split; [|reflexivity].
    exists []. symmetry. apply app_nil_r.
Qed.

(** The columns of a row [book_service] appends that come from the request. *)
Lemma book_service_stores (e : env) (user_id : Z) (rq : book_service_request)
    (s : store) (row : service_booking) :
  service_bookings (snd (book_service e user_id rq s)) = service_bookings s ++ [row] ->
  sb_notes row = option_map (fun n => _limit_str n 1000) (rq_notes rq)
  /\ sb_hospital_user_id row = rq_hospital_user_id rq
  /\ sb_crisis_id row = rq_crisis_id rq
  /\ sb_hidden_by_user row = 0
  /\ sb_id row = sb_auto_increment s.
Proof.
  assert (Hsame : service_bookings s = service_bookings s ++ [row] -> False).
  { intros H. apply (f_equal (@List.length _)) in H.
    rewrite length_app in H. cbn [List.length] in H. lia. }
  unfold book_service.
  destruct (crisis_gate (rq_crisis_id rq) s) as [r|]; [intros H; now elim Hsame|].
  destruct (negb _); [intros H; now elim Hsame|].
  destruct (select_one _ (hospital_services s)) as [svc|]; [|intros H; now elim Hsame].
  destruct (negb (hs_hospital_user_id svc =? _)); [intros H; now elim Hsame|].
  destruct (negb (hs_available svc =? 1)); [intros H; now elim Hsame|].
  destruct (beds_gate _ _ _ _) as [r|]; [intros H; now elim Hsame|].
  cbv zeta.
  destruct (0 <? count_rows (user_booked_on _ _ _) _); [intros H; now elim Hsame|].
  destruct ((0 <? _) && _); [intros H; now elim Hsame|].
  destruct (window_gate _ _ _ _) as [r|]; [intros H; now elim Hsame|].
  unfold GET_LOCK.
  destruct (allocate e svc _ _ _ _) as [a|r|];
    [|intros H; now elim Hsame|intros H; now elim Hsame].
  destruct (write_ok e); [|intros H; now elim Hsame].
  cbn [snd RELEASE_LOCK _notify emit with_session with_service_bookings service_bookings
         sb_auto_increment].
  intros H. apply app_inj_tail in H as [_ <-].
  repeat split.
Qed.

(** The notes a booking stores are the first 1000 characters of the notes
    sent, a character being a code point, whatever its size in bytes: never
    more than 1000 of them, a prefix of what was sent, all of it when that
    is 1000 characters or less, and none when none were sent. *)
Theorem stored_notes_are_bounded :
  forall (e : env) (user_id : Z) (rq : book_service_request) (s : store)
         (row : service_booking),
    service_bookings (snd (book_service e user_id rq s)) = service_bookings s ++ [row] ->
    match rq_notes rq with
    | Some sent =>
        exists stored,
          sb_notes row = Some stored
          /\ stored = firstn 1000 sent
          /\ (List.length stored <= 1000)%nat
          /\ (exists rest, sent = stored ++ rest)
          /\ ((List.length sent <= 1000)%nat -> stored = sent)
    | None => sb_notes row = None
    end.
Proof.
  intros e user_id rq s row Happ.
  destruct (book_service_stores e user_id rq s row Happ) as (Hnotes & _).
  destruct (rq_notes rq) as [sent|]; [|exact Hnotes].
  exists (_limit_str sent 1000). split; [exact Hnotes|].
  apply _limit_str_bounded.
Qed.

(** Notes of 1001 times the letter e with an acute accent (U+00E9, two
    bytes in UTF-8): the first 1000 of them are stored. *)
Lemma stored_notes_are_bounded_witness :
  exists stored,
    Some stored = Some (repeat 233%N 1000)
    /\ (List.length stored <= 1000)%nat.
Proof.
  pose (rq := {| rq_service_id := 1; rq_hospital_user_id := 10;
                 rq_scheduled_at := option_map well_formed (monday_at "09:00");
                 rq_notes := Some (repeat 233%N 1001);
                 rq_lat := None; rq_lng := None; rq_crisis_id := None |}).
  pose (row := {| sb_id := 1; sb_user_id := 101; sb_hospital_user_id := 10;
                  sb_service_id := 1; sb_scheduled_at := at_hm monday 9 0;
                  sb_status := booked; sb_serial := 1; sb_approx_time := Some "09:00";
                  sb_notes := Some (repeat 233%N 1000); sb_lat := None; sb_lng := None;
                  sb_crisis_id := None; sb_hidden_by_user := 0 |}).
  destruct (stored_notes_are_bounded calm 101 rq clinic row)
    as (stored & Hs & _ & Hlen & _).
  - vm_compute. reflexivity.
  - exists stored. split; [symmetry; exact Hs | exact Hlen].
Defined.

Lemma In_insert_by_scheduled_at_desc (x y : listed_booking) (l : list listed_booking) :
  In y (insert_by_scheduled_at_desc x l) <-> y = x \/ In y l.
Proof.
  induction l as [|z l IH]; cbn [insert_by_scheduled_at_desc In].
  - intuition auto.
  - destruct (_ <? _); cbn [In]; [intuition auto|]. rewrite IH. intuition auto.
Qed.

Lemma In_order_by_scheduled_at_desc (y : listed_booking) (l : list listed_booking) :
  In y (order_by_scheduled_at_desc l) <-> In y l.
Proof.
  unfold order_by_scheduled_at_desc.
  induction l as [|x l IH]; cbn [fold_right In]; [tauto|].
  rewrite In_insert_by_scheduled_at_desc, IH. intuition auto.
Qed.

(** Membership in the requester's list, spelled out. *)
Lemma In_list_my_service_bookings (user_id : Z) (crisis : option Z) (s : store)
    (row : listed_booking) :
  In row (list_my_service_bookings user_id crisis s)
  <-> In (fst row) (service_bookings s)
      /\ sb_user_id (fst row) = user_id /\ sb_hidden_by_user (fst row) = 0
      /\ match crisis with
         | Some c => sb_crisis_id (fst row) = Some c
         | None => True
         end
      /\ In (snd row) (hospital_services s)
      /\ hs_id (snd row) = sb_service_id (fst row).
Proof.
  unfold list_my_service_bookings.
  rewrite In_order_by_scheduled_at_desc, in_flat_map. destruct row as [sb hs]. cbn [fst snd].
  split.
  - intros (sb' & Hsb & Hrow).
    apply in_map_iff in Hrow as (hs' & [= -> ->] & Hhs).
    apply filter_In in Hsb as [Hin Hcond]. apply filter_In in Hhs as [Hhin Hid].
    apply andb_prop in Hcond as [Hcond Hcr]. apply andb_prop in Hcond as [Hu Hh].
    apply Z.eqb_eq in Hu, Hh, Hid.
    repeat split; try assumption.
    destruct crisis as [c|]; [|exact I].
    destruct (sb_crisis_id sb) as [c'|]; [|discriminate].
    apply Z.eqb_eq in Hcr. now subst.
  - intros (Hin & Hu & Hh & Hcr & Hhin & Hid).
    exists sb. split.
    + apply filter_In. split; [exact Hin|].
      rewrite Hu, Hh, !Z.eqb_refl. cbn [andb].
      destruct crisis as [c|]; [|reflexivity]. rewrite Hcr. apply Z.eqb_refl.
    + apply in_map_iff. exists hs. split; [reflexivity|].
      apply filter_In. split; [exact Hhin | now apply Z.eqb_eq].
Qed.

(** Hiding is not cancelling.  After a booking was hidden (answer ok), no
    list of the requester shows it any more, every other booking is listed
    as before, for every user; but the hidden row keeps its status: the
    requester's booked rows of every service and day are counted as before,
    so a hidden booking still stands in the way of a new one for that day. *)
Theorem hidden_booking_leaves_the_list :
  forall (e : env) (user_id id : Z) (s : store),
    fst (hide_service_booking e user_id id s) = JsonOk None ->
    let s' := snd (hide_service_booking e user_id id s) in
    (forall crisis row,
       In row (list_my_service_bookings user_id crisis s') -> sb_id (fst row) <> id)
    /\ (forall u crisis row,
          sb_id (fst row) <> id ->
          (In row (list_my_service_bookings u crisis s')
           <-> In row (list_my_service_bookings u crisis s)))
    /\ (forall u sid day,
          count_rows (user_booked_on u sid day) (service_bookings s')
          = count_rows (user_booked_on u sid day) (service_bookings s)).
Proof.
  intros e user_id id s. unfold hide_service_booking.
  destruct (select_one _ _) as [sb|] eqn:Hsel; [|discriminate].
  destruct (sb_user_id sb =? user_id) eqn:Hu; [|discriminate]. cbn [negb].
  destruct (write_ok e); [|discriminate]. intros _. cbv zeta. cbn [snd].
  set (cond := fun b => (sb_id b =? id) && (sb_user_id b =? user_id)).
  assert (Hin : forall b, In b (update_where cond (set_sb_hidden_by_user 1)
                                  (service_bookings s))
                <-> exists b0, In b0 (service_bookings s)
                               /\ b = if cond b0 then set_sb_hidden_by_user 1 b0 else b0).
  { intros b. unfold update_where. rewrite in_map_iff. split; intros (b0 & H1 & H2).
    - exists b0. now split.
    - exists b0. now split. }
  split; [|split].
  - intros crisis row Hrow Hid.
    apply In_list_my_service_bookings in Hrow as (Hrow & Hru & Hhid & _).
    cbn [update_service_bookings with_service_bookings service_bookings] in Hrow.
    apply Hin in Hrow as (b0 & Hb0 & Hb).
    destruct (cond b0) eqn:Hc.
    + rewrite Hb in Hhid. cbn in Hhid. discriminate.
    + rewrite Hb in Hid, Hru. unfold cond in Hc.
      apply Z.eqb_neq in Hc || (apply andb_false_iff in Hc as [Hc|Hc]; apply Z.eqb_neq in Hc);
        congruence.
  - intros u crisis row Hid. rewrite !In_list_my_service_bookings.
    cbn [update_service_bookings with_service_bookings service_bookings hospital_services].
    rewrite Hin.
    split.
    + intros ((b0 & Hb0 & Hb) & Hrest). split; [|exact Hrest].
      destruct (cond b0) eqn:Hc.
      * unfold cond in Hc. apply andb_prop in Hc as [Hc _]. apply Z.eqb_eq in Hc.
        rewrite Hb in Hid. cbn in Hid. congruence.
      * now rewrite Hb.
    + intros (Hrow & Hrest). split; [|exact Hrest].
      exists (fst row). split; [exact Hrow|].
      replace (cond (fst row)) with false; [reflexivity|].
      unfold cond. apply Z.eqb_neq in Hid. now rewrite Hid.
  - intros u sid day.
    cbn [update_service_bookings with_service_bookings service_bookings].
    unfold count_rows. rewrite filter_update_where by (intros r; reflexivity).
    now rewrite length_map.
Qed.

Lemma hidden_booking_leaves_the_list_witness :
  list_my_service_bookings 101 None after_first_booking
  = [(booking 1 101 2 (at_hm monday 9 0) booked 1, scan)]
  /\ list_my_service_bookings 101 None
       (snd (hide_service_booking calm 101 1 after_first_booking)) = []
  /\ count_rows (user_booked_on 101 2 monday)
       (service_bookings (snd (hide_service_booking calm 101 1 after_first_booking)))
     = count_rows (user_booked_on 101 2 monday) (service_bookings after_first_booking).
Proof.
  split; [vm_compute; reflexivity|]. split; [vm_compute; reflexivity|].
  apply (hidden_booking_leaves_the_list calm 101 1 after_first_booking).
  vm_compute. reflexivity.
Defined.

(** ** [api_view] *)

Lemma truthy_text_some (t : option string) (x : string) :
  truthy_text t = Some x -> t = Some x /\ x <> "".
Proof.
  unfold truthy_text. destruct t as [y|]; [|discriminate].
  unfold Py.truthy_str. destruct (String.eqb y "") eqn:Hy; cbn [negb]; [discriminate|].
  intros [= ->]. split; [reflexivity|]. now apply String.eqb_neq.
Qed.

(** What the guard lets through.  Outside the development mode (DEV_OPEN
    and DEBUG both set), when a wrapped view runs: the method is one of the
    declared ones; for an endpoint that requires authentication the view was
    handed the user of a valid token; and for an endpoint with CSRF checking
    a mutating request carried the CSRF token issued with its auth token.
    In the development mode a request with an allowed method and no token
    at all reaches the view of any endpoint, with no user. *)
Theorem guarded_view_runs_authenticated :
  forall (R : Type) (o : api_options) (cfg : settings)
         (tokens : string -> option session_user)
         (view_fn : http_request -> option session_user -> R) (r : http_request),
    (DEV_OPEN cfg && DEBUG cfg = false ->
     forall res, api_view o cfg tokens view_fn r = inr res ->
       (forall ms, methods o = Some ms -> ms <> [] -> Py.mem (rq_method r) ms = true)
       /\ (require_auth o = true ->
           exists u, _auth_user tokens r = Some u /\ res = view_fn r (Some u))
       /\ (csrf o = true -> mutating r = true ->
           exists u sent,
             _auth_user tokens r = Some u /\ res = view_fn r (Some u)
             /\ rq_csrf_header r = Some sent /\ su_at_csrf u = Some sent /\ sent <> ""))
    /\ (DEV_OPEN cfg && DEBUG cfg = true ->
        (forall ms, methods o = Some ms -> Py.mem (rq_method r) ms = true) ->
        rq_auth_header r = None -> rq_auth_cookie r = None ->
        api_view o cfg tokens view_fn r = inr (view_fn r None)).
Proof.
  intros R o cfg tokens view_fn r. split.
  - intros Hdev res. unfold api_view. rewrite Hdev. cbv zeta.
    rewrite !andb_true_r.
    destruct (match methods o with Some [] | None => false | Some _ => _ end) eqn:Hmeth;
      [discriminate|].
    intros Hres. split; [|split].
    + intros ms Hms Hne. rewrite Hms in Hmeth. destruct ms as [|m ms]; [congruence|].
      cbv beta iota in Hmeth. apply negb_false_iff in Hmeth. exact Hmeth.
    + intros Hreq. rewrite Hreq in Hres. cbn [orb] in Hres.
      destruct (_auth_user tokens r) as [u|]; [|discriminate].
      exists u. split; [reflexivity|].
      destruct (csrf o && mutating r).
      * destruct (_check_csrf r u); [discriminate|]. now injection Hres as <-.
      * now injection Hres as <-.
    + intros Hcsrf Hmut. rewrite Hcsrf, Hmut in Hres. cbn [andb] in Hres.
      rewrite orb_true_r in Hres.
      destruct (_auth_user tokens r) as [u|].
      * destruct (_check_csrf r u) as [err|] eqn:Hcheck; [discriminate|].
        injection Hres as <-.
        unfold _check_csrf in Hcheck. rewrite Hmut in Hcheck.
        destruct (truthy_text (rq_csrf_header r)) as [sent|] eqn:Hsent; [|discriminate].
        destruct (truthy_text (su_at_csrf u)) as [issued|] eqn:Hissued; [|discriminate].
        destruct (String.eqb sent issued) eqn:Heq; [|discriminate].
        apply String.eqb_eq in Heq. subst issued.
        apply truthy_text_some in Hsent as [Hsent Hne].
        apply truthy_text_some in Hissued as [Hissued _].
        exists u, sent. repeat split; assumption.
      * destruct (_ || _); discriminate.
  - intros Hdev Hmeth Hhdr Hcookie. unfold api_view. rewrite Hdev. cbv zeta.
    replace (match methods o with Some [] | None => false | Some _ => _ end) with false.
    2:{ destruct (methods o) as [[|m ms]|]; try reflexivity.
        symmetry. apply negb_false_iff. now apply Hmeth. }
    rewrite !andb_false_r. cbn [orb].
    unfold _auth_user, py_or. rewrite Hhdr, Hcookie. cbn [truthy_text].
    destruct (csrf o && mutating r); reflexivity.
Qed.

Lemma guarded_view_runs_authenticated_witness :
  let tokens := fun token =>
    if String.eqb token "t-101"
    then Some {| su_user := {| u_id := 101; u_role := "user" |};
                 su_at_csrf := Some "c-101" |}
    else None in
  let r := {| rq_method := "POST"; rq_auth_header := Some "t-101";
              rq_auth_cookie := None; rq_csrf_header := None |} in
  exists u, _auth_user tokens r = Some u /\ u_id (su_user u) = 101.
Proof.
  cbv zeta.
  destruct (proj1 (guarded_view_runs_authenticated (option Z) booking_endpoint
                     {| DEV_OPEN := false; DEBUG := true |}
                     (fun token =>
                        if String.eqb token "t-101"
                        then Some {| su_user := {| u_id := 101; u_role := "user" |};
                                     su_at_csrf := Some "c-101" |}
                        else None)
                     (fun _ u => option_map (fun x => u_id (su_user x)) u)
                     {| rq_method := "POST"; rq_auth_header := Some "t-101";
                        rq_auth_cookie := None; rq_csrf_header := None |})
             eq_refl (Some 101) eq_refl)
    as (_ & Hauth & _).
  destruct (Hauth eq_refl) as (u & Hu & Hres).
  exists u. split; [exact Hu|].
  destruct u as [usr c]. cbn in Hres. cbn [su_user]. now injection Hres as ->.
Defined.

(** ** [_rate_limited] *)

Lemma last_cons_default {A : Type} (a d : A) (l : list A) :
  List.last (a :: l) d = List.last l a.
Proof.
  revert a d. induction l as [|b l IH]; intros a d; [reflexivity|].
  change (List.last (a :: b :: l) d) with (List.last (b :: l) d).
  now rewrite !IH.
Qed.

Section RateLimitFacts.

Variable T : Type.
Variable ltb : T -> T -> bool.
Variable minus : T -> Z -> T.
Variable retry_after : T -> Z -> T -> Z.
Variable w : Z.

Hypothesis ltb_irrefl : forall a, ltb a a = false.
Hypothesis le_trans : forall a b c, ltb b a = false -> ltb c b = false -> ltb c a = false.
Hypothesis minus_mono : forall a b, ltb b a = false -> ltb (minus b w) (minus a w) = false.
Hypothesis minus_back : forall a, ltb a (minus a w) = false.

Lemma trim_length (c : T) (l : list T) : (List.length (trim ltb c l) <= List.length l)%nat.
Proof.
  induction l as [|t r IH]; cbn [trim List.length]; [lia|].
  destruct (ltb t c); cbn [List.length]; lia.
Qed.

(** On instants in order, trimming for a later cutoff is filtering. *)
Lemma trim_in_window (last now : T) (adm : list T) :
  nondecreasing ltb adm -> ltb now last = false ->
  trim ltb (minus now w) (in_window ltb minus w last adm) = in_window ltb minus w now adm.
Proof.
  intros Hsorted Hclock. unfold in_window.
  pose proof (minus_mono last now Hclock) as Hcut.
  induction adm as [|t r IH]; [reflexivity|].
  destruct Hsorted as [Hall Hsorted]. specialize (IH Hsorted).
  cbn [filter].
  destruct (ltb t (minus last w)) eqn:Hold; cbn [negb].
  - rewrite IH.
    replace (ltb t (minus now w)) with true; [reflexivity|].
    destruct (ltb t (minus now w)) eqn:Hnew; [reflexivity|].
    rewrite (le_trans _ _ _ Hcut Hnew) in Hold. discriminate.
  - cbn [trim]. destruct (ltb t (minus now w)) eqn:Hnew; cbn [negb]; [exact IH|].
    f_equal.
    assert (Hkeep : forall c, ltb t c = false ->
                      filter (fun x => negb (ltb x c)) r = r).
    { intros c Hc. apply forallb_filter_id. apply forallb_forall. intros x Hx.
      rewrite Forall_forall in Hall. specialize (Hall x Hx).
      now rewrite (le_trans _ _ _ Hc Hall). }
    now rewrite (Hkeep _ Hold), (Hkeep _ Hnew).
Qed.

Lemma nondecreasing_snoc (adm : list T) (now : T) :
  nondecreasing ltb adm -> Forall (fun t => ltb now t = false) adm ->
  nondecreasing ltb (adm ++ [now]).
Proof.
  induction adm as [|t r IH]; cbn [app nondecreasing].
  - intros _ _. split; [constructor | exact I].
  - intros [Hall Hsorted] Hle. inversion Hle as [|? ? Ht Hr]; subst.
    split; [|now apply IH].
    apply Forall_app. split; [exact Hall | constructor; [exact Ht | constructor]].
Qed.

Lemma rate_calls_keep_window (limit : Z) (calls : list T) :
  1 <= limit ->
  forall (last : T) (admitted dq : list T),
    window_kept ltb minus w limit last admitted dq ->
    clock_runs_forward ltb last calls ->
    exists admitted' dq',
      rate_calls ltb minus retry_after limit w calls admitted dq = Some (admitted', dq')
      /\ window_kept ltb minus w limit (List.last calls last) admitted' dq'.
Proof.
  intros Hlimit. induction calls as [|now rest IH]; intros last admitted dq Hinv Hclock.
  - exists admitted, dq. split; [reflexivity | exact Hinv].
  - destruct Hclock as [Hnow Hrest].
    destruct Hinv as (Hsorted & Hle & Hdq & Hlen).
    assert (Hle' : Forall (fun t => ltb now t = false) admitted).
    { rewrite Forall_forall in *. intros t Ht. exact (le_trans _ _ _ (Hle t Ht) Hnow). }
    assert (Hlast : List.last (now :: rest) last = List.last rest now)
      by apply last_cons_default.
    rewrite Hlast.
    cbn [rate_calls]. unfold rate_step. cbv zeta.
    pose proof (trim_length (minus now w) dq) as Htrim.
    subst dq. rewrite (trim_in_window last now admitted Hsorted Hnow) in *.
    destruct (Z.of_nat (List.length (in_window ltb minus w now admitted)) >=? limit)
      eqn:Hfull.
    + apply Z.geb_le in Hfull.
      destruct (in_window ltb minus w now admitted) as [|first dq1] eqn:Hwin;
        [cbn [List.length] in Hfull; lia|].
      apply IH; [|exact Hrest].
      repeat split; try assumption; [now rewrite Hwin | lia].
    + rewrite Z.geb_leb in Hfull. apply Z.leb_gt in Hfull.
      apply IH; [|exact Hrest].
      split; [now apply nondecreasing_snoc|]. split; [|split].
      * apply Forall_app. split; [exact Hle' | constructor; [apply ltb_irrefl | constructor]].
      * unfold in_window. rewrite filter_app. cbn [filter].
        now rewrite minus_back.
      * rewrite length_app. cbn [List.length]. lia.
Qed.

End RateLimitFacts.

(** The sliding window holds.  For a clock that does not run backwards, a
    window that is not negative and a limit of at least 1, whatever the
    instants of the calls for a key whose deque starts empty: no call
    raises; after the last call the deque holds exactly the instants of the
    admitted calls that are not older than the window; and these are at
    most [limit].  The clock is any ordered type; [minus] is its
    subtraction of the window, which is monotone and does not move forward. *)
Theorem sliding_window_is_kept :
  forall (T : Type) (ltb : T -> T -> bool) (minus : T -> Z -> T)
         (retry_after : T -> Z -> T -> Z) (w limit : Z),
    (forall a, ltb a a = false) ->
    (forall a b c, ltb b a = false -> ltb c b = false -> ltb c a = false) ->
    (forall a b, ltb b a = false -> ltb (minus b w) (minus a w) = false) ->
    (forall a, ltb a (minus a w) = false) ->
    1 <= limit ->
    forall (first : T) (calls : list T),
      clock_runs_forward ltb first calls ->
      exists admitted dq,
        rate_calls ltb minus retry_after limit w (first :: calls) [] [] = Some (admitted, dq)
        /\ dq = in_window ltb minus w (List.last calls first) admitted
        /\ Z.of_nat (List.length (in_window ltb minus w (List.last calls first) admitted))
           <= limit.
Proof.
  intros T ltb minus retry_after w limit Hirr Htrans Hmono Hback Hlimit first calls Hclock.
  destruct (rate_calls_keep_window T ltb minus retry_after w Hirr Htrans Hmono Hback limit
              (first :: calls) Hlimit first [] [])
    as (admitted & dq & Hrun & _ & _ & Hdq & Hlen).
  - repeat split; try constructor. cbn. lia.
  - split; [apply Hirr | exact Hclock].
  - exists admitted, dq. split; [exact Hrun|].
    assert (Hlast : List.last (first :: calls) first = List.last calls first)
      by apply last_cons_default.
    rewrite Hlast in Hdq. split; [exact Hdq|]. now rewrite <- Hdq.
Qed.

Lemma sliding_window_is_kept_witness :
  exists admitted dq,
    rate_calls Z.ltb Z.sub (fun first w now => first + w - now) 2 60
      [0; 10; 20; 65; 71] [] [] = Some (admitted, dq)
    /\ dq = in_window Z.ltb Z.sub 60 71 admitted
    /\ Z.of_nat (List.length (in_window Z.ltb Z.sub 60 71 admitted)) <= 2.
Proof.
  apply (sliding_window_is_kept Z Z.ltb Z.sub (fun first w now => first + w - now) 60 2).
  - intros a. apply Z.ltb_irrefl.
  - intros a b c H1 H2. apply Z.ltb_ge in H1, H2. apply Z.ltb_ge. lia.
  - intros a b H. apply Z.ltb_ge in H. apply Z.ltb_ge. lia.
  - intros a. apply Z.ltb_ge. lia.
  - lia.
  - cbn. repeat split; reflexivity.
Defined.

(** * Properties of the blood bank inventory *)

Lemma Forall_update_where {A : Type} (P : A -> Prop) (cond : A -> bool) (f : A -> A)
    (t : list A) :
  Forall P t -> (forall r, P r -> cond r = true -> P (f r)) ->
  Forall P (update_where cond f t).
Proof.
  intros Ht Hf. unfold update_where. apply Forall_map.
  eapply Forall_impl; [|exact Ht]. intros r Hr. cbv beta.
  destruct (cond r) eqn:Hc; [now apply Hf | exact Hr].
Qed.

Lemma query_one {A : Type} (p : A -> bool) (t : list A) (r : A) :
  Bank.query p t = Bank.OneRow r <-> filter p t = [r].
Proof.
  unfold Bank.query. destruct (filter p t) as [|a [|b l]]; split; intros H;
    try discriminate; now inversion H.
Qed.

Lemma query_one_holds {A : Type} (p : A -> bool) (t : list A) (r : A) :
  Bank.query p t = Bank.OneRow r -> In r t /\ p r = true.
Proof.
  intros H. apply query_one in H.
  assert (Hin : In r (filter p t)) by (rewrite H; now left).
  now apply filter_In in Hin.
Qed.

Lemma restore_units_sound (row : Bank.issuance) (s s' : Bank.tables) :
  Bank.sound s -> 0 <= Bank.is_quantity_units row ->
  Bank.restore_units row s = Some s' -> Bank.sound s'.
Proof.
  intros [Hst His] Hrow. unfold Bank.restore_units, Bank.stock_of.
  destruct (Bank.query _ _) as [|inv|l] eqn:Hq; [| |discriminate]; intros [= <-].
  - split; [|exact His].
    cbn [Bank.insert_stock Bank.with_inventory Bank.blood_inventory].
    apply Forall_app. split; [exact Hst | constructor; [exact Hrow | constructor]].
  - split; [|exact His].
    cbn [Bank.update_quantity Bank.with_inventory Bank.blood_inventory].
    apply Forall_update_where; [exact Hst|].
    intros r _ _. cbn [Bank.set_quantity Bank.st_quantity_units].
    apply query_one_holds in Hq as [Hin _].
    rewrite Forall_forall in Hst. specialize (Hst inv Hin). lia.
Qed.

Lemma select_one_In {A : Type} (p : A -> bool) (t : list A) (r : A) :
  select_one p t = Some r -> In r t.
Proof. intros H. now apply select_one_holds in H. Qed.

Lemma bank_step_sound (u : user) (a : Bank.action) (s : Bank.tables) :
  Bank.sound s -> Bank.sets_no_debt a -> Bank.sound (snd (Bank.run u a s)).
Proof.
  intros Hs Ha. pose proof Hs as [Hst His].
  destruct a as [bt qty | bt qty purpose name contact | id p | id | now id st reason];
    cbn [Bank.run].
  - unfold Bank.blood_inventory_set.
    destruct (_ && _); [exact Hs|].
    destruct qty as [q|]; [|exact Hs]. cbn [Bank.sets_no_debt] in Ha.
    destruct (negb _); [exact Hs|].
    destruct (Bank.stock_of _ _ _) as [|existing|l]; [| |exact Hs]; cbn [snd].
    + split; [|exact His].
      cbn [Bank.insert_stock Bank.with_inventory Bank.blood_inventory].
      apply Forall_app. split; [exact Hst | constructor; [exact Ha | constructor]].
    + split; [|exact His].
      cbn [Bank.update_quantity Bank.with_inventory Bank.blood_inventory].
      apply Forall_update_where; [exact Hst|]. intros r _ _. exact Ha.
  - unfold Bank.blood_inventory_issue.
    destruct (_ && _); [exact Hs|].
    destruct qty as [q|]; [|exact Hs].
    destruct (negb _); [exact Hs|].
    destruct (q <? 1) eqn:Hq; [exact Hs|]. apply Z.ltb_ge in Hq.
    destruct (Bank.stock_of _ _ _) as [|inv|l]; [exact Hs| |exact Hs].
    destruct (Bank.st_quantity_units inv <? q) eqn:Henough; [exact Hs|].
    apply Z.ltb_ge in Henough. cbv zeta. cbn [snd]. split.
    + cbn [Bank.with_issuances Bank.update_quantity Bank.with_inventory
             Bank.blood_inventory].
      apply Forall_update_where; [exact Hst|]. intros r _ _.
      cbn [Bank.set_quantity Bank.st_quantity_units]. lia.
    + cbn [Bank.with_issuances Bank.update_quantity Bank.with_inventory
             Bank.blood_inventory_issuances].
      apply Forall_app. split; [exact His|].
      constructor; [cbn [Bank.is_quantity_units]; lia | constructor].
  - unfold Bank.blood_inventory_issuance_update.
    destruct (_ && _); [exact Hs|].
    destruct (select_one _ _) as [row|] eqn:Hsel; [|exact Hs].
    destruct (_ && _); [exact Hs|]. cbv zeta.
    assert (Hrow : 0 <= Bank.is_quantity_units row).
    { rewrite Forall_forall in His. apply His. now apply select_one_In in Hsel. }
    set (change := match Bank.pt_status p with Some _ => _ | None => None end).
    assert (Hmid : forall s1,
              (match change with
               | Some new_status =>
                   if String.eqb new_status "reverted" then Bank.restore_units row s
                   else Some s
               | None => Some s
               end) = Some s1 -> Bank.sound s1).
    { intros s1. destruct change as [st|]; [|now intros [= <-]].
      destruct (String.eqb st "reverted"); [|now intros [= <-]].
      now apply restore_units_sound. }
    destruct (match change with Some _ => _ | None => Some s end) as [s1|];
      [|exact Hs].
    specialize (Hmid s1 eq_refl). destruct Hmid as [Hst1 His1].
    destruct (negb _); cbn [snd]; [now split|].
    split; [exact Hst1|].
    cbn [Bank.with_issuances Bank.blood_inventory_issuances].
    apply Forall_update_where; [exact His1|]. intros r Hr _. exact Hr.
  - unfold Bank.blood_inventory_issuance_delete.
    destruct (_ && _); [exact Hs|].
    destruct (select_one _ _) as [row|] eqn:Hsel; [|exact Hs].
    destruct (_ && _); [exact Hs|].
    assert (Hrow : 0 <= Bank.is_quantity_units row).
    { rewrite Forall_forall in His. apply His. now apply select_one_In in Hsel. }
    assert (Hmid : forall s1,
              (if String.eqb (Bank.is_status row) "issued"
               then Bank.restore_units row s else Some s) = Some s1 -> Bank.sound s1).
    { intros s1. destruct (String.eqb _ "issued"); [|now intros [= <-]].
      now apply restore_units_sound. }
    destruct (if String.eqb (Bank.is_status row) "issued" then _ else _) as [s1|];
      [|exact Hs].
    specialize (Hmid s1 eq_refl). destruct Hmid as [Hst1 His1]. cbn [snd].
    split; [exact Hst1|].
    cbn [Bank.with_issuances Bank.blood_inventory_issuances].
    rewrite Forall_forall in *. intros r Hr. apply filter_In in Hr as [Hr _]. now apply His1.
  - unfold Bank.update_inventory_request_status.
    destruct (select_one _ _) as [row|]; [|exact Hs].
    destruct st as [st|]; [|exact Hs].
    destruct (negb _); [exact Hs|]. cbv zeta.
    destruct (_ && _); [exact Hs|].
    destruct (_ && _); [exact Hs|].
    destruct (String.eqb st "cancelled").
    { destruct (Bank.sooner_than_two_hours _ _); [exact Hs|]. now split. }
    destruct (Py.mem (Bank.ir_status row) _); [exact Hs|].
    destruct (String.eqb st "accepted").
    { destruct (Bank.stock_of _ _ _) as [|inv|l]; [now split| |exact Hs].
      destruct (_ <? _); now split. }
    destruct (String.eqb st "rejected"); [now split|].
    cbn [snd]. split; [|destruct (Bank.stock_of _ _ _); exact His].
    destruct (Bank.stock_of _ _ _) as [|inv|l]; [exact Hst| |exact Hst].
    cbn [Bank.update_request Bank.with_requests Bank.update_quantity Bank.with_inventory
           Bank.blood_inventory].
    apply Forall_update_where; [exact Hst|]. intros r _ _.
    cbn [Bank.set_quantity Bank.st_quantity_units]. lia.
Qed.

(** The stock never goes below zero.  Start with no negative quantity in
    the inventory and the issuances, and serve any sequence of requests (by
    anybody) in which no stock is set to a negative quantity: no quantity is
    negative afterwards.  An issue takes only what is there, and a revert or
    a delete only gives back. *)
Theorem stock_is_never_negative :
  forall (requests : list (user * Bank.action)) (s : Bank.tables),
    Bank.sound s ->
    Forall (fun ua => Bank.sets_no_debt (snd ua)) requests ->
    Bank.sound (Bank.served requests s).
Proof.
  induction requests as [|[u a] rest IH]; intros s Hs Hreq; cbn [Bank.served];
    [exact Hs|].
  inversion Hreq as [|? ? Ha Hrest]; subst.
  apply IH; [|exact Hrest]. now apply bank_step_sound.
Qed.

Lemma stock_is_never_negative_witness :
  Bank.sound (Bank.served Bank.back_and_forth Bank.bank).
Proof.
  apply (stock_is_never_negative Bank.back_and_forth Bank.bank).
  - split; [|constructor]. constructor; [vm_compute; discriminate | constructor].
  - repeat constructor.
Defined.

Lemma NoDup_map_key {A : Type} (key : A -> Z) (t : list A) (a b : A) :
  NoDup (map key t) -> In a t -> In b t -> key a = key b -> a = b.
Proof.
  induction t as [|x t IH]; cbn [map In]; [tauto|].
  intros Hnd Ha Hb Hkey. apply NoDup_cons_iff in Hnd as [Hnin Hnd].
  destruct Ha as [->|Ha], Hb as [->|Hb].
  - reflexivity.
  - elim Hnin. rewrite Hkey. now apply in_map.
  - elim Hnin. rewrite <- Hkey. now apply in_map.
  - now apply IH.
Qed.

(** The stock of a bank and type after its only row got a new quantity. *)
Lemma stock_of_update_quantity (bank_id : Z) (bt : string) (s : Bank.tables)
    (inv : Bank.stock) (q : Z) :
  Bank.stock_of bank_id bt s = Bank.OneRow inv ->
  Bank.stock_of bank_id bt (Bank.update_quantity (Bank.st_id inv) q s)
  = Bank.OneRow (Bank.set_quantity q inv).
Proof.
  unfold Bank.stock_of. intros H. apply query_one in H. apply query_one.
  cbn [Bank.update_quantity Bank.with_inventory Bank.blood_inventory].
  rewrite filter_update_where by (intros r; reflexivity).
  rewrite H. cbn [map]. now rewrite Z.eqb_refl.
Qed.

(** Giving back what was taken from a keyed table restores it. *)
Lemma update_quantity_back (s : Bank.tables) (inv : Bank.stock) (q : Z) :
  NoDup (map Bank.st_id (Bank.blood_inventory s)) -> In inv (Bank.blood_inventory s) ->
  Bank.blood_inventory
    (Bank.update_quantity (Bank.st_id inv) (Bank.st_quantity_units inv)
       (Bank.update_quantity (Bank.st_id inv) q s))
  = Bank.blood_inventory s.
Proof.
  intros Hkey Hin.
  cbn [Bank.update_quantity Bank.with_inventory Bank.blood_inventory].
  apply update_where_undo.
  - intros r Hr Hid. apply Z.eqb_eq in Hid.
    assert (r = inv) as -> by (eapply NoDup_map_key; eassumption).
    cbn [Bank.set_quantity Bank.st_id]. rewrite Z.eqb_refl. split; [reflexivity|].
    now destruct inv.
  - intros r _ Hid. exact Hid.
Qed.

Lemma fresh_issuance (s : Bank.tables) :
  Forall (fun r => Bank.is_id r < Bank.blood_inventory_issuances_next s)
         (Bank.blood_inventory_issuances s) ->
  filter (fun r => Bank.is_id r =? Bank.blood_inventory_issuances_next s)
         (Bank.blood_inventory_issuances s) = []
  /\ filter (fun r => negb (Bank.is_id r =? Bank.blood_inventory_issuances_next s))
            (Bank.blood_inventory_issuances s) = Bank.blood_inventory_issuances s.
Proof.
  intros Hfresh. induction Hfresh as [|r t Hr Ht [IH1 IH2]]; [split; reflexivity|].
  cbn [filter].
  replace (Bank.is_id r =? Bank.blood_inventory_issuances_next s) with false
    by (symmetry; apply Z.eqb_neq; lia).
  cbn [negb]. now rewrite IH1, IH2.
Qed.

(** The store after a successful issue. *)
Lemma issue_effect (u : user) (bt : string) (qty : Z)
    (purpose name contact : option Py.str) (s : Bank.tables) (inv : Bank.stock) :
  Bank._require_blood_bank u || _require_admin u = true ->
  Py.mem bt Bank.VALID_BLOOD_TYPES = true ->
  Bank.stock_of (u_id u) bt s = Bank.OneRow inv ->
  1 <= qty <= Bank.st_quantity_units inv ->
  Bank.blood_inventory_issue u bt (Some qty) purpose name contact s
  = (Bank.Id (Bank.blood_inventory_issuances_next s),
     Bank.with_issuances
       (Bank.update_quantity (Bank.st_id inv) (Bank.st_quantity_units inv - qty) s)
       (Bank.blood_inventory_issuances s
        ++ [{| Bank.is_id := Bank.blood_inventory_issuances_next s;
               Bank.is_bank_user_id := u_id u; Bank.is_blood_type := bt;
               Bank.is_quantity_units := qty; Bank.is_status := Bank.status_default s;
               Bank.is_purpose := purpose;
               Bank.is_issued_to_name := Some (Bank.limit_255 name);
               Bank.is_issued_to_contact := Some (Bank.limit_255 contact) |}])
       (Bank.blood_inventory_issuances_next s + 1)).
Proof.
  intros Hrole Hbt Hinv Hqty. unfold Bank.blood_inventory_issue.
  replace (negb (Bank._require_blood_bank u) && negb (_require_admin u)) with false
    by (destruct (Bank._require_blood_bank u), (_require_admin u); try reflexivity;
        discriminate).
  rewrite Hbt, Hinv. cbn [negb].
  replace (qty <? 1) with false by (symmetry; apply Z.ltb_ge; lia).
  replace (Bank.st_quantity_units inv <? qty) with false by (symmetry; apply Z.ltb_ge; lia).
  reflexivity.
Qed.

(** Round trips of an issue.  In tables whose ids are keys, with new
    issuances born 'issued', take units of the only stock row of the
    caller's bank and a blood type: the answer is the id of the new issuance
    and the stock is lower by the units taken.  Deleting that issuance then
    restores both tables; reverting it instead restores the inventory and
    leaves the issuance 'reverted'. *)
Theorem issue_round_trips :
  forall (u : user) (bt : string) (qty : Z) (purpose name contact : option Py.str)
         (s : Bank.tables) (inv : Bank.stock),
    Bank._require_blood_bank u || _require_admin u = true ->
    Py.mem bt Bank.VALID_BLOOD_TYPES = true ->
    Bank.keyed s ->
    Bank.status_default s = "issued" ->
    Bank.stock_of (u_id u) bt s = Bank.OneRow inv ->
    1 <= qty <= Bank.st_quantity_units inv ->
    let iid := Bank.blood_inventory_issuances_next s in
    let s1 := snd (Bank.blood_inventory_issue u bt (Some qty) purpose name contact s) in
    fst (Bank.blood_inventory_issue u bt (Some qty) purpose name contact s) = Bank.Id iid
    /\ Bank.stock_of (u_id u) bt s1
       = Bank.OneRow (Bank.set_quantity (Bank.st_quantity_units inv - qty) inv)
    /\ (fst (Bank.blood_inventory_issuance_delete u iid s1) = Bank.Ok
        /\ Bank.blood_inventory (snd (Bank.blood_inventory_issuance_delete u iid s1))
           = Bank.blood_inventory s
        /\ Bank.blood_inventory_issuances
             (snd (Bank.blood_inventory_issuance_delete u iid s1))
           = Bank.blood_inventory_issuances s)
    /\ (fst (Bank.blood_inventory_issuance_update u iid (Bank.status_only "reverted") s1)
        = Bank.Ok
        /\ Bank.blood_inventory
             (snd (Bank.blood_inventory_issuance_update u iid
                     (Bank.status_only "reverted") s1))
           = Bank.blood_inventory s
        /\ option_map Bank.is_status
             (select_one (fun r => Bank.is_id r =? iid)
                (Bank.blood_inventory_issuances
                   (snd (Bank.blood_inventory_issuance_update u iid
                           (Bank.status_only "reverted") s1))))
           = Some "reverted").
Proof.
  intros u bt qty purpose name contact s inv Hrole Hbt (Hkey & _ & _ & Hfresh) Hdefault
         Hinv Hqty.
  cbv zeta. rewrite (issue_effect u bt qty purpose name contact s inv) by assumption.
  cbn [fst snd].
  set (row := {| Bank.is_id := _; Bank.is_status := Bank.status_default s |}).
  set (s0 := Bank.update_quantity _ _ s).
  set (s1 := Bank.with_issuances s0 _ _).
  destruct (fresh_issuance s Hfresh) as [Hnone Hall].
  destruct (query_one_holds _ _ _ Hinv) as [Hin _].
  assert (Hrolef : negb (Bank._require_blood_bank u) && negb (_require_admin u) = false)
    by (destruct (Bank._require_blood_bank u), (_require_admin u); try reflexivity;
        discriminate).
  assert (Hsel : select_one (fun r => Bank.is_id r =? Bank.blood_inventory_issuances_next s)
                   (Bank.blood_inventory_issuances s1) = Some row).
  { unfold select_one, s1. cbn [Bank.with_issuances Bank.blood_inventory_issuances].
    unfold s0. cbn [Bank.update_quantity Bank.with_inventory Bank.blood_inventory_issuances].
    rewrite filter_app, Hnone. cbn [filter app row Bank.is_id]. now rewrite Z.eqb_refl. }
  assert (Hstock : Bank.stock_of (u_id u) bt s1
                   = Bank.OneRow (Bank.set_quantity (Bank.st_quantity_units inv - qty) inv)).
  { change (Bank.stock_of (u_id u) bt s1) with (Bank.stock_of (u_id u) bt s0).
    now apply stock_of_update_quantity. }
  assert (Hrestore : exists s2,
            Bank.restore_units row s1 = Some s2
            /\ Bank.blood_inventory s2 = Bank.blood_inventory s
            /\ Bank.blood_inventory_issuances s2 = Bank.blood_inventory_issuances s1
            /\ Bank.blood_inventory_issuances_next s2
               = Bank.blood_inventory_issuances_next s1).
  { unfold Bank.restore_units.
    change (Bank.is_bank_user_id row) with (u_id u).
    change (Bank.is_blood_type row) with bt.
    change (Bank.is_quantity_units row) with qty.
    rewrite Hstock. eexists. split; [reflexivity|].
    cbn [Bank.set_quantity Bank.st_id Bank.st_quantity_units].
    replace (Bank.st_quantity_units inv - qty + qty) with (Bank.st_quantity_units inv)
      by ring.
    split; [|split; reflexivity].
    change (Bank.blood_inventory
              (Bank.update_quantity (Bank.st_id inv) (Bank.st_quantity_units inv) s1))
      with (Bank.blood_inventory
              (Bank.update_quantity (Bank.st_id inv) (Bank.st_quantity_units inv)
                 (Bank.update_quantity (Bank.st_id inv) (Bank.st_quantity_units inv - qty)
                    s))).
    apply update_quantity_back; assumption. }
  destruct Hrestore as (s2 & Hs2 & Hinv2 & Hiss2 & Hnext2).
  split; [reflexivity|]. split; [exact Hstock|]. split.
  - unfold Bank.blood_inventory_issuance_delete. rewrite Hrolef, Hsel.
    replace (negb (_require_admin u) && negb (Bank.is_bank_user_id row =? u_id u))
      with false
      by (cbn [row Bank.is_bank_user_id]; rewrite Z.eqb_refl; now rewrite andb_false_r).
    replace (String.eqb (Bank.is_status row) "issued") with true
      by (cbn [row Bank.is_status]; now rewrite Hdefault).
    rewrite Hs2. cbn [fst snd Bank.with_issuances Bank.blood_inventory
                        Bank.blood_inventory_issuances].
    split; [reflexivity|]. split; [exact Hinv2|].
    rewrite Hiss2. unfold s1. cbn [Bank.with_issuances Bank.blood_inventory_issuances].
    unfold s0. cbn [Bank.update_quantity Bank.with_inventory Bank.blood_inventory_issuances].
    rewrite filter_app, Hall. cbn [filter row Bank.is_id]. rewrite Z.eqb_refl.
    cbn [negb]. apply app_nil_r.
  - unfold Bank.blood_inventory_issuance_update. rewrite Hrolef, Hsel.
    replace (negb (_require_admin u) && negb (Bank.is_bank_user_id row =? u_id u))
      with false
      by (cbn [row Bank.is_bank_user_id]; rewrite Z.eqb_refl; now rewrite andb_false_r).
    cbv zeta. cbn [Bank.status_only Bank.pt_status Bank.pt_purpose Bank.pt_issued_to_name
                     Bank.pt_issued_to_contact Bank.is_some].
    replace (Py.mem "reverted" ["issued"; "reverted"]
             && negb (String.eqb (Bank.is_status row) "reverted")) with true
      by (cbn [row Bank.is_status]; now rewrite Hdefault).
    cbn [String.eqb Ascii.eqb Bool.eqb]. rewrite Hs2.
    cbn [Bank.is_some orb negb fst snd Bank.with_issuances Bank.blood_inventory
           Bank.blood_inventory_issuances].
    split; [reflexivity|]. split; [exact Hinv2|].
    rewrite Hiss2.
    erewrite select_one_update_where; [|intros x; reflexivity | exact Hsel].
    cbn [row Bank.is_id]. rewrite Z.eqb_refl. reflexivity.
Qed.

Lemma issue_round_trips_witness :
  Bank.blood_inventory
    (snd (Bank.blood_inventory_issuance_delete Bank.clerk 1
            (snd (Bank.blood_inventory_issue Bank.clerk "O+" (Some 4) None None None
                    Bank.bank))))
  = Bank.blood_inventory Bank.bank.
Proof.
  refine (proj1 (proj2 (proj1 (proj2 (proj2
            (issue_round_trips Bank.clerk "O+" 4 None None None Bank.bank Bank.o_positive
               _ _ _ _ _ _)))))).
  - reflexivity.
  - reflexivity.
  - repeat split; repeat constructor; cbn; intuition discriminate.
  - reflexivity.
  - reflexivity.
  - cbn. lia.
Defined.

(** Units that were given back are not taken again.  Setting a reverted
    issuance back to 'issued' is answered ok and makes it 'issued', but
    leaves the inventory as it is; reverting it once more then adds its
    units to the stock a second time.  Each such round adds the units of the
    issuance to the stock. *)
Theorem reissue_takes_no_units :
  forall (u : user) (id : Z) (s : Bank.tables) (row : Bank.issuance) (inv : Bank.stock),
    Bank._require_blood_bank u || _require_admin u = true ->
    select_one (fun r => Bank.is_id r =? id) (Bank.blood_inventory_issuances s) = Some row ->
    _require_admin u || (Bank.is_bank_user_id row =? u_id u) = true ->
    Bank.is_status row = "reverted" ->
    Bank.stock_of (Bank.is_bank_user_id row) (Bank.is_blood_type row) s = Bank.OneRow inv ->
    let s1 := snd (Bank.blood_inventory_issuance_update u id (Bank.status_only "issued") s) in
    let s2 :=
      snd (Bank.blood_inventory_issuance_update u id (Bank.status_only "reverted") s1) in
    fst (Bank.blood_inventory_issuance_update u id (Bank.status_only "issued") s) = Bank.Ok
    /\ Bank.blood_inventory s1 = Bank.blood_inventory s
    /\ option_map Bank.is_status
         (select_one (fun r => Bank.is_id r =? id) (Bank.blood_inventory_issuances s1))
       = Some "issued"
    /\ fst (Bank.blood_inventory_issuance_update u id (Bank.status_only "reverted") s1)
       = Bank.Ok
    /\ Bank.stock_of (Bank.is_bank_user_id row) (Bank.is_blood_type row) s2
       = Bank.OneRow
           (Bank.set_quantity (Bank.st_quantity_units inv + Bank.is_quantity_units row) inv).
Proof.
  intros u id s row inv Hrole Hsel Hown Hst Hinv.
  assert (Hrolef : negb (Bank._require_blood_bank u) && negb (_require_admin u) = false)
    by (destruct (Bank._require_blood_bank u), (_require_admin u); try reflexivity;
        discriminate).
  assert (Hownf : negb (_require_admin u) && negb (Bank.is_bank_user_id row =? u_id u)
                  = false)
    by (destruct (_require_admin u), (Bank.is_bank_user_id row =? u_id u);
        try reflexivity; discriminate).
  destruct (select_one_holds _ _ _ Hsel) as [Hid _].
  assert (H1 : Bank.blood_inventory_issuance_update u id (Bank.status_only "issued") s
               = (Bank.Ok,
                  Bank.with_issuances s
                    (update_where (fun r => Bank.is_id r =? id)
                       (Bank.apply_patch (Bank.status_only "issued") (Some "issued"))
                       (Bank.blood_inventory_issuances s))
                    (Bank.blood_inventory_issuances_next s))).
  { unfold Bank.blood_inventory_issuance_update. rewrite Hrolef, Hsel, Hownf, Hst.
    reflexivity. }
  cbv zeta. rewrite H1. cbn [fst snd].
  set (s1 := Bank.with_issuances s _ _).
  set (row1 := Bank.apply_patch (Bank.status_only "issued") (Some "issued") row).
  assert (Hsel1 : select_one (fun r => Bank.is_id r =? id) (Bank.blood_inventory_issuances s1)
                  = Some row1).
  { unfold s1. cbn [Bank.with_issuances Bank.blood_inventory_issuances].
    erewrite select_one_update_where; [|intros x; reflexivity | exact Hsel].
    now rewrite Hid. }
  assert (H2 : Bank.blood_inventory_issuance_update u id (Bank.status_only "reverted") s1
               = (Bank.Ok,
                  Bank.with_issuances
                    (Bank.update_quantity (Bank.st_id inv)
                       (Bank.st_quantity_units inv + Bank.is_quantity_units row) s1)
                    (update_where (fun r => Bank.is_id r =? id)
                       (Bank.apply_patch (Bank.status_only "reverted") (Some "reverted"))
                       (Bank.blood_inventory_issuances s1))
                    (Bank.blood_inventory_issuances_next s1))).
  { unfold Bank.blood_inventory_issuance_update. rewrite Hrolef, Hsel1.
    change (Bank.is_bank_user_id row1) with (Bank.is_bank_user_id row). rewrite Hownf.
    cbv zeta. change (Bank.is_status row1) with "issued".
    cbn [Bank.status_only Bank.pt_status Py.mem existsb String.eqb Ascii.eqb Bool.eqb
           orb andb negb].
    unfold Bank.restore_units.
    change (Bank.is_bank_user_id row1) with (Bank.is_bank_user_id row).
    change (Bank.is_blood_type row1) with (Bank.is_blood_type row).
    change (Bank.is_quantity_units row1) with (Bank.is_quantity_units row).
    change (Bank.stock_of (Bank.is_bank_user_id row) (Bank.is_blood_type row) s1)
      with (Bank.stock_of (Bank.is_bank_user_id row) (Bank.is_blood_type row) s).
    rewrite Hinv. reflexivity. }
  rewrite H2. cbn [fst snd].
  split; [reflexivity|]. split; [reflexivity|]. split; [now rewrite Hsel1|].
  split; [reflexivity|].
  change (Bank.stock_of (Bank.is_bank_user_id row) (Bank.is_blood_type row)
            (Bank.with_issuances
               (Bank.update_quantity (Bank.st_id inv)
                  (Bank.st_quantity_units inv + Bank.is_quantity_units row) s1) _ _))
    with (Bank.stock_of (Bank.is_bank_user_id row) (Bank.is_blood_type row)
            (Bank.update_quantity (Bank.st_id inv)
               (Bank.st_quantity_units inv + Bank.is_quantity_units row) s)).
  now apply stock_of_update_quantity.
Qed.

Lemma reissue_takes_no_units_witness :
  Bank.units 30 "O+" Bank.bank = 10
  /\ Bank.units 30 "O+" (Bank.served Bank.back_and_forth Bank.bank) = 14
  /\ Bank.stock_of 30 "O+" (Bank.served Bank.back_and_forth Bank.bank)
     = Bank.OneRow (Bank.set_quantity 14 Bank.o_positive).
Proof.
  split; [vm_compute; reflexivity|]. split; [vm_compute; reflexivity|].
  pose (s := Bank.served (firstn 2 Bank.back_and_forth) Bank.bank).
  pose (row := {| Bank.is_id := 1; Bank.is_bank_user_id := 30; Bank.is_blood_type := "O+";
                  Bank.is_quantity_units := 4; Bank.is_status := "reverted";
                  Bank.is_purpose := None; Bank.is_issued_to_name := Some (Py.str_of "Ward 3");
                  Bank.is_issued_to_contact := Some [] |}).
  refine (proj2 (proj2 (proj2 (proj2
            (reissue_takes_no_units Bank.clerk 1 s row Bank.o_positive _ _ _ _ _))))).
  - reflexivity.
  - vm_compute. reflexivity.
  - reflexivity.
  - reflexivity.
  - vm_compute. reflexivity.
Defined.

(** One status update of a finished request: the inventory is as before
    and the request is still finished. *)
Lemma finished_step (now : datetime) (u : user) (id : Z) (st : option string)
    (reason : option Py.str)
    (s : Bank.tables) :
  Bank.finished id s ->
  Bank.blood_inventory (snd (Bank.update_inventory_request_status now u id st reason s))
  = Bank.blood_inventory s
  /\ Bank.finished id (snd (Bank.update_inventory_request_status now u id st reason s)).
Proof.
  intros (row & Hsel & Hfin). pose proof (select_one_holds _ _ _ Hsel) as [Hid _].
  assert (Hkeep : Bank.blood_inventory s = Bank.blood_inventory s /\ Bank.finished id s)
    by (split; [reflexivity | now exists row]).
  unfold Bank.update_inventory_request_status. rewrite Hsel.
  destruct st as [st|]; [|exact Hkeep].
  destruct (negb _); [exact Hkeep|]. cbv zeta.
  destruct (_ && _); [exact Hkeep|].
  destruct (_ && _); [exact Hkeep|].
  destruct (String.eqb st "cancelled").
  - destruct (Bank.sooner_than_two_hours _ _); [exact Hkeep|].
    cbn [snd]. split; [reflexivity|].
    exists (Bank.set_request_status "cancelled" None row). split; [|reflexivity].
    cbn [Bank.update_request Bank.with_requests Bank.blood_inventory_requests].
    erewrite select_one_update_where; [|intros x; reflexivity | exact Hsel].
    now rewrite Hid.
  - rewrite Hfin. exact Hkeep.
Qed.

(** A finished request takes no units.  Once a request is rejected,
    cancelled or completed, no sequence of status updates of that request,
    by anybody and at any time, changes the inventory, and the request stays
    finished: a completed request cannot be completed a second time, nor
    after it was cancelled. *)
Theorem finished_request_takes_no_units :
  forall (id : Z) (calls : list (user * (datetime * option string * option Py.str)))
         (s : Bank.tables),
    Bank.finished id s ->
    let requests :=
      map (fun c => (fst c, Bank.RequestStatus (fst (fst (snd c))) id
                              (snd (fst (snd c))) (snd (snd c)))) calls in
    Bank.blood_inventory (Bank.served requests s) = Bank.blood_inventory s
    /\ Bank.finished id (Bank.served requests s).
Proof.
  intros id calls. cbv zeta.
  induction calls as [|[u [[now st] reason]] rest IH]; intros s Hfin;
    cbn [map Bank.served fst snd Bank.run].
  - split; [reflexivity | exact Hfin].
  - destruct (finished_step now u id st reason s Hfin) as [Hinv Hfin'].
    destruct (IH _ Hfin') as [Hinv' Hfin''].
    split; [now rewrite Hinv', Hinv | exact Hfin''].
Qed.

Lemma finished_request_takes_no_units_witness :
  Bank.blood_inventory
    (Bank.served
       [ (Bank.clerk, Bank.RequestStatus (at_hm monday 8 0) 1 (Some "completed") None);
         (Bank.clerk, Bank.RequestStatus (at_hm (monday - 1) 8 0) 1 (Some "cancelled") None);
         (Bank.clerk, Bank.RequestStatus (at_hm monday 8 0) 1 (Some "completed") None) ]
       Bank.bank)
  = Bank.blood_inventory Bank.bank.
Proof.
  refine (proj1 (finished_request_takes_no_units 1
                   [ (Bank.clerk, (at_hm monday 8 0, Some "completed", None));
                     (Bank.clerk, (at_hm (monday - 1) 8 0, Some "cancelled", None));
                     (Bank.clerk, (at_hm monday 8 0, Some "completed", None)) ]
                   Bank.bank _)).
  exists Bank.delivered. split; reflexivity.
Defined.

(** 'immutable' does not cover cancelling.  A request that is rejected,
    cancelled or completed answers 'immutable' to an accept, a reject or a
    completion by its bank and stays as it is; but its requester (or the
    bank) can still cancel it when the target time is two hours away or
    more: the answer is ok, a completed request becomes 'cancelled', and the
    units its completion took stay taken. *)
Theorem finished_request_can_still_be_cancelled :
  forall (now : datetime) (u : user) (id : Z) (reason : option Py.str) (s : Bank.tables)
         (row : Bank.inventory_request) (target : datetime),
    select_one (fun r => Bank.ir_id r =? id) (Bank.blood_inventory_requests s) = Some row ->
    Py.mem (Bank.ir_status row) ["rejected"; "cancelled"; "completed"] = true ->
    Bank.ir_target_datetime row = Some target ->
    two_hours <= target - now ->
    (u_id u = Bank.ir_bank_user_id row ->
     forall st, Py.mem st ["accepted"; "rejected"; "completed"] = true ->
       Bank.update_inventory_request_status now u id (Some st) reason s
       = (Bank.Error "immutable" 400, s))
    /\ (u_id u = Bank.ir_requester_user_id row \/ u_id u = Bank.ir_bank_user_id row ->
        fst (Bank.update_inventory_request_status now u id (Some "cancelled") reason s)
        = Bank.Ok
        /\ select_one (fun r => Bank.ir_id r =? id)
             (Bank.blood_inventory_requests
                (snd (Bank.update_inventory_request_status now u id (Some "cancelled")
                        reason s)))
           = Some (Bank.set_request_status "cancelled" None row)
        /\ Bank.blood_inventory
             (snd (Bank.update_inventory_request_status now u id (Some "cancelled")
                     reason s))
           = Bank.blood_inventory s).
Proof.
  intros now u id reason s row target Hsel Hfin Htarget Htime.
  pose proof (select_one_holds _ _ _ Hsel) as [Hid _].
  split.
  - intros Hbank st Hst. unfold Bank.update_inventory_request_status. rewrite Hsel.
    replace (Py.mem st ["accepted"; "rejected"; "cancelled"; "completed"]) with true.
    2:{ symmetry. unfold Py.mem in *. cbn [existsb] in *.
        destruct (String.eqb st "accepted"), (String.eqb st "rejected"),
          (String.eqb st "cancelled"), (String.eqb st "completed");
          try reflexivity; discriminate. }
    cbv zeta. rewrite Hst, Hbank, Z.eqb_refl. cbn [negb orb andb].
    replace (String.eqb st "cancelled") with false.
    2:{ symmetry. apply String.eqb_neq. intros ->. discriminate. }
    cbn [andb]. now rewrite Hfin.
  - intros Hwho. unfold Bank.update_inventory_request_status. rewrite Hsel.
    cbn [Py.mem existsb String.eqb Ascii.eqb Bool.eqb orb andb negb]. cbv zeta.
    replace (negb ((u_id u =? Bank.ir_bank_user_id row) || _require_admin u
                   || (u_id u =? Bank.ir_requester_user_id row))) with false.
    2:{ symmetry. apply negb_false_iff.
        destruct Hwho as [-> | ->]; rewrite Z.eqb_refl;
          [apply orb_true_r | reflexivity]. }
    unfold Bank.sooner_than_two_hours. rewrite Htarget.
    replace (target - now <? two_hours) with false by (symmetry; apply Z.ltb_ge; lia).
    cbn [fst snd Bank.update_request Bank.with_requests Bank.blood_inventory_requests
           Bank.blood_inventory].
    split; [reflexivity|]. split; [|reflexivity].
    erewrite select_one_update_where; [|intros x; reflexivity | exact Hsel].
    now rewrite Hid.
Qed.

Lemma finished_request_can_still_be_cancelled_witness :
  fst (Bank.update_inventory_request_status (at_hm (monday - 1) 8 0)
         {| u_id := 101; u_role := "user" |} 1 (Some "cancelled") None Bank.bank)
  = Bank.Ok.
Proof.
  refine (proj1 (proj2 (finished_request_can_still_be_cancelled (at_hm (monday - 1) 8 0)
                          {| u_id := 101; u_role := "user" |} 1 None Bank.bank
                          Bank.delivered (at_hm monday 9 0) _ _ _ _) _)).
  - reflexivity.
  - reflexivity.
  - reflexivity.
  - vm_compute. discriminate.
  - left. reflexivity.
Defined.

(** * The doctor's list *)

Lemma swept_refl (d today : Z) (s : store) : swept d today s s.
Proof. exists (fun a => a). rewrite map_id. split; [reflexivity | now left]. Qed.

Lemma swept_trans (d today : Z) (s1 s2 s3 : store) :
  swept d today s1 s2 -> swept d today s2 s3 -> swept d today s1 s3.
Proof.
  intros (f & Hf & Hrow) (g & Hg & Hrow').
  exists (fun a => g (f a)). split; [now rewrite Hg, Hf, map_map|].
  intros a. destruct (Hrow a) as [Hfa | (Hfa & Hd & Hb & Hday)].
  - rewrite Hfa. apply Hrow'.
  - right. destruct (Hrow' (f a)) as [Hg' | (_ & _ & Hb' & _)].
    + rewrite Hg'. now repeat split.
    + rewrite Hfa in Hb'. discriminate.
Qed.

Lemma swept_update (d today : Z) (s : store) (cond : appointment -> bool) :
  (forall a, cond a = true ->
     ap_doctor_user_id a = d /\ ap_status a = booked /\ DATE (ap_starts_at a) <= today) ->
  swept d today s (update_appointments cond (set_ap_status done) s).
Proof.
  intros Hcond. exists (fun a => if cond a then set_ap_status done a else a).
  split; [reflexivity|]. intros a. destruct (cond a) eqn:Hc; [|now left].
  right. split; [reflexivity|]. now apply Hcond.
Qed.

Lemma fold_auto_complete_swept (later_than : string -> bool) (d today wk : Z)
    (hospitals : list Z) (s : store) :
  swept d today s (fold_left (auto_complete_today later_than d today wk) hospitals s).
Proof.
  revert s. induction hospitals as [|hid rest IH]; intros s; cbn [fold_left].
  - apply swept_refl.
  - eapply swept_trans; [|apply IH].
    unfold auto_complete_today.
    destruct (negb (Py.truthy_int hid)); [apply swept_refl|]. cbv zeta.
    destruct (negb (Py.truthy_str _)); [apply swept_refl|].
    apply swept_update. intros a Ha.
    apply andb_prop in Ha as [Ha _]. apply andb_prop in Ha as [Ha Hday].
    apply andb_prop in Ha as [Ha Hb]. apply andb_prop in Ha as [Hd _].
    apply Z.eqb_eq in Hd, Hday. apply status_eqb_eq in Hb. repeat split; [assumption..|lia].
Qed.

Lemma In_order_by_starts_at_desc (a : appointment) (l : list appointment) :
  In a (order_by_starts_at_desc l) <-> In a l.
Proof.
  assert (Hins : forall x l, In a (insert_by_starts_at_desc x l) <-> a = x \/ In a l).
  { intros x l0. induction l0 as [|y l0 IH]; cbn [insert_by_starts_at_desc In];
      [intuition auto|].
    destruct (_ <? _); cbn [In]; [intuition auto|]. rewrite IH. intuition auto. }
  unfold order_by_starts_at_desc.
  induction l as [|x l IH]; cbn [fold_right In]; [tauto|].
  rewrite Hins, IH. intuition auto.
Qed.

(** Opening the doctor's list completes the past, and only that.  The
    sweep leaves every row in place and touches only booked appointments of
    the calling doctor that start today or before, which it may set to
    'done': appointments of other doctors, appointments of later days and
    appointments that are not 'booked' are as they were.  For a user who is
    a doctor somewhere or has an appointment, with the statement going
    through, every booked appointment of a past day is 'done' afterwards;
    and the rows listed are the doctor's rows of the table as it is then. *)
Theorem doctors_list_completes_the_past :
  forall (e : env) (d : Z) (later_than : string -> bool) (s : store),
    let s' := snd (list_doctor_appointments e d later_than s) in
    exists f : appointment -> appointment,
      appointments s' = map f (appointments s)
      /\ (forall a,
            f a = a
            \/ (f a = set_ap_status done a /\ ap_doctor_user_id a = d
                /\ ap_status a = booked /\ DATE (ap_starts_at a) <= DATE (now e)))
      /\ (forall rows,
            fst (list_doctor_appointments e d later_than s) = Listed rows ->
            (forall a, In a rows <-> In a (appointments s') /\ ap_doctor_user_id a = d)
            /\ (write_ok e = true ->
                forall a, ap_doctor_user_id a = d -> ap_status a = booked ->
                          DATE (ap_starts_at a) < DATE (now e) ->
                          f a = set_ap_status done a)).
Proof.
  intros e d later_than s. cbv zeta. unfold list_doctor_appointments.
  destruct (_ && _).
  { exists (fun a => a). rewrite map_id. cbn [fst snd].
    split; [reflexivity|]. split; [now left | discriminate]. }
  cbv zeta. cbn [fst snd].
  destruct (write_ok e).
  - set (past := fun a => (ap_doctor_user_id a =? d) && status_eqb (ap_status a) booked
                          && (DATE (ap_starts_at a) <? DATE (now e))).
    set (s1 := update_appointments past (set_ap_status done) s).
    set (hospitals := nodup Z.eq_dec _).
    destruct (fold_auto_complete_swept later_than d (DATE (now e))
                ((py_weekday (DATE (now e)) + 1) mod 7) hospitals s1)
      as (g & Hg & Hrow).
    exists (fun a => g (if past a then set_ap_status done a else a)).
    split; [rewrite Hg; unfold s1; cbn [update_appointments with_appointments appointments];
            unfold update_where; now rewrite map_map|].
    assert (Hdone : forall a, g (set_ap_status done a) = set_ap_status done a).
    { intros a. destruct (Hrow (set_ap_status done a)) as [H | (_ & _ & Hb & _)];
        [exact H | discriminate]. }
    split.
    + intros a. destruct (past a) eqn:Hpast; [|apply Hrow].
      right. rewrite Hdone. split; [reflexivity|].
      unfold past in Hpast. apply andb_prop in Hpast as [Hpast Hday].
      apply andb_prop in Hpast as [Hd Hb].
      apply Z.eqb_eq in Hd. apply status_eqb_eq in Hb. apply Z.ltb_lt in Hday.
      repeat split; [assumption..|lia].
    + intros rows [= <-]. split.
      * intros a. rewrite In_order_by_starts_at_desc, filter_In, Z.eqb_eq. reflexivity.
      * intros _ a Hd Hb Hday.
        replace (past a) with true; [apply Hdone|].
        unfold past. rewrite Hd, Hb, Z.eqb_refl. cbn [status_eqb andb].
        symmetry. now apply Z.ltb_lt.
  - exists (fun a => a). rewrite map_id.
    split; [reflexivity|]. split; [now left|].
    intros rows [= <-]. split; [|discriminate].
    intros a. rewrite In_order_by_starts_at_desc, filter_In, Z.eqb_eq. reflexivity.
Qed.

Lemma doctors_list_completes_the_past_witness :
  exists f : appointment -> appointment,
    appointments (snd (list_doctor_appointments (monday_clock 32 0 0) 20
                         (fun _ => false) after_two_visits))
    = map f (appointments after_two_visits)
    /\ map ap_status
         (appointments (snd (list_doctor_appointments (monday_clock 32 0 0) 20
                               (fun _ => false) after_two_visits)))
       = [done; done].
Proof.
  destruct (doctors_list_completes_the_past (monday_clock 32 0 0) 20 (fun _ => false)
              after_two_visits) as (f & Hmap & _).
  exists f. split; [exact Hmap | vm_compute; reflexivity].
Defined.

(** * The hospital's doctors and their schedules *)








Lemma insert_by_start_not_nil (x : doctor_schedule) (l : list doctor_schedule) :
  insert_by_start x l <> [].
Proof. destruct l as [|y r]; cbn [insert_by_start]; [|destruct (String.leb _ _)]; discriminate. Qed.











(** Taking a doctor off the list stops the bookings and nothing else.  When
    the hospital (or an admin) removes a doctor and the DELETE goes through,
    the answer is ok, every later booking for that doctor at that hospital
    is answered [not_member] and changes nothing, and the doctor's schedule
    blocks and appointments are as they were. *)
Theorem removed_doctor_is_refused :
  forall (e e' : env) (u : user) (h d p : Z) (rq : book_appointment_request)
         (st en : datetime) (s : store),
    manages u h = true -> write_ok e = true ->
    ra_doctor_user_id rq = d -> ra_hospital_user_id rq = h ->
    ra_starts_at rq = Some st -> ra_ends_at rq = Some en ->
    Py.truthy_int d = true -> Py.truthy_int h = true ->
    fst (remove_doctor_from_hospital e u h d s) = JsonOk None
    /\ book_appointment e' p rq (snd (remove_doctor_from_hospital e u h d s))
       = (err "not_member" 400, snd (remove_doctor_from_hospital e u h d s))
    /\ doctor_schedules (snd (remove_doctor_from_hospital e u h d s)) = doctor_schedules s
    /\ appointments (snd (remove_doctor_from_hospital e u h d s)) = appointments s.
Proof.
  intros e e' u h d p rq st en s Hman Hw Hd Hh Hst Hen Htd Hth.
  unfold remove_doctor_from_hospital. rewrite Hman, Hw. cbn [negb fst snd].
  split; [reflexivity|]. split; [|split; reflexivity].
  unfold book_appointment. rewrite Hst, Hen, Hd, Hh, Htd, Hth. cbn [andb negb].
  cbn [hospital_doctors with_hospital_doctors].
  replace (existsb _ _) with false; [reflexivity|].
  symmetry. apply not_true_is_false. intros Hex.
  apply existsb_exists in Hex as (hd & Hin & Hhd).
  apply filter_In in Hin as [_ Hout]. now rewrite Hhd in Hout.
Qed.

Lemma removed_doctor_is_refused_witness :
  fst (remove_doctor_from_hospital calm hospital_owner 10 20 after_two_visits) = JsonOk None
  /\ book_appointment calm 203 (visit 10 0 10 15)
       (snd (remove_doctor_from_hospital calm hospital_owner 10 20 after_two_visits))
     = (err "not_member" 400,
        snd (remove_doctor_from_hospital calm hospital_owner 10 20 after_two_visits))
  /\ doctor_schedules
       (snd (remove_doctor_from_hospital calm hospital_owner 10 20 after_two_visits))
     = doctor_schedules after_two_visits
  /\ appointments
       (snd (remove_doctor_from_hospital calm hospital_owner 10 20 after_two_visits))
     = appointments after_two_visits.
Proof.
  apply (removed_doctor_is_refused calm calm hospital_owner 10 20 203 (visit 10 0 10 15)
           (at_hm monday 10 0) (at_hm monday 10 15) after_two_visits); reflexivity.
Defined.

(** A schedule block lists a doctor whom [add_doctor_to_hospital] refuses.
    For a doctor whose account is not active, [add_doctor_to_hospital]
    answers [doctor_not_active] and changes nothing; [add_doctor_schedule]
    with complete and valid fields does not look at the account: it answers
    ok, and the doctor is a member of the hospital afterwards. *)
Theorem schedule_lists_an_inactive_doctor :
  forall (e : env) (as_time : string -> option string) (users : list account) (u : user)
         (h : Z) (rq : schedule_request) (doc hosp : account) (weekday n : Z)
         (st en st' en' : string) (c : float) (s : store),
    manages u h = true -> write_ok e = true ->
    Py.truthy_int (sq_doctor_user_id rq) = true ->
    select_one (fun a => (ac_id a =? h) && String.eqb (ac_role a) "hospital") users
      = Some hosp ->
    select_one (fun a => ac_id a =? sq_doctor_user_id rq) users = Some doc ->
    ac_status doc <> "active"%string ->
    sq_weekday rq = Some weekday ->
    sq_start_time rq = Some st -> as_time st = Some st' ->
    sq_end_time rq = Some en -> as_time en = Some en' ->
    sq_visit_cost rq = Read c -> PrimFloat.ltb c 0%float = false ->
    sq_max_per_day rq = Read n -> 0 < n ->
    add_doctor_to_hospital e users u h (sq_doctor_user_id rq) s
      = (err "doctor_not_active" 400, s)
    /\ fst (add_doctor_schedule e as_time u h rq s) = JsonOk None
    /\ is_member h (sq_doctor_user_id rq) (snd (add_doctor_schedule e as_time u h rq s))
       = true.
Proof.
  intros e as_time users u h rq doc hosp weekday n st en st' en' c s
    Hman Hw Htd Hhosp Hdoc Hstatus Hwd Hst Hst' Hen Hen' Hc Hcost Hn Hpos.
  split.
  - unfold add_doctor_to_hospital. rewrite Hman, Htd, Hhosp, Hdoc. cbn [negb].
    destruct (String.eqb (ac_status doc) "active") eqn:Heq; [|reflexivity].
    apply String.eqb_eq in Heq. contradiction.
  - unfold add_doctor_schedule.
    rewrite Hman, Hwd, Hst, Hen, Hc, Hn, Hcost, Hw. cbn [negb orb].
    apply Z.leb_gt in Hpos. rewrite Hpos. cbv zeta. rewrite Hst', Hen', andb_true_r.
    split; [reflexivity|].
    destruct (is_member h (sq_doctor_user_id rq) s) eqn:Hmem; cbn [negb snd].
    + exact Hmem.
    + unfold is_member. cbn [hospital_doctors with_doctor_schedules with_hospital_doctors].
      rewrite existsb_app. cbn [existsb fst snd]. rewrite !Z.eqb_refl.
      cbn. apply orb_true_r.
Qed.

Lemma schedule_lists_an_inactive_doctor_witness :
  add_doctor_to_hospital calm accounts hospital_owner 10 21 clinic
    = (err "doctor_not_active" 400, clinic)
  /\ fst (add_doctor_schedule calm hm_as_time hospital_owner 10 second_doctor_block clinic)
     = JsonOk None
  /\ is_member 10 21
       (snd (add_doctor_schedule calm hm_as_time hospital_owner 10 second_doctor_block clinic))
     = true.
Proof.
  apply (schedule_lists_an_inactive_doctor calm hm_as_time accounts hospital_owner 10
           second_doctor_block
           {| ac_id := 21; ac_role := "doctor"; ac_status := "suspended" |}
           {| ac_id := 10; ac_role := "hospital"; ac_status := "active" |}
           1 1 "14:00" "16:00" "14:00:00" "16:00:00" 500%float clinic);
    try reflexivity; try discriminate; lia.
Defined.
